(** * ZPL visual editor: scene model, command encoder and decoder, history

    A shallow embedding of the core of [ZPL_visual_editor.py]: the
    [ZPLObject] record, [ZPLParser.parse_zpl_file], [ZPLEditor.generate_zpl]
    and the handlers of [ZPLEditor] that touch the object list, the
    clipboard and the undo/redo stacks.

    Conventions of the embedding.
    - Python [int] is [Z]; Python [str] is [string].  The string functions
      below are exact on strings whose code points are below 128; the
      characters 128..255 are treated as caseless symbols that are neither
      digits nor white space.
    - A handler of the Tk event loop is a total function on the editor
      state: the state it returns is the state at the moment the handler
      returns or is left by an exception.
    - What the Tk canvas computes (the bounding box of a rendered text) and
      what [uuid.uuid4] draws are parameters of the development.  The
      calls to the canvas themselves are taken to complete, and so is the
      drawing of the grid: [draw_grid] steps through the canvas by
      [int(grid_size * zoom)] and raises [ValueError] when snapping is on
      and that step is 0, a case outside this development.
    - Integers are unbounded, as in Python; the optional limit of CPython
      on the number of digits of a decimal string is not modelled. *)

From Stdlib Require Import String Ascii List ZArith Bool Lia QArith.
From Stdlib Require Import DecimalString DecimalZ DecimalFacts DecimalPos.
Import ListNotations.

#[local] Open Scope string_scope.
#[local] Open Scope Z_scope.

(** ** Python strings *)

Module PyStr.

(** The line feed, ['\n']. *)
Definition nl : string := String "010"%char EmptyString.

Definition is_digit (c : ascii) : bool :=
  let n := nat_of_ascii c in (48 <=? n)%nat && (n <=? 57)%nat.

Definition is_upper (c : ascii) : bool :=
  let n := nat_of_ascii c in (65 <=? n)%nat && (n <=? 90)%nat.

Definition is_lower (c : ascii) : bool :=
  let n := nat_of_ascii c in (97 <=? n)%nat && (n <=? 122)%nat.

(** [str.isspace] on one character: tab, line feed, vertical tab, form
    feed, carriage return, the four separators 28..31 and the space. *)
Definition is_space (c : ascii) : bool :=
  let n := nat_of_ascii c in
  ((9 <=? n)%nat && (n <=? 13)%nat) || ((28 <=? n)%nat && (n <=? 32)%nat).

Definition is_empty (s : string) : bool :=
  match s with EmptyString => true | String _ _ => false end.

(** [s.startswith(p)] *)
Definition startswith (s p : string) : bool := String.prefix p s.

(** [s[n:]] *)
Fixpoint drop (n : nat) (s : string) : string :=
  match n, s with
  | O, _ => s
  | S _, EmptyString => EmptyString
  | S k, String _ s' => drop k s'
  end.

(** [s[:n]] *)
Fixpoint take (n : nat) (s : string) : string :=
  match n, s with
  | O, _ => EmptyString
  | S _, EmptyString => EmptyString
  | S k, String c s' => String c (take k s')
  end.

(** [s.endswith(p)] *)
Definition endswith (s p : string) : bool :=
  (String.length p <=? String.length s)%nat
  && String.eqb (drop (String.length s - String.length p) s) p.

(** [sub in s] *)
Fixpoint contains (s sub : string) : bool :=
  String.prefix sub s
  || match s with
     | EmptyString => false
     | String _ s' => contains s' sub
     end.

(** [s.split('\n')]: the pieces between line feeds; never the empty list. *)
Fixpoint split_lines (s : string) : list string :=
  match s with
  | EmptyString => [EmptyString]
  | String c s' =>
      if Ascii.eqb c "010"%char then EmptyString :: split_lines s'
      else match split_lines s' with
           | [] => [String c EmptyString]
           | l :: ls => String c l :: ls
           end
  end.

Fixpoint lstrip (s : string) : string :=
  match s with
  | EmptyString => EmptyString
  | String c s' => if is_space c then lstrip s' else s
  end.

Fixpoint rstrip (s : string) : string :=
  match s with
  | EmptyString => EmptyString
  | String c s' =>
      let r := rstrip s' in
      if is_empty r && is_space c then EmptyString else String c r
  end.

(** [s.strip()] *)
Definition strip (s : string) : string := rstrip (lstrip s).

(** [s.replace(old, '')] for a non-empty [old]: the occurrences of [old]
    are removed from left to right, without overlap.  [skip] counts the
    characters of the occurrence being removed that are still ahead. *)
Fixpoint remove_from (old : string) (skip : nat) (s : string) : string :=
  match s with
  | EmptyString => EmptyString
  | String c s' =>
      match skip with
      | S k => remove_from old k s'
      | O =>
          if String.prefix old s
          then remove_from old (String.length old - 1) s'
          else String c (remove_from old 0 s')
      end
  end.

Definition remove_all (old s : string) : string := remove_from old 0 s.

Definition upper_char (c : ascii) : ascii :=
  if is_lower c then ascii_of_nat (nat_of_ascii c - 32) else c.

(** [s.upper()] *)
Fixpoint upper (s : string) : string :=
  match s with
  | EmptyString => EmptyString
  | String c s' => String (upper_char c) (upper s')
  end.

(** The longest prefix of [s] made of characters satisfying [p]. *)
Fixpoint span (p : ascii -> bool) (s : string) : string :=
  match s with
  | EmptyString => EmptyString
  | String c s' => if p c then String c (span p s') else EmptyString
  end.

Definition emit (cur : string) : list string :=
  if is_empty cur then [] else [cur].

(** [re.findall(r'\d+', s)]: the maximal runs of digits of [s], from left
    to right.  [cur] is the run being read. *)
Fixpoint findall_digits_from (cur : string) (s : string) : list string :=
  match s with
  | EmptyString => emit cur
  | String c s' =>
      if is_digit c then findall_digits_from (cur ++ String c EmptyString) s'
      else emit cur ++ findall_digits_from EmptyString s'
  end.

Definition findall_digits (s : string) : list string :=
  findall_digits_from EmptyString s.

(** [str(v)] and the [{v}] of an f-string, for an integer. *)
Definition str_int (v : Z) : string := NilZero.string_of_int (Z.to_int v).

(** [int(s)] on the strings the parser passes to it, the non-empty strings
    of digits; [None] is [ValueError] (and stands for every other string,
    which the parser never passes). *)
Definition int_of_digits (s : string) : option Z :=
  match s with
  | EmptyString => None
  | String _ _ => option_map Z.of_uint (NilEmpty.uint_of_string s)
  end.

(** [float(v)] for an integer [v], as the integer it denotes: [v] rounded
    to 53 significant bits, ties to even.  [None] is [OverflowError], raised
    when the rounded magnitude reaches [2^1024]. *)
Definition float_of_int (v : Z) : option Z :=
  let a := Z.abs v in
  let n := Z.log2 a + 1 in
  if n <=? 53 then Some v
  else
    let sh := n - 53 in
    let q := Z.shiftr a sh in
    let r := Z.land a (Z.ones sh) in
    let half := Z.shiftl 1 (sh - 1) in
    let q' := if (half <? r) || ((r =? half) && Z.odd q) then q + 1 else q in
    let m := Z.shiftl q' sh in
    if 2 ^ 1024 <=? m then None else Some (Z.sgn v * m).

End PyStr.

Import PyStr.

(** The option monad carries the exceptions of the encoder and decoder. *)
Notation "'let?' x ':=' a 'in' b" :=
  (match a with Some x => b | None => None end)
  (at level 10, x pattern, a at level 100, b at level 200).

(** ** Data model *)

Record LabelSettings := mkLabelSettings {
  width_mm : Q;
  height_mm : Q;
  dpi : Z;
  border : bool;
  orientation : string;
  snap_to_grid_enabled : bool;
  grid_size : Z
}.

(** [LabelSettings()] *)
Definition default_settings : LabelSettings :=
  mkLabelSettings (100 # 1) (50 # 1) 203 false "Portrait" false 10.

Record ZPLObject := mkZPLObject {
  obj_type : string;
  x : Z;
  y : Z;
  width : Z;
  height : Z;
  text : string;
  font_size : string;
  font_type : string;
  rotation : Z;
  thickness : Z;
  barcode_type : string;
  line_thickness : Z;
  selected : bool;
  id : string;
  bar_module : Z;
  bar_ratio : Z;
  bar_height : Z;
  hri_above : bool
}.

(** [ZPLObject(obj_type, x, y, width, height, text)] before [__post_init__],
    the remaining fields at the defaults of the dataclass. *)
Definition new_object (ty : string) (ox oy w h : Z) (t : string) : ZPLObject :=
  mkZPLObject ty ox oy w h t "30" "A" 0 2 "128" 3 false "" 3 2 100 false.

Definition set_x (v : Z) (o : ZPLObject) : ZPLObject :=
  mkZPLObject (obj_type o) v (y o) (width o) (height o) (text o) (font_size o)
    (font_type o) (rotation o) (thickness o) (barcode_type o) (line_thickness o)
    (selected o) (id o) (bar_module o) (bar_ratio o) (bar_height o) (hri_above o).

Definition set_y (v : Z) (o : ZPLObject) : ZPLObject :=
  mkZPLObject (obj_type o) (x o) v (width o) (height o) (text o) (font_size o)
    (font_type o) (rotation o) (thickness o) (barcode_type o) (line_thickness o)
    (selected o) (id o) (bar_module o) (bar_ratio o) (bar_height o) (hri_above o).

Definition set_width (v : Z) (o : ZPLObject) : ZPLObject :=
  mkZPLObject (obj_type o) (x o) (y o) v (height o) (text o) (font_size o)
    (font_type o) (rotation o) (thickness o) (barcode_type o) (line_thickness o)
    (selected o) (id o) (bar_module o) (bar_ratio o) (bar_height o) (hri_above o).

Definition set_height (v : Z) (o : ZPLObject) : ZPLObject :=
  mkZPLObject (obj_type o) (x o) (y o) (width o) v (text o) (font_size o)
    (font_type o) (rotation o) (thickness o) (barcode_type o) (line_thickness o)
    (selected o) (id o) (bar_module o) (bar_ratio o) (bar_height o) (hri_above o).

Definition set_text (v : string) (o : ZPLObject) : ZPLObject :=
  mkZPLObject (obj_type o) (x o) (y o) (width o) (height o) v (font_size o)
    (font_type o) (rotation o) (thickness o) (barcode_type o) (line_thickness o)
    (selected o) (id o) (bar_module o) (bar_ratio o) (bar_height o) (hri_above o).

Definition set_font_size (v : string) (o : ZPLObject) : ZPLObject :=
  mkZPLObject (obj_type o) (x o) (y o) (width o) (height o) (text o) v
    (font_type o) (rotation o) (thickness o) (barcode_type o) (line_thickness o)
    (selected o) (id o) (bar_module o) (bar_ratio o) (bar_height o) (hri_above o).

Definition set_font_type (v : string) (o : ZPLObject) : ZPLObject :=
  mkZPLObject (obj_type o) (x o) (y o) (width o) (height o) (text o) (font_size o)
    v (rotation o) (thickness o) (barcode_type o) (line_thickness o)
    (selected o) (id o) (bar_module o) (bar_ratio o) (bar_height o) (hri_above o).

Definition set_rotation (v : Z) (o : ZPLObject) : ZPLObject :=
  mkZPLObject (obj_type o) (x o) (y o) (width o) (height o) (text o) (font_size o)
    (font_type o) v (thickness o) (barcode_type o) (line_thickness o)
    (selected o) (id o) (bar_module o) (bar_ratio o) (bar_height o) (hri_above o).

Definition set_thickness (v : Z) (o : ZPLObject) : ZPLObject :=
  mkZPLObject (obj_type o) (x o) (y o) (width o) (height o) (text o) (font_size o)
    (font_type o) (rotation o) v (barcode_type o) (line_thickness o)
    (selected o) (id o) (bar_module o) (bar_ratio o) (bar_height o) (hri_above o).

Definition set_barcode_type (v : string) (o : ZPLObject) : ZPLObject :=
  mkZPLObject (obj_type o) (x o) (y o) (width o) (height o) (text o) (font_size o)
    (font_type o) (rotation o) (thickness o) v (line_thickness o)
    (selected o) (id o) (bar_module o) (bar_ratio o) (bar_height o) (hri_above o).

Definition set_line_thickness (v : Z) (o : ZPLObject) : ZPLObject :=
  mkZPLObject (obj_type o) (x o) (y o) (width o) (height o) (text o) (font_size o)
    (font_type o) (rotation o) (thickness o) (barcode_type o) v
    (selected o) (id o) (bar_module o) (bar_ratio o) (bar_height o) (hri_above o).

Definition set_selected (v : bool) (o : ZPLObject) : ZPLObject :=
  mkZPLObject (obj_type o) (x o) (y o) (width o) (height o) (text o) (font_size o)
    (font_type o) (rotation o) (thickness o) (barcode_type o) (line_thickness o)
    v (id o) (bar_module o) (bar_ratio o) (bar_height o) (hri_above o).

Definition set_id (v : string) (o : ZPLObject) : ZPLObject :=
  mkZPLObject (obj_type o) (x o) (y o) (width o) (height o) (text o) (font_size o)
    (font_type o) (rotation o) (thickness o) (barcode_type o) (line_thickness o)
    (selected o) v (bar_module o) (bar_ratio o) (bar_height o) (hri_above o).

Definition set_bar_module (v : Z) (o : ZPLObject) : ZPLObject :=
  mkZPLObject (obj_type o) (x o) (y o) (width o) (height o) (text o) (font_size o)
    (font_type o) (rotation o) (thickness o) (barcode_type o) (line_thickness o)
    (selected o) (id o) v (bar_ratio o) (bar_height o) (hri_above o).

Definition set_bar_ratio (v : Z) (o : ZPLObject) : ZPLObject :=
  mkZPLObject (obj_type o) (x o) (y o) (width o) (height o) (text o) (font_size o)
    (font_type o) (rotation o) (thickness o) (barcode_type o) (line_thickness o)
    (selected o) (id o) (bar_module o) v (bar_height o) (hri_above o).

Definition set_bar_height (v : Z) (o : ZPLObject) : ZPLObject :=
  mkZPLObject (obj_type o) (x o) (y o) (width o) (height o) (text o) (font_size o)
    (font_type o) (rotation o) (thickness o) (barcode_type o) (line_thickness o)
    (selected o) (id o) (bar_module o) (bar_ratio o) v (hri_above o).

Definition set_hri_above (v : bool) (o : ZPLObject) : ZPLObject :=
  mkZPLObject (obj_type o) (x o) (y o) (width o) (height o) (text o) (font_size o)
    (font_type o) (rotation o) (thickness o) (barcode_type o) (line_thickness o)
    (selected o) (id o) (bar_module o) (bar_ratio o) (bar_height o) v.

(** The [==] of the dataclass: field by field. *)
Definition ZPLObject_eqb (a b : ZPLObject) : bool :=
  String.eqb (obj_type a) (obj_type b) && (x a =? x b) && (y a =? y b)
  && (width a =? width b) && (height a =? height b)
  && String.eqb (text a) (text b) && String.eqb (font_size a) (font_size b)
  && String.eqb (font_type a) (font_type b) && (rotation a =? rotation b)
  && (thickness a =? thickness b)
  && String.eqb (barcode_type a) (barcode_type b)
  && (line_thickness a =? line_thickness b)
  && Bool.eqb (selected a) (selected b) && String.eqb (id a) (id b)
  && (bar_module a =? bar_module b) && (bar_ratio a =? bar_ratio b)
  && (bar_height a =? bar_height b) && Bool.eqb (hri_above a) (hri_above b).

(** ** Command encoder: [ZPLEditor.generate_zpl] *)

(** [int(v * self.SCALE)] with [SCALE = 1.0]: the integer is converted to a
    float, multiplied by one and truncated back. *)
Definition scaled (v : Z) : option Z := float_of_int v.

(** The condition under which the text object [t] duplicates the caption of
    the barcode [obj]. *)
Definition duplicates_caption (obj t : ZPLObject) : bool :=
  String.eqb (obj_type t) "text"
  && String.eqb (text t) (text obj)
  && (Z.abs (x t - x obj) <=? 2)
  && (Z.abs (width t - width obj) <=? 2)
  && (Z.abs (y t - (y obj + height obj + 5)) <=? 3).

(** First loop: for every barcode the identifier of the first text object
    that duplicates its caption.  The Python set is kept as a list; only
    membership is ever asked. *)
Fixpoint collect_skip_text_ids (objects rest : list ZPLObject) (skip : list string)
  : list string :=
  match rest with
  | [] => skip
  | obj :: rest' =>
      let skip' :=
        if String.eqb (obj_type obj) "barcode" then
          match find (duplicates_caption obj) objects with
          | Some t => id t :: skip
          | None => skip
          end
        else skip in
      collect_skip_text_ids objects rest' skip'
  end.

Definition skip_text_ids (objects : list ZPLObject) : list string :=
  collect_skip_text_ids objects objects [].

Definition in_ids (i : string) (ids : list string) : bool :=
  existsb (String.eqb i) ids.

(** The command that starts the symbol of a barcode, by [barcode_type]. *)
Definition barcode_command (bt : string) (h : Z) (hri_pos : string) : string :=
  if String.eqb bt "128" then "^BCN," ++ str_int h ++ ",Y," ++ hri_pos ++ ",Y" ++ nl
  else if String.eqb bt "39" then "^B3N,N," ++ str_int h ++ ",Y," ++ hri_pos ++ ",Y" ++ nl
  else if String.eqb bt "93" then "^BAN," ++ str_int h ++ ",Y," ++ hri_pos ++ ",Y" ++ nl
  else if String.eqb bt "I25" then "^B2N,N," ++ str_int h ++ ",Y," ++ hri_pos ++ ",Y" ++ nl
  else if String.eqb bt "EAN13" || String.eqb bt "EAN8"
       then "^BEN," ++ str_int h ++ ",Y," ++ hri_pos ++ ",Y" ++ nl
  else if String.eqb bt "UPCA" || String.eqb bt "UPCE"
       then "^BUN," ++ str_int h ++ ",Y," ++ hri_pos ++ ",Y" ++ nl
  else "".

(** The name operand of [^XG]:
    [obj.text.replace('.bmp', '').replace('.BMP', '')[:8].upper()]. *)
Definition image_name (t : string) : string :=
  upper (take 8 (remove_all ".BMP" (remove_all ".bmp" t))).

(** The body of the second loop: what one object appends to [zpl]. *)
Definition encode_object (skip : list string) (zpl : string) (obj : ZPLObject)
  : option string :=
  if String.eqb (obj_type obj) "text" && in_ids (id obj) skip then Some zpl
  else if String.eqb (obj_type obj) "barcode" then
    let? px := scaled (x obj) in
    let? py := scaled (y obj) in
    let? _ := scaled (width obj) in
    let? h := scaled (height obj) in
    let zpl := zpl ++ "^FO" ++ str_int px ++ "," ++ str_int py ++ nl in
    let zpl := zpl ++ "^BY" ++ str_int (bar_module obj) ++ ","
                   ++ str_int (bar_ratio obj) ++ "," ++ str_int (bar_height obj) ++ nl in
    let hri_pos := if hri_above obj then "Y" else "N" in
    let zpl := zpl ++ barcode_command (barcode_type obj) h hri_pos in
    Some (zpl ++ "^FD" ++ text obj ++ "^FS" ++ nl)
  else
    let? px := scaled (x obj) in
    let? py := scaled (y obj) in
    let? w := scaled (width obj) in
    let? h := scaled (height obj) in
    let zpl := zpl ++ "^FO" ++ str_int px ++ "," ++ str_int py ++ nl in
    if String.eqb (obj_type obj) "text" then
      let zpl := zpl ++ "^A" ++ font_type obj ++ ",N," ++ font_size obj ++ ","
                     ++ font_size obj ++ nl in
      let zpl := if negb (rotation obj =? 0) then zpl ++ "^FWR" ++ nl else zpl in
      Some (zpl ++ "^FD" ++ text obj ++ "^FS" ++ nl)
    else if String.eqb (obj_type obj) "rectangle" then
      Some (zpl ++ "^GB" ++ str_int w ++ "," ++ str_int h ++ ","
                ++ str_int (thickness obj) ++ "^FS" ++ nl)
    else if String.eqb (obj_type obj) "line" then
      if height obj <? width obj then
        Some (zpl ++ "^GB" ++ str_int w ++ ","
                  ++ str_int (Z.max 1 (line_thickness obj)) ++ ",B^FS" ++ nl)
      else
        Some (zpl ++ "^GB" ++ str_int (Z.max 1 (line_thickness obj)) ++ ","
                  ++ str_int h ++ ",B^FS" ++ nl)
    else if String.eqb (obj_type obj) "circle" then
      let diameter := Z.min w h in
      Some (zpl ++ "^GC" ++ str_int diameter ++ "," ++ str_int (thickness obj)
                ++ "^FS" ++ nl)
    else if String.eqb (obj_type obj) "image" then
      if negb (is_empty (text obj)) then
        Some (zpl ++ "^XG" ++ image_name (text obj) ++ ",1,1^FS" ++ nl)
      else Some zpl
    else Some zpl.

Fixpoint encode_objects (skip : list string) (zpl : string) (objs : list ZPLObject)
  : option string :=
  match objs with
  | [] => Some zpl
  | obj :: rest =>
      let? zpl' := encode_object skip zpl obj in
      encode_objects skip zpl' rest
  end.

(** [generate_zpl]; [None] is the [OverflowError] of a coordinate too large
    for a float. *)
Definition generate_zpl (settings : LabelSettings) (objects : list ZPLObject)
  : option string :=
  let zpl := "^XA" ++ nl in
  let zpl := if String.eqb (orientation settings) "Landscape"
             then zpl ++ "^POI" ++ nl else zpl in
  let skip := skip_text_ids objects in
  let? zpl := encode_objects skip zpl objects in
  Some (zpl ++ "^XZ" ++ nl).


(** ** Command decoder: [ZPLParser.parse_zpl_file] *)

Definition is_upper_or_digit (c : ascii) : bool := is_upper c || is_digit c.

(** [re.match(r'\^A([A-Z0-9]),N,(\d+)', line)]: the two groups. *)
Definition match_font (line : string) : option (string * string) :=
  match line with
  | String "^" (String "A" (String c (String "," (String "N" (String "," rest))))) =>
      let digits := span is_digit rest in
      if is_upper_or_digit c && negb (is_empty digits)
      then Some (String c EmptyString, digits) else None
  | _ => None
  end.

(** [re.match(r'\^B([A-Z0-9]+)', line)]: the group. *)
Definition match_barcode (line : string) : option string :=
  match line with
  | String "^" (String "B" rest) =>
      let code := span is_upper_or_digit rest in
      if is_empty code then None else Some code
  | _ => None
  end.

Section Decoder.

(** [uuid4 n] is [str(uuid.uuid4())] at the [n]-th call of the session. *)
Variable uuid4 : nat -> string.

(** [ZPLObject.__post_init__]: an object without identifier receives the
    first eight characters of a fresh UUID.  The counter of calls is
    threaded. *)
Definition post_init (calls : nat) (o : ZPLObject) : ZPLObject * nat :=
  if is_empty (id o) then (set_id (take 8 (uuid4 calls)) o, S calls)
  else (o, calls).

(** The variables of the loop of [parse_zpl_file]. *)
Record ParserState := mkParserState {
  parsed : list ZPLObject;
  current_x : Z;
  current_y : Z;
  current_font_type : string;
  current_font_size : string;
  parser_calls : nat
}.

Definition push_parsed (st : ParserState) (o : ZPLObject) (calls : nat) : ParserState :=
  mkParserState (parsed st ++ [o]) (current_x st) (current_y st)
    (current_font_type st) (current_font_size st) calls.

(** The body of the loop, on one element of [content.split('\n')]. *)
Definition parse_line (st : ParserState) (raw : string) : option ParserState :=
  let line := strip raw in
  if is_empty line then Some st
  else if startswith line "^FO" then
    match findall_digits line with
    | c0 :: c1 :: _ =>
        let? vx := int_of_digits c0 in
        let? vy := int_of_digits c1 in
        Some (mkParserState (parsed st) vx vy (current_font_type st)
                (current_font_size st) (parser_calls st))
    | _ => Some st
    end
  else if startswith line "^A" then
    match match_font line with
    | Some (ft, fs) =>
        Some (mkParserState (parsed st) (current_x st) (current_y st) ft fs
                (parser_calls st))
    | None => Some st
    end
  else if startswith line "^FD" then
    let t := remove_all "^FS" (drop 3 line) in
    let (obj, calls) :=
      post_init (parser_calls st)
        (new_object "text" (current_x st) (current_y st) 100 30 t) in
    let obj := set_font_size (current_font_size st)
                 (set_font_type (current_font_type st) obj) in
    Some (push_parsed st obj calls)
  else if startswith line "^GB" then
    match findall_digits line with
    | p0 :: p1 :: more =>
        let? w := int_of_digits p0 in
        let? h := int_of_digits p1 in
        let? th := match more with
                   | p2 :: _ => int_of_digits p2
                   | [] => Some 2
                   end in
        let (obj, calls) :=
          post_init (parser_calls st)
            (new_object "rectangle" (current_x st) (current_y st) w h "") in
        Some (push_parsed st (set_thickness th obj) calls)
    | _ => Some st
    end
  else if startswith line "^GC" then
    match findall_digits line with
    | p0 :: more =>
        let? diameter := int_of_digits p0 in
        let? th := match more with
                   | p1 :: _ => int_of_digits p1
                   | [] => Some 2
                   end in
        let (obj, calls) :=
          post_init (parser_calls st)
            (new_object "circle" (current_x st) (current_y st) diameter diameter "") in
        Some (push_parsed st (set_thickness th obj) calls)
    | [] => Some st
    end
  else if startswith line "^B" then
    match match_barcode line with
    | Some code =>
        let (obj, calls) :=
          post_init (parser_calls st)
            (new_object "barcode" (current_x st) (current_y st) 120 60 "") in
        Some (push_parsed st (set_barcode_type code obj) calls)
    | None => Some st
    end
  else Some st.

Fixpoint parse_lines (st : ParserState) (lines : list string) : option ParserState :=
  match lines with
  | [] => Some st
  | raw :: rest =>
      let? st' := parse_line st raw in
      parse_lines st' rest
  end.

Definition parser_start (calls : nat) : ParserState :=
  mkParserState [] 0 0 "A" "30" calls.

(** [parse_zpl_file(content)], with the calls of [uuid4] made so far going
    in and out; [None] is an exception leaving the function. *)
Definition parse_zpl_file (calls : nat) (content : string)
  : option (list ZPLObject * nat) :=
  let? st := parse_lines (parser_start calls) (split_lines content) in
  Some (parsed st, parser_calls st).

End Decoder.

(** A line the decoder acts on: after [strip] it starts with one of the six
    command prefixes of the [if]/[elif] chain. *)
Definition recognizable (raw : string) : bool :=
  let line := strip raw in
  startswith line "^FO" || startswith line "^A" || startswith line "^FD"
  || startswith line "^GB" || startswith line "^GC" || startswith line "^B".

(** ** The editor: [ZPLEditor] *)

(** The identity of a Python object.  The elements of [self.objects] are
    paired with their identity, so that [self.selected_object] and
    [self.drag_data["item"]] are references into the list and not copies. *)
Definition ref := nat.

Record ZPLEditor := mkEditor {
  label_settings : LabelSettings;
  objects : list (ref * ZPLObject);
  selected_object : option ref;
  drag_item : option ref;
  clipboard_object : option ZPLObject;
  zoom : Q;
  undo_stack : list (list ZPLObject);
  redo_stack : list (list ZPLObject);
  next_ref : ref;
  uuid_calls : nat
}.

Definition with_settings (v : LabelSettings) (e : ZPLEditor) : ZPLEditor :=
  mkEditor v (objects e) (selected_object e) (drag_item e) (clipboard_object e)
    (zoom e) (undo_stack e) (redo_stack e) (next_ref e) (uuid_calls e).

Definition with_objects (v : list (ref * ZPLObject)) (e : ZPLEditor) : ZPLEditor :=
  mkEditor (label_settings e) v (selected_object e) (drag_item e) (clipboard_object e)
    (zoom e) (undo_stack e) (redo_stack e) (next_ref e) (uuid_calls e).

Definition with_selected (v : option ref) (e : ZPLEditor) : ZPLEditor :=
  mkEditor (label_settings e) (objects e) v (drag_item e) (clipboard_object e)
    (zoom e) (undo_stack e) (redo_stack e) (next_ref e) (uuid_calls e).

Definition with_drag_item (v : option ref) (e : ZPLEditor) : ZPLEditor :=
  mkEditor (label_settings e) (objects e) (selected_object e) v (clipboard_object e)
    (zoom e) (undo_stack e) (redo_stack e) (next_ref e) (uuid_calls e).

Definition with_clipboard (v : option ZPLObject) (e : ZPLEditor) : ZPLEditor :=
  mkEditor (label_settings e) (objects e) (selected_object e) (drag_item e) v
    (zoom e) (undo_stack e) (redo_stack e) (next_ref e) (uuid_calls e).

Definition with_zoom (v : Q) (e : ZPLEditor) : ZPLEditor :=
  mkEditor (label_settings e) (objects e) (selected_object e) (drag_item e)
    (clipboard_object e) v (undo_stack e) (redo_stack e) (next_ref e) (uuid_calls e).

Definition with_stacks (u r : list (list ZPLObject)) (e : ZPLEditor) : ZPLEditor :=
  mkEditor (label_settings e) (objects e) (selected_object e) (drag_item e)
    (clipboard_object e) (zoom e) u r (next_ref e) (uuid_calls e).

Definition with_next_ref (v : ref) (e : ZPLEditor) : ZPLEditor :=
  mkEditor (label_settings e) (objects e) (selected_object e) (drag_item e)
    (clipboard_object e) (zoom e) (undo_stack e) (redo_stack e) v (uuid_calls e).

Definition with_uuid_calls (v : nat) (e : ZPLEditor) : ZPLEditor :=
  mkEditor (label_settings e) (objects e) (selected_object e) (drag_item e)
    (clipboard_object e) (zoom e) (undo_stack e) (redo_stack e) (next_ref e) v.

(** The scene: the objects of the list, as values. *)
Definition scene (e : ZPLEditor) : list ZPLObject := map snd (objects e).

(** [copy.deepcopy] of a list of objects: the same values under new
    identities, numbered from [n]. *)
Fixpoint alloc (n : ref) (vs : list ZPLObject) : list (ref * ZPLObject) :=
  match vs with
  | [] => []
  | v :: vs' => (n, v) :: alloc (S n) vs'
  end.

Fixpoint lookup_ref (r : ref) (l : list (ref * ZPLObject)) : option ZPLObject :=
  match l with
  | [] => None
  | (r', o) :: l' => if Nat.eqb r r' then Some o else lookup_ref r l'
  end.

(** An assignment to fields of the object [r], seen through the list. *)
Definition update_ref (r : ref) (f : ZPLObject -> ZPLObject)
  (l : list (ref * ZPLObject)) : list (ref * ZPLObject) :=
  map (fun p => if Nat.eqb r (fst p) then (fst p, f (snd p)) else p) l.

(** What [list.remove] and [list.index] compare with: identity first, then
    the [==] of the dataclass. *)
Definition same_object (r : ref) (v : ZPLObject) (p : ref * ZPLObject) : bool :=
  Nat.eqb r (fst p) || ZPLObject_eqb (snd p) v.

(** [l.remove(obj)]; [None] is [ValueError]. *)
Fixpoint py_remove (r : ref) (v : ZPLObject) (l : list (ref * ZPLObject))
  : option (list (ref * ZPLObject)) :=
  match l with
  | [] => None
  | p :: l' =>
      if same_object r v p then Some l'
      else let? l'' := py_remove r v l' in Some (p :: l'')
  end.

(** [l.index(obj)]; [None] is [ValueError]. *)
Fixpoint py_index (r : ref) (v : ZPLObject) (l : list (ref * ZPLObject))
  : option nat :=
  match l with
  | [] => None
  | p :: l' =>
      if same_object r v p then Some O
      else let? i := py_index r v l' in Some (S i)
  end.

(** [l[i], l[i+1] = l[i+1], l[i]] *)
Fixpoint swap_with_next {A : Type} (i : nat) (l : list A) : list A :=
  match i, l with
  | O, a :: b :: l' => b :: a :: l'
  | S k, a :: l' => a :: swap_with_next k l'
  | _, _ => l
  end.

(** [round(a / g)] for integers [a] and [g]: true division, then rounding
    to the nearest integer, ties to even; [None] is [ZeroDivisionError].
    The quotient is taken exactly; the float quotient of Python rounds to
    the same integer whenever [|a| < 2^52]. *)
Definition round_div (a g : Z) : option Z :=
  if g =? 0 then None
  else
    let n := if g <? 0 then - a else a in
    let d := Z.abs g in
    let q := n / d in
    let r := n mod d in
    Some (if 2 * r <? d then q
          else if d <? 2 * r then q + 1
          else if Z.even q then q else q + 1).

(** [snap_to_grid(x, y)] *)
Definition snap_to_grid (s : LabelSettings) (px py : Z) : option (Z * Z) :=
  if negb (snap_to_grid_enabled s) then Some (px, py)
  else
    let g := grid_size s in
    let? rx := round_div px g in
    let? ry := round_div py g in
    Some (rx * g, ry * g).

(** The table [defaults] of [add_object] and the [d.get(...)] that read it:
    width, height and text by object type. *)
Definition default_width (ty : string) : Z :=
  if String.eqb ty "text" then 100 else if String.eqb ty "barcode" then 120
  else if String.eqb ty "rectangle" then 80 else if String.eqb ty "line" then 100
  else if String.eqb ty "circle" then 40 else if String.eqb ty "image" then 60
  else 50.

Definition default_height (ty : string) : Z :=
  if String.eqb ty "text" then 30 else if String.eqb ty "barcode" then 60
  else if String.eqb ty "rectangle" then 40 else if String.eqb ty "line" then 0
  else if String.eqb ty "circle" then 40 else if String.eqb ty "image" then 60
  else 20.

Definition default_text (ty : string) : string :=
  if String.eqb ty "text" then "Esempio"
  else if String.eqb ty "barcode" then "123456789"
  else if String.eqb ty "image" then "image.bmp" else "".

(** The fields a property row of the panel edits. *)
Inductive PropertyEdit :=
| SetX (v : Z) | SetY (v : Z) | SetWidth (v : Z) | SetHeight (v : Z)
| SetDiameter (v : Z)
| SetText (s : string) | SetFontSize (s : string) | SetFontType (s : string)
| SetBarcodeType (s : string)
| SetBarModule (v : Z) | SetBarRatio (v : Z) | SetBarHeight (v : Z)
| SetHriAbove (b : bool)
| SetThickness (v : Z) | SetLineThickness (v : Z) | SetRotation (v : Z).

Definition font_choices : list string :=
  ["A"; "B"; "C"; "D"; "E"; "F"; "G"; "H"; "0"].

Definition barcode_choices : list string :=
  ["128"; "39"; "93"; "I25"; "EAN13"; "EAN8"; "UPCA"; "UPCE"].

Definition has_type (o : ZPLObject) (ty : string) : bool := String.eqb (obj_type o) ty.

(** [update_properties_panel]: the rows built for an object of a given type. *)
Definition edit_offered (p : PropertyEdit) (o : ZPLObject) : bool :=
  match p with
  | SetX _ | SetY _ | SetRotation _ => true
  | SetWidth _ | SetHeight _ => negb (has_type o "circle")
  | SetDiameter _ => has_type o "circle"
  | SetText _ => has_type o "text" || has_type o "barcode" || has_type o "image"
  | SetFontSize _ => has_type o "text"
  | SetFontType s => has_type o "text" && in_ids s font_choices
  | SetBarcodeType s => has_type o "barcode" && in_ids s barcode_choices
  | SetBarModule _ | SetBarRatio _ | SetBarHeight _ | SetHriAbove _ =>
      has_type o "barcode"
  | SetThickness _ => has_type o "circle" || has_type o "rectangle"
  | SetLineThickness _ => has_type o "line"
  end.

(** The test [getattr(obj, attr) != value] of the callbacks; the check box
    of [hri_above] assigns without a test. *)
Definition edit_changes (p : PropertyEdit) (o : ZPLObject) : bool :=
  match p with
  | SetX v => negb (x o =? v)
  | SetY v => negb (y o =? v)
  | SetWidth v => negb (width o =? v)
  | SetHeight v => negb (height o =? v)
  | SetDiameter v => negb (width o =? v) || negb (height o =? v)
  | SetText s => negb (String.eqb (text o) s)
  | SetFontSize s => negb (String.eqb (font_size o) s)
  | SetFontType s => negb (String.eqb (font_type o) s)
  | SetBarcodeType s => negb (String.eqb (barcode_type o) s)
  | SetBarModule v => negb (bar_module o =? v)
  | SetBarRatio v => negb (bar_ratio o =? v)
  | SetBarHeight v => negb (bar_height o =? v)
  | SetHriAbove _ => true
  | SetThickness v => negb (thickness o =? v)
  | SetLineThickness v => negb (line_thickness o =? v)
  | SetRotation v => negb (rotation o =? v)
  end.

Definition apply_edit (p : PropertyEdit) (o : ZPLObject) : ZPLObject :=
  match p with
  | SetX v => set_x v o
  | SetY v => set_y v o
  | SetWidth v => set_width v o
  | SetHeight v => set_height v o
  | SetDiameter v => set_height v (set_width v o)
  | SetText s => set_text s o
  | SetFontSize s => set_font_size s o
  | SetFontType s => set_font_type s o
  | SetBarcodeType s => set_barcode_type s o
  | SetBarModule v => set_bar_module v o
  | SetBarRatio v => set_bar_ratio v o
  | SetBarHeight v => set_height v (set_bar_height v o)
  | SetHriAbove b => set_hri_above b o
  | SetThickness v => set_thickness v o
  | SetLineThickness v => set_line_thickness v o
  | SetRotation v => set_rotation v o
  end.

(** The callbacks that end with [save_state()]: the two combo boxes and
    the check box. *)
Definition edit_saves (p : PropertyEdit) : bool :=
  match p with
  | SetFontType _ | SetBarcodeType _ | SetHriAbove _ => true
  | _ => false
  end.

(** The content of a project file, as [import_project] reads it. *)
Record ProjectFile := mkProjectFile {
  file_settings : option LabelSettings;
  file_objects : option (list ZPLObject)
}.

(** What the user and the window system send to the editor. *)
Inductive Event :=
| AddObject (ty : string)
| DeleteSelected
| ClearAll (confirmed : bool)
| CanvasClick (px py : Q)
| CanvasDrag (dx dy : Z)
| CanvasRelease
| EditProperty (p : PropertyEdit)
| FocusOut
| ApplyChanges (nx ny nw nh : Z) (ntext : string)
| CopyObject
| PasteObject
| BringForward
| SendBackward
| Undo
| Redo
| NewProject (confirmed : bool)
| ImportProject (file : option ProjectFile)
| ImportZpl (content : option string) (answer : option bool)
| SetZoom (v : Q)
| ApplyLabelSettings (s : LabelSettings).

(** [self.max_undo_steps] *)
Definition max_undo_steps : nat := 50.

(** The float [0.2], exactly. *)
Definition zoom_min : Q := 3602879701896397 # 18014398509481984.
Definition zoom_max : Q := 5 # 1.

Definition Qlt_bool (a b : Q) : bool := negb (Qle_bool b a).

(** [obj.x <= px <= obj.x + obj.width and obj.y <= py <= obj.y + obj.height];
    the pointer position is a float, taken as the rational it denotes. *)
Definition hit (px py : Q) (p : ref * ZPLObject) : bool :=
  let o := snd p in
  Qle_bool (inject_Z (x o)) px && Qle_bool px (inject_Z (x o + width o))
  && Qle_bool (inject_Z (y o)) py && Qle_bool py (inject_Z (y o + height o)).

Section Editor.

Variable uuid4 : nat -> string.

(** [measure_text dpi zoom font_size font_type text]: what [_draw_object]
    reads back from the canvas for a text object, the pair
    [int((bbox[2] - bbox[0]) / zoom), int((bbox[3] - bbox[1]) / zoom)] of
    the rendered text, or [None] when the canvas reports no bounding box. *)
Variable measure_text : Z -> Q -> string -> string -> string -> option (Z * Z).

(** [_draw_object]: drawing a text object overwrites its width and height
    with the size of the rendered text; nothing else of the model changes.
    The calls to the canvas belong to the window system and are taken to
    complete. *)
Definition draw_object (s : LabelSettings) (z : Q) (o : ZPLObject) : ZPLObject :=
  if has_type o "text" then
    match measure_text (dpi s) z (font_size o) (font_type o) (text o) with
    | Some (w, h) => set_height h (set_width w o)
    | None => o
    end
  else o.

Definition redraw_objects (e : ZPLEditor) : ZPLEditor :=
  with_objects
    (map (fun p => (fst p, draw_object (label_settings e) (zoom e) (snd p)))
       (objects e)) e.

Definition select_object (target : option ref) (e : ZPLEditor) : ZPLEditor :=
  let objs := map (fun p => (fst p, set_selected false (snd p))) (objects e) in
  let objs := match target with
              | Some r => update_ref r (set_selected true) objs
              | None => objs
              end in
  redraw_objects (with_selected target (with_objects objs e)).

Definition save_state (e : ZPLEditor) : ZPLEditor :=
  let stack := (undo_stack e ++ [scene e])%list in
  let stack := if (max_undo_steps <? length stack)%nat then tl stack else stack in
  with_stacks stack [] e.

(** [self.objects = copy.deepcopy(state)] *)
Definition restore (state : list ZPLObject) (e : ZPLEditor) : ZPLEditor :=
  with_next_ref (next_ref e + length state)%nat
    (with_objects (alloc (next_ref e) state) e).

Definition undo (e : ZPLEditor) : ZPLEditor :=
  if (1 <? length (undo_stack e))%nat then
    let current_state := last (undo_stack e) [] in
    let stack := removelast (undo_stack e) in
    let e := with_stacks stack (redo_stack e ++ [current_state]) e in
    let e := restore (last stack []) e in
    redraw_objects (with_selected None e)
  else e.

Definition redo (e : ZPLEditor) : ZPLEditor :=
  if negb (length (redo_stack e) =? 0)%nat then
    let state := last (redo_stack e) [] in
    let e := with_stacks (undo_stack e ++ [state]) (removelast (redo_stack e)) e in
    let e := restore state e in
    redraw_objects (with_selected None e)
  else e.

Definition add_object (ty : string) (e : ZPLEditor) : ZPLEditor :=
  match snap_to_grid (label_settings e) 50 50 with
  | None => e
  | Some (px, py) =>
      let (obj, calls) :=
        post_init uuid4 (uuid_calls e)
          (new_object ty px py (default_width ty) (default_height ty)
             (default_text ty)) in
      let r := next_ref e in
      let e := with_uuid_calls calls
                 (with_next_ref (S r) (with_objects (objects e ++ [(r, obj)]) e)) in
      save_state (redraw_objects (select_object (Some r) e))
  end.

(** The object [self.selected_object] refers to.  Every handler that
    rebinds or empties the list resets the selection, so the reference is
    always found ([run_selection_found]); the handlers below leave the
    state as it is otherwise. *)
Definition selection (e : ZPLEditor) : option (ref * ZPLObject) :=
  let? r := selected_object e in
  let? v := lookup_ref r (objects e) in
  Some (r, v).

(** The selection refers to an object of the list. *)
Definition selection_live (e : ZPLEditor) : Prop :=
  match selected_object e with
  | Some r => In r (map fst (objects e))
  | None => True
  end.

Definition delete_selected (e : ZPLEditor) : ZPLEditor :=
  match selection e with
  | Some (r, v) =>
      match py_remove r v (objects e) with
      | Some l =>
          save_state (redraw_objects (with_selected None (with_objects l e)))
      | None => e
      end
  | None => e
  end.

Definition clear_all (confirmed : bool) (e : ZPLEditor) : ZPLEditor :=
  if confirmed then
    save_state (redraw_objects (with_selected None (with_objects [] e)))
  else e.

Definition on_canvas_click (px py : Q) (e : ZPLEditor) : ZPLEditor :=
  match find (hit px py) (rev (objects e)) with
  | Some clicked =>
      with_drag_item (Some (fst clicked)) (select_object (Some (fst clicked)) e)
  | None => select_object None e
  end.

(** [dx], [dy] are the integers [int(dx)], [int(dy)] the handler computes
    from the pointer.  The dragged object may have left the list since the
    click; moving it then changes nothing the editor can see. *)
Definition on_canvas_drag (dx dy : Z) (e : ZPLEditor) : ZPLEditor :=
  match drag_item e with
  | None => e
  | Some r =>
      match lookup_ref r (objects e) with
      | Some o =>
          match snap_to_grid (label_settings e) (x o + dx) (y o + dy) with
          | Some (nx, ny) =>
              redraw_objects
                (with_objects
                   (update_ref r (fun o => set_y ny (set_x nx o)) (objects e)) e)
          | None => e
          end
      | None =>
          match snap_to_grid (label_settings e) 0 0 with
          | Some _ => redraw_objects e
          | None => e
          end
      end
  end.

Definition on_canvas_release (e : ZPLEditor) : ZPLEditor :=
  let e := match drag_item e with
           | Some _ => save_state e
           | None => e
           end in
  with_drag_item None e.

(** A write to the variable of a row of the properties panel. *)
Definition edit_property (p : PropertyEdit) (e : ZPLEditor) : ZPLEditor :=
  match selection e with
  | Some (r, v) =>
      if edit_offered p v && edit_changes p v then
        let e := redraw_objects
                   (with_objects (update_ref r (apply_edit p) (objects e)) e) in
        if edit_saves p then save_state e else e
      else e
  | None => e
  end.

Definition has_content (o : ZPLObject) : bool :=
  has_type o "text" || has_type o "barcode" || has_type o "image".

(** [apply_changes] of the properties dialog, opened on the selection. *)
Definition apply_changes (nx ny nw nh : Z) (ntext : string) (e : ZPLEditor)
  : ZPLEditor :=
  match selection e with
  | Some (r, _) =>
      let f o :=
        let o := set_height nh (set_width nw (set_y ny (set_x nx o))) in
        if has_content o then set_text (strip ntext) o else o in
      save_state (redraw_objects (with_objects (update_ref r f (objects e)) e))
  | None => e
  end.

Definition copy_object (e : ZPLEditor) : ZPLEditor :=
  match selection e with
  | Some (_, v) => with_clipboard (Some (set_selected false v)) e
  | None => e
  end.

Definition paste_object (e : ZPLEditor) : ZPLEditor :=
  match clipboard_object e with
  | Some c =>
      let new_obj := set_y (y c + 20) (set_x (x c + 20) c) in
      let (new_obj, calls) := post_init uuid4 (uuid_calls e) (set_id "" new_obj) in
      let r := next_ref e in
      let e := with_uuid_calls calls
                 (with_next_ref (S r) (with_objects (objects e ++ [(r, new_obj)]) e)) in
      save_state (redraw_objects (select_object (Some r) e))
  | None => e
  end.

Definition bring_forward (e : ZPLEditor) : ZPLEditor :=
  match selection e with
  | Some (r, v) =>
      match py_index r v (objects e) with
      | Some idx =>
          if (S idx <? length (objects e))%nat then
            save_state
              (redraw_objects (with_objects (swap_with_next idx (objects e)) e))
          else e
      | None => e
      end
  | None => e
  end.

Definition send_backward (e : ZPLEditor) : ZPLEditor :=
  match selection e with
  | Some (r, v) =>
      match py_index r v (objects e) with
      | Some (S k) =>
          save_state
            (redraw_objects (with_objects (swap_with_next k (objects e)) e))
      | _ => e
      end
  | None => e
  end.

Definition new_project (confirmed : bool) (e : ZPLEditor) : ZPLEditor :=
  if confirmed then
    let e := with_selected None (with_objects [] e) in
    let e := with_settings default_settings (with_stacks [] [] e) in
    save_state (redraw_objects e)
  else e.

(** The constructor of [ZPLObject] on every dictionary of the file. *)
Fixpoint load_objects (calls : nat) (l : list ZPLObject) : list ZPLObject * nat :=
  match l with
  | [] => ([], calls)
  | o :: l' =>
      let (o', calls') := post_init uuid4 calls o in
      let (rest, calls'') := load_objects calls' l' in
      (o' :: rest, calls'')
  end.

(** [import_project]; [None] is a file dialog closed without a name, or a
    file that could not be read. *)
Definition import_project (file : option ProjectFile) (e : ZPLEditor) : ZPLEditor :=
  match file with
  | None => e
  | Some f =>
      let e := match file_settings f with
               | Some s => with_settings s e
               | None => e
               end in
      let (loaded, calls) :=
        match file_objects f with
        | Some l => load_objects (uuid_calls e) l
        | None => ([], uuid_calls e)
        end in
      let e := with_uuid_calls calls (restore loaded (with_objects [] e)) in
      save_state (redraw_objects (with_selected None e))
  end.

(** [import_zpl_file]; [answer] is what the question "replace the existing
    objects?" returns: [Some true] to replace, [Some false] to append,
    [None] to cancel. *)
Definition import_zpl_file (content : option string) (answer : option bool)
  (e : ZPLEditor) : ZPLEditor :=
  match content with
  | None => e
  | Some c =>
      match parse_zpl_file uuid4 (uuid_calls e) c with
      | None => e
      | Some (parsed_objects, calls) =>
          let e := with_uuid_calls calls e in
          let extend e :=
            let e := with_next_ref (next_ref e + length parsed_objects)%nat
                       (with_objects
                          (objects e ++ alloc (next_ref e) parsed_objects) e) in
            save_state (redraw_objects (with_selected None e)) in
          match parsed_objects with
          | [] => e
          | _ :: _ =>
              match objects e with
              | [] => extend e
              | _ :: _ =>
                  match answer with
                  | None => e
                  | Some true => extend (with_objects [] e)
                  | Some false => extend e
                  end
              end
          end
      end
  end.

(** [set_zoom]: [max(0.2, min(5.0, value))], then the canvas is redrawn. *)
Definition set_zoom (v : Q) (e : ZPLEditor) : ZPLEditor :=
  let m := if Qlt_bool v zoom_max then v else zoom_max in
  let z := if Qlt_bool zoom_min m then m else zoom_min in
  redraw_objects (with_zoom z e).

(** [apply] of the label settings dialog. *)
Definition apply_label_settings (s : LabelSettings) (e : ZPLEditor) : ZPLEditor :=
  redraw_objects (with_settings s e).

(** [ZPLEditor.__init__], up to its final [save_state()]. *)
Definition init : ZPLEditor :=
  save_state (mkEditor default_settings [] None None None (1 # 1) [] [] O O).

Definition handle (e : ZPLEditor) (ev : Event) : ZPLEditor :=
  match ev with
  | AddObject ty => add_object ty e
  | DeleteSelected => delete_selected e
  | ClearAll c => clear_all c e
  | CanvasClick px py => on_canvas_click px py e
  | CanvasDrag dx dy => on_canvas_drag dx dy e
  | CanvasRelease => on_canvas_release e
  | EditProperty p => edit_property p e
  | FocusOut => save_state e
  | ApplyChanges nx ny nw nh t => apply_changes nx ny nw nh t e
  | CopyObject => copy_object e
  | PasteObject => paste_object e
  | BringForward => bring_forward e
  | SendBackward => send_backward e
  | Undo => undo e
  | Redo => redo e
  | NewProject c => new_project c e
  | ImportProject f => import_project f e
  | ImportZpl c a => import_zpl_file c a e
  | SetZoom v => set_zoom v e
  | ApplyLabelSettings s => apply_label_settings s e
  end.

Definition run (e : ZPLEditor) (evs : list Event) : ZPLEditor :=
  fold_left handle evs e.

(** The events whose handler runs to its closing [save_state()]:
    [commits_committed] and [not_commits_stacks] show that these are the
    events that push a snapshot, and no others apart from [Redo]. *)
Definition commits (e : ZPLEditor) (ev : Event) : bool :=
  match ev with
  | AddObject _ =>
      match snap_to_grid (label_settings e) 50 50 with
      | Some _ => true | None => false end
  | DeleteSelected =>
      match selection e with
      | Some (r, v) =>
          match py_remove r v (objects e) with Some _ => true | None => false end
      | None => false
      end
  | ClearAll c => c
  | CanvasRelease => match drag_item e with Some _ => true | None => false end
  | EditProperty p =>
      match selection e with
      | Some (_, v) => edit_offered p v && edit_changes p v && edit_saves p
      | None => false
      end
  | FocusOut => true
  | ApplyChanges _ _ _ _ _ =>
      match selection e with Some _ => true | None => false end
  | PasteObject =>
      match clipboard_object e with Some _ => true | None => false end
  | BringForward =>
      match selection e with
      | Some (r, v) =>
          match py_index r v (objects e) with
          | Some idx => (S idx <? length (objects e))%nat
          | None => false
          end
      | None => false
      end
  | SendBackward =>
      match selection e with
      | Some (r, v) =>
          match py_index r v (objects e) with
          | Some (S _) => true
          | _ => false
          end
      | None => false
      end
  | NewProject c => c
  | ImportProject f => match f with Some _ => true | None => false end
  | ImportZpl (Some c) answer =>
      match parse_zpl_file uuid4 (uuid_calls e) c with
      | Some (_ :: _, _) =>
          match objects e, answer with
          | _ :: _, None => false
          | _, _ => true
          end
      | _ => false
      end
  | _ => false
  end.

(** The scene is drawn: drawing it again changes nothing. *)
Definition drawn (e : ZPLEditor) : Prop :=
  map (draw_object (label_settings e) (zoom e)) (scene e) = scene e.

(** The state right after a snapshot was committed: the snapshot on top of
    the undo stack is the scene, and nothing can be redone. *)
Definition committed (e : ZPLEditor) : Prop :=
  last (undo_stack e) [] = scene e /\ undo_stack e <> [] /\ redo_stack e = [].

(** The scene is the drawing of the snapshot on top of the undo stack. *)
Definition shows_top (e : ZPLEditor) : Prop :=
  scene e
  = map (draw_object (label_settings e) (zoom e)) (last (undo_stack e) []).

(** The identifier given to the object that draws the [i]-th UUID. *)
Definition token (i : nat) : string := take 8 (uuid4 i).

End Editor.

(** The two stacks with their tops first, and what [undo] and [redo] do to
    them. *)
Definition stacks (e : ZPLEditor) : list (list ZPLObject) * list (list ZPLObject) :=
  (rev (undo_stack e), rev (redo_stack e)).

Definition undo_stacks (p : list (list ZPLObject) * list (list ZPLObject)) :=
  match p with
  | (a :: b :: u, r) => (b :: u, a :: r)
  | _ => p
  end.

Definition redo_stacks (p : list (list ZPLObject) * list (list ZPLObject)) :=
  match p with
  | (u, a :: r) => (a :: u, r)
  | _ => p
  end.

(** ** Sample parameters and scenes *)

(** A source of identifiers that never repeats within a session of less
    than nine million objects. *)
Definition uuid_seq (n : nat) : string :=
  str_int (1000000 + Z.of_nat n) ++ "0-0000-4000-8000-000000000000".

(** A source of identifiers whose draws agree on their first eight
    characters. *)
Definition uuid_same (n : nat) : string :=
  "deadbeef-0000-4000-8000-" ++ str_int (100000000000 + Z.of_nat n).

(** A canvas that renders every character twelve units wide and twenty high. *)
Definition measure_mono (d : Z) (z : Q) (fs ft t : string) : option (Z * Z) :=
  Some (12 * Z.of_nat (String.length t), 20).


(** The coordinates of an object are within the range where the conversion
    to a float cannot overflow. *)
Definition float_sized (o : ZPLObject) : bool :=
  (Z.abs (x o) <? 2 ^ 1023) && (Z.abs (y o) <? 2 ^ 1023)
  && (Z.abs (width o) <? 2 ^ 1023) && (Z.abs (height o) <? 2 ^ 1023).

(** The scene of the suppression example, built with the defaults that
    [add_object] gives a text (100 by 30) and a barcode (120 wide). *)
Definition caption_text : ZPLObject := new_object "text" 10 80 100 30 "123456789".
Definition caption_barcode : ZPLObject :=
  new_object "barcode" 10 20 120 55 "123456789".

(** The same text, as wide as the barcode. *)
Definition caption_text_wide : ZPLObject :=
  new_object "text" 10 80 120 30 "123456789".

(** An image whose reference name carries another extension than [.bmp]. *)
Definition logo_image : ZPLObject := new_object "image" 50 50 60 60 "logo.png".

Fixpoint has_dot (s : string) : bool :=
  match s with
  | EmptyString => false
  | String c s' => Ascii.eqb c "."%char || has_dot s'
  end.

(** The file extension stripped: the last dot and what follows it removed. *)
Fixpoint strip_extension (s : string) : string :=
  match s with
  | EmptyString => EmptyString
  | String c s' =>
      if Ascii.eqb c "."%char && negb (has_dot s') then EmptyString
      else String c (strip_extension s')
  end.

(** The name operand in the words of the specification: the reference name
    with its extension stripped, truncated to eight characters, uppercased.
    It is compared with [image_name], which is the code. *)
Definition spec_image_name (t : string) : string :=
  upper (take 8 (strip_extension t)).

(** Every character of [s] satisfies [p]. *)
Fixpoint string_forall (p : ascii -> bool) (s : string) : bool :=
  match s with
  | EmptyString => true
  | String c s' => p c && string_forall p s'
  end.

Definition nonspace (c : ascii) : bool := negb (is_space c).

(** A non-empty string of digits. *)
Definition digits (s : string) : bool :=
  negb (is_empty s) && string_forall is_digit s.

(** The text made of the lines [ls], each closed by a line feed. *)
Fixpoint unlines (ls : list string) : string :=
  match ls with
  | [] => EmptyString
  | l :: ls' => l ++ nl ++ unlines ls'
  end.

(** A text is added, picked with the pointer and dragged by (5, 7). *)
Definition drag_history : list Event :=
  [AddObject "text"; CanvasClick (60 # 1) (60 # 1); CanvasDrag 5 7].

(** A rectangle on the label. *)
Definition inside_rectangle : ZPLObject := new_object "rectangle" 10 20 80 40 "".

(** A rectangle left of the label. *)
Definition outside_rectangle : ZPLObject := new_object "rectangle" (-5) 10 80 40 "".

(** What the objects built by the decoder have in common: one of four
    types, natural coordinates, sizes and thickness, no rotation, not
    selected, a font size made of digits. *)
Definition decoded (o : ZPLObject) : Prop :=
  In (obj_type o) ["text"; "rectangle"; "circle"; "barcode"]
  /\ 0 <= x o /\ 0 <= y o /\ 0 <= width o /\ 0 <= height o
  /\ 0 <= thickness o
  /\ rotation o = 0 /\ selected o = false
  /\ digits (font_size o) = true.

(** A label with a box and a caption. *)
Definition sample_label : string :=
  unlines ["^XA"; "^FO10,20"; "^GB80,40,2^FS"; "^FO10,70"; "^AD,N,18,18";
           "^FDhello^FS"; "^XZ"].

(** The invariant of the loop of [parse_zpl_file], entered after [calls]
    draws of [uuid4]. *)
Definition parser_inv (uuid4 : nat -> string) (calls : nat) (st : ParserState)
  : Prop :=
  0 <= current_x st /\ 0 <= current_y st
  /\ digits (current_font_size st) = true
  /\ parser_calls st = (calls + length (parsed st))%nat
  /\ map id (parsed st)
     = map (fun i => take 8 (uuid4 i)) (seq calls (length (parsed st)))
  /\ Forall decoded (parsed st).

(** A character a field of text can hold and give back: no caret, no line
    feed. *)
Definition field_char (c : ascii) : bool :=
  negb (Ascii.eqb c "^"%char) && negb (Ascii.eqb c "010"%char).

(** A natural number every float represents exactly. *)
Definition in_float_range (v : Z) : bool := (0 <=? v) && (v <? 2 ^ 53).

(** The objects whose commands the decoder reads back: texts in a font the
    decoder recognises, rectangles, circles and lines, at natural
    coordinates below [2^53]. *)
Definition exportable (o : ZPLObject) : bool :=
  in_float_range (x o) && in_float_range (y o)
  && in_float_range (width o) && in_float_range (height o)
  && (if String.eqb (obj_type o) "text" then
        match font_type o with
        | String c EmptyString => is_upper_or_digit c
        | _ => false
        end
        && digits (font_size o) && string_forall field_char (text o)
      else if String.eqb (obj_type o) "rectangle" then 0 <=? thickness o
      else if String.eqb (obj_type o) "circle" then 0 <=? thickness o
      else String.eqb (obj_type o) "line").

(** What the decoder makes of the commands the encoder wrote for [o]. *)
Definition reads_back (o o' : ZPLObject) : Prop :=
  x o' = x o /\ y o' = y o /\ selected o' = false /\
  if String.eqb (obj_type o) "text" then
    obj_type o' = "text" /\ text o' = text o
    /\ font_type o' = font_type o /\ font_size o' = font_size o
    /\ width o' = 100 /\ height o' = 30 /\ rotation o' = 0
  else if String.eqb (obj_type o) "rectangle" then
    obj_type o' = "rectangle" /\ width o' = width o /\ height o' = height o
    /\ thickness o' = thickness o
  else if String.eqb (obj_type o) "circle" then
    obj_type o' = "circle" /\ width o' = Z.min (width o) (height o)
    /\ height o' = Z.min (width o) (height o)
    /\ thickness o' = thickness o
  else
    obj_type o' = "rectangle" /\ thickness o' = 2
    /\ width o' = (if height o <? width o then width o
                   else Z.max 1 (line_thickness o))
    /\ height o' = (if height o <? width o then Z.max 1 (line_thickness o)
                    else height o).

(** A scene with one object of each exportable type. *)
Definition sample_scene : list ZPLObject :=
  [ set_rotation 90 (new_object "text" 10 10 100 30 "Lot 7 / A");
    new_object "rectangle" 10 50 80 40 "";
    new_object "circle" 100 50 60 40 "";
    new_object "line" 10 100 150 3 "" ].

Definition not_nl (c : ascii) : bool := negb (Ascii.eqb c "010"%char).

(** ** Validation: [ZPLEditor.validate_zpl] *)

(** [s.count(sub)] and [len(re.findall(sub, s))] for a literal, non-empty
    [sub]: the occurrences of [sub] from left to right, without overlap.
    [skip] counts the characters of the occurrence just found that are still
    ahead. *)
Fixpoint count_from (sub : string) (skip : nat) (s : string) : nat :=
  match s with
  | EmptyString => 0
  | String c s' =>
      match skip with
      | S k => count_from sub k s'
      | O =>
          if String.prefix sub s
          then S (count_from sub (String.length sub - 1) s')
          else count_from sub 0 s'
      end
  end.

Definition count (s sub : string) : nat := count_from sub 0 s.

(** The entries of the list [errors]. *)
Inductive ValidationError :=
| MissingStart
| MissingEnd.

(** The entries of the list [warnings], with the numbers they report. *)
Inductive ValidationWarning :=
| Unbalanced (fo_count fs_count : nat)
| EmptyFields (found : nat).

(** [validate_zpl] up to the dialog: the two lists it fills.  [None] is an
    exception of [generate_zpl], which the [except] clause reports. *)
Definition validate_zpl (settings : LabelSettings) (objects : list ZPLObject)
  : option (list ValidationError * list ValidationWarning) :=
  let? zpl_code := generate_zpl settings objects in
  let errors :=
    ((if negb (startswith zpl_code "^XA") then [MissingStart] else [])
     ++ (if negb (endswith zpl_code ("^XZ" ++ nl)) then [MissingEnd] else []))%list in
  let fo_count := count zpl_code "^FO" in
  let fs_count := count zpl_code "^FS" in
  let empty_fields := count zpl_code "^FD^FS" in
  let warnings :=
    ((if negb (fo_count =? fs_count)%nat then [Unbalanced fo_count fs_count] else [])
     ++ (if (0 <? empty_fields)%nat then [EmptyFields empty_fields] else []))%list in
  Some (errors, warnings).

(** The message box [validate_zpl] ends with. *)
Inductive Dialog := ShowInfo | ShowWarning | ShowError.

Definition validation_dialog
  (r : option (list ValidationError * list ValidationWarning)) : Dialog :=
  match r with
  | None => ShowError
  | Some (_ :: _, _) => ShowError
  | Some ([], _ :: _) => ShowWarning
  | Some ([], []) => ShowInfo
  end.

(** An exportable object that is no text without content. *)
Definition printable (o : ZPLObject) : bool :=
  exportable o
  && negb (String.eqb (obj_type o) "text" && is_empty (text o)).

(** The default label with snapping to a grid of ten dots switched on. *)
Definition grid_settings : LabelSettings :=
  mkLabelSettings (100 # 1) (50 # 1) 203 false "Portrait" true 10.

(** [save_project], once a file name is chosen: what [json.dump] writes
    and [json.load] gives back, the label settings and the objects field by
    field ([asdict]). *)
Definition save_project (e : ZPLEditor) : ProjectFile :=
  mkProjectFile (Some (label_settings e)) (Some (scene e)).

(** The exportable objects whose commands say all the encoder reads of
    them: no line, no rotated text. *)
Definition stable (o : ZPLObject) : bool :=
  exportable o
  && negb (String.eqb (obj_type o) "line")
  && negb (String.eqb (obj_type o) "text" && negb (rotation o =? 0)).

(** Two rectangles, a circle and a text in the default font. *)
Definition stable_scene : list ZPLObject :=
  [ new_object "rectangle" 10 50 80 40 "";
    new_object "text" 10 10 120 30 "Lot 7 / A";
    new_object "circle" 100 50 60 40 "";
    new_object "rectangle" 5 5 190 95 "" ].

(** White space other than the line feed: what may stand around a command
    on its line, such as the indentation or the carriage return of a file
    with CRLF line ends. *)
Definition blank (c : ascii) : bool := is_space c && not_nl c.

(** A line [l] between the blanks [a] and [b]. *)
Definition padded (p : string * string * string) : string :=
  let '(a, l, b) := p in a ++ l ++ b.

Definition unpadded (p : string * string * string) : string :=
  let '(_, l, _) := p in l.

Definition padding_ok (p : string * string * string) : bool :=
  let '(a, l, b) := p in
  string_forall blank a && string_forall not_nl l && string_forall blank b.

(** The sample label, indented and with CRLF line ends. *)
Definition sample_label_crlf : list (string * string * string) :=
  [ ("", "^XA", String "013" "");
    ("  ", "^FO10,20", String "013" "");
    ("  ", "^GB80,40,2^FS", String "013" "");
    (String "009" "", "^FO10,70", String "013" "");
    (String "009" "", "^AD,N,18,18", String "013" "");
    (String "009" "", "^FDhello^FS", " " ++ String "013" "");
    ("", "^XZ", String "013" "") ].

(** ** The decoder under CPython's limit on decimal strings

    [parse_zpl_file] above reads its operands with the unbounded integers
    of Python.  CPython limits the length of the decimal strings that
    [int] converts, to 4300 digits unless the interpreter is told
    otherwise, and the program never tells it: beyond the limit [int]
    raises [ValueError], which [parse_zpl_file] does not catch.  The loop
    of the decoder is written out once more, over the conversion it calls,
    and taken at the conversion of CPython. *)

Definition is_ascii (c : ascii) : bool := (nat_of_ascii c <? 128)%nat.



Section DecoderWith.

Variable uuid4 : nat -> string.

(** What [int] stands for. *)
Variable to_int : string -> option Z.

Definition parse_line_with (st : ParserState) (raw : string) : option ParserState :=
  let line := strip raw in
  if is_empty line then Some st
  else if startswith line "^FO" then
    match findall_digits line with
    | c0 :: c1 :: _ =>
        let? vx := to_int c0 in
        let? vy := to_int c1 in
        Some (mkParserState (parsed st) vx vy (current_font_type st)
                (current_font_size st) (parser_calls st))
    | _ => Some st
    end
  else if startswith line "^A" then
    match match_font line with
    | Some (ft, fs) =>
        Some (mkParserState (parsed st) (current_x st) (current_y st) ft fs
                (parser_calls st))
    | None => Some st
    end
  else if startswith line "^FD" then
    let t := remove_all "^FS" (drop 3 line) in
    let (obj, calls) :=
      post_init uuid4 (parser_calls st)
        (new_object "text" (current_x st) (current_y st) 100 30 t) in
    let obj := set_font_size (current_font_size st)
                 (set_font_type (current_font_type st) obj) in
    Some (push_parsed st obj calls)
  else if startswith line "^GB" then
    match findall_digits line with
    | p0 :: p1 :: more =>
        let? w := to_int p0 in
        let? h := to_int p1 in
        let? th := match more with
                   | p2 :: _ => to_int p2
                   | [] => Some 2
                   end in
        let (obj, calls) :=
          post_init uuid4 (parser_calls st)
            (new_object "rectangle" (current_x st) (current_y st) w h "") in
        Some (push_parsed st (set_thickness th obj) calls)
    | _ => Some st
    end
  else if startswith line "^GC" then
    match findall_digits line with
    | p0 :: more =>
        let? diameter := to_int p0 in
        let? th := match more with
                   | p1 :: _ => to_int p1
                   | [] => Some 2
                   end in
        let (obj, calls) :=
          post_init uuid4 (parser_calls st)
            (new_object "circle" (current_x st) (current_y st) diameter diameter "") in
        Some (push_parsed st (set_thickness th obj) calls)
    | [] => Some st
    end
  else if startswith line "^B" then
    match match_barcode line with
    | Some code =>
        let (obj, calls) :=
          post_init uuid4 (parser_calls st)
            (new_object "barcode" (current_x st) (current_y st) 120 60 "") in
        Some (push_parsed st (set_barcode_type code obj) calls)
    | None => Some st
    end
  else Some st.



End DecoderWith.



Fixpoint ones (n : nat) : string :=
  match n with
  | O => EmptyString
  | S k => String "1" (ones k)
  end.


(** ** A project file that the constructor rejects

    [import_project] above opens a file all of whose objects the
    constructor of [ZPLObject] accepts.  On a dictionary with a key that is
    no field the constructor raises [TypeError], and the [except] clause of
    [import_project] ends the handler where it stands: the settings of the
    file are in place, the list was emptied and holds the objects [loaded]
    before the rejected one, and neither the selection was reset, nor the
    canvas redrawn, nor a snapshot taken. *)
Definition import_project_rejected (uuid4 : nat -> string)
  (settings : option LabelSettings) (loaded : list ZPLObject) (e : ZPLEditor)
  : ZPLEditor :=
  let e := match settings with
           | Some s => with_settings s e
           | None => e
           end in
  let (loaded, calls) := load_objects uuid4 (uuid_calls e) loaded in
  with_uuid_calls calls (restore loaded (with_objects [] e)).

(** The state after the history [drag_history] and the release of the
    pointer. *)
Definition released_state : ZPLEditor :=
  handle uuid_seq measure_mono (run uuid_seq measure_mono init drag_history)
    CanvasRelease.

(** A text as a project file holds it, 100 wide and 30 high. *)
Definition saved_text : ZPLObject :=
  set_id "5a7e0001" (new_object "text" 10 10 100 30 "Esempio").

(** A rectangle is added; a project file is opened whose first object is
    [saved_text] and whose second object the constructor rejects; the entry
    of the properties panel that has the focus loses it. *)
Definition rejected_then_committed : ZPLEditor :=
  handle uuid_seq measure_mono
    (import_project_rejected uuid_seq None [saved_text]
       (handle uuid_seq measure_mono init (AddObject "rectangle")))
    FocusOut.

(** * Properties *)

(** ** Strings *)

Lemma sapp_assoc (a b c : string) : (a ++ b) ++ c = a ++ (b ++ c).
Proof. induction a as [|ch a IH]; simpl; [reflexivity | now rewrite IH]. Qed.

Lemma sapp_nil_r (a : string) : a ++ "" = a.
Proof. induction a as [|ch a IH]; simpl; [reflexivity | now rewrite IH]. Qed.

Lemma slength_app (a b : string) :
  String.length (a ++ b) = (String.length a + String.length b)%nat.
Proof. induction a as [|ch a IH]; simpl; [reflexivity | now rewrite IH]. Qed.

Lemma drop_app_length (a b : string) : drop (String.length a) (a ++ b) = b.
Proof. induction a as [|ch a IH]; simpl; auto. Qed.

Lemma prefix_app (p s : string) : String.prefix p (p ++ s) = true.
Proof.
  induction p as [|ch p IH]; simpl.
  - now destruct s.
  - destruct (ascii_dec ch ch) as [_|n]; [exact IH | now elim n].
Qed.

Lemma startswith_app (p s : string) : startswith (p ++ s) p = true.
Proof. apply prefix_app. Qed.

Lemma endswith_app (a p : string) : endswith (a ++ p) p = true.
Proof.
  unfold endswith. rewrite slength_app.
  replace (String.length a + String.length p - String.length p)%nat
    with (String.length a) by lia.
  rewrite drop_app_length, String.eqb_refl.
  rewrite andb_true_r. apply Nat.leb_le. lia.
Qed.

(** ** Integers and floats *)

Lemma scaled_exact (v : Z) : Z.abs v < 2 ^ 53 -> scaled v = Some v.
Proof.
  intros H. unfold scaled, float_of_int.
  destruct (Z.eq_dec (Z.abs v) 0) as [E|E].
  - rewrite E. reflexivity.
  - assert (Z.log2 (Z.abs v) < 53) by (apply Z.log2_lt_pow2; lia).
    destruct (Z.leb_spec (Z.log2 (Z.abs v) + 1) 53); [reflexivity | lia].
Qed.

Lemma scaled_defined (v : Z) : Z.abs v < 2 ^ 1023 -> scaled v <> None.
Proof.
  intros H. unfold scaled, float_of_int.
  set (a := Z.abs v) in *.
  destruct (Z.leb_spec (Z.log2 a + 1) 53) as [|Hn]; [discriminate|].
  set (sh := Z.log2 a + 1 - 53).
  assert (Hsh : 0 < sh) by (unfold sh; lia).
  assert (Ha : 0 < a) by (destruct (Z.eq_dec a 0) as [E|]; [rewrite E in Hn; simpl in Hn; lia | unfold a in *; lia]).
  assert (Hlog : Z.log2 a < 1023) by (apply Z.log2_lt_pow2; lia).
  assert (Hup : a < 2 ^ (Z.log2 a + 1)).
  { pose proof (Z.log2_spec a Ha). replace (Z.log2 a + 1) with (Z.succ (Z.log2 a)) by lia. lia. }
  assert (Hq : Z.shiftr a sh < 2 ^ 53).
  { rewrite Z.shiftr_div_pow2 by lia.
    apply Z.div_lt_upper_bound; [apply Z.pow_pos_nonneg; lia|].
    rewrite <- Z.pow_add_r by lia.
    replace (sh + 53) with (Z.log2 a + 1) by (unfold sh; lia). exact Hup. }
  match goal with |- context [Z.shiftl ?q' sh] => set (q1 := q') end.
  assert (Hq1 : q1 <= 2 ^ 53) by (unfold q1; destruct (_ || _); lia).
  assert (Hm : Z.shiftl q1 sh <= 2 ^ 1023).
  { rewrite Z.shiftl_mul_pow2 by lia.
    assert (2 ^ sh <= 2 ^ 970) by (apply Z.pow_le_mono_r; unfold sh; lia).
    assert (0 < 2 ^ sh) by (apply Z.pow_pos_nonneg; lia).
    replace (2 ^ 1023) with (2 ^ 53 * 2 ^ 970) by (rewrite <- Z.pow_add_r by lia; reflexivity).
    destruct (Z_le_gt_dec q1 0).
    - assert (0 < 2 ^ 53 * 2 ^ 970) by (apply Z.mul_pos_pos; apply Z.pow_pos_nonneg; lia). nia.
    - apply Z.mul_le_mono_nonneg; lia. }
  destruct (Z.leb_spec (2 ^ 1024) (Z.shiftl q1 sh)) as [Hbig|]; [|discriminate].
  exfalso.
  assert (2 ^ 1023 < 2 ^ 1024) by (apply Z.pow_lt_mono_r; lia).
  lia.
Qed.

(** ** Encoder *)

Ltac norm_app :=
  repeat first [rewrite !sapp_assoc | progress cbn [String.append]].

(** An object only appends to the text encoded so far. *)
Lemma encode_object_app (skip : list string) (zpl : string) (o : ZPLObject) :
  encode_object skip zpl o
  = option_map (String.append zpl) (encode_object skip "" o).
Proof.
  unfold encode_object.
  destruct (String.eqb (obj_type o) "text" && in_ids (id o) skip).
  { simpl. now rewrite sapp_nil_r. }
  destruct (String.eqb (obj_type o) "barcode").
  { destruct (scaled (x o)), (scaled (y o)), (scaled (width o)),
      (scaled (height o)); simpl; try reflexivity.
    f_equal. now norm_app. }
  destruct (scaled (x o)), (scaled (y o)), (scaled (width o)),
    (scaled (height o)); simpl; try reflexivity.
  destruct (String.eqb (obj_type o) "text").
  { destruct (negb (rotation o =? 0)); simpl; f_equal; now norm_app. }
  destruct (String.eqb (obj_type o) "rectangle").
  { simpl; f_equal; now norm_app. }
  destruct (String.eqb (obj_type o) "line").
  { destruct (height o <? width o); simpl; f_equal; now norm_app. }
  destruct (String.eqb (obj_type o) "circle").
  { simpl; f_equal; now norm_app. }
  destruct (String.eqb (obj_type o) "image").
  { destruct (negb (is_empty (text o))); simpl; f_equal; now norm_app. }
  simpl; f_equal; now norm_app.
Qed.

Lemma encode_objects_app (skip : list string) (objs : list ZPLObject) :
  forall zpl,
    encode_objects skip zpl objs
    = option_map (String.append zpl) (encode_objects skip "" objs).
Proof.
  induction objs as [|o objs IH]; intros zpl; simpl.
  - now rewrite sapp_nil_r.
  - rewrite encode_object_app.
    destruct (encode_object skip "" o) as [blk|]; simpl; [|reflexivity].
    rewrite IH. rewrite (IH blk).
    destruct (encode_objects skip "" objs) as [rest|]; simpl; [|reflexivity].
    now rewrite sapp_assoc.
Qed.

(** The encoder fails on an object only through a coordinate that is too
    large for a float. *)
Lemma encode_object_none (skip : list string) (zpl : string) (o : ZPLObject) :
  encode_object skip zpl o = None -> float_sized o = false.
Proof.
  intros H. destruct (float_sized o) eqn:F; [exfalso | reflexivity].
  unfold float_sized in F.
  repeat (apply andb_prop in F; destruct F as [F ?]).
  repeat match goal with
         | K : (Z.abs ?v <? 2 ^ 1023) = true |- _ =>
             apply Z.ltb_lt, scaled_defined in K
         end.
  unfold encode_object in H.
  destruct (String.eqb (obj_type o) "text" && in_ids (id o) skip); [discriminate|].
  destruct (scaled (x o)); [|congruence].
  destruct (scaled (y o)); [|congruence].
  destruct (scaled (width o)); [|congruence].
  destruct (scaled (height o)); [|congruence].
  repeat match goal with
         | K : context [if ?b then _ else _] |- _ => destruct b
         end; discriminate.
Qed.

Lemma encode_objects_none (skip : list string) (objs : list ZPLObject) :
  forall zpl,
    encode_objects skip zpl objs = None ->
    exists o, In o objs /\ float_sized o = false.
Proof.
  induction objs as [|o objs IH]; intros zpl H; simpl in H; [discriminate|].
  destruct (encode_object skip zpl o) as [z|] eqn:E.
  - destruct (IH _ H) as (o' & Hin & Hf). exists o'. split; [now right | exact Hf].
  - exists o. split; [now left | eapply encode_object_none; eauto].
Qed.

(** The text [generate_zpl] returns, around what the objects contribute. *)
Lemma generate_zpl_shape (settings : LabelSettings) (objs : list ZPLObject) (out : string) :
  generate_zpl settings objs = Some out ->
  exists body, out = "^XA" ++ nl ++ body ++ "^XZ" ++ nl.
Proof.
  unfold generate_zpl. intros H.
  rewrite encode_objects_app in H.
  destruct (encode_objects (skip_text_ids objs) "" objs) as [blk|]; simpl in H;
    [|discriminate].
  injection H as <-.
  destruct (String.eqb (orientation settings) "Landscape").
  - exists ("^POI" ++ nl ++ blk). now norm_app.
  - exists blk. now norm_app.
Qed.

(** The encoder fails only on a scene with a coordinate too large for a
    float. *)
Lemma generate_zpl_none (settings : LabelSettings) (objs : list ZPLObject) :
  generate_zpl settings objs = None ->
  exists o, In o objs /\ float_sized o = false.
Proof.
  unfold generate_zpl. intros E.
  destruct (encode_objects _ _ objs) eqn:F; [discriminate|].
  exact (encode_objects_none _ _ _ F).
Qed.

(** C5. For every scene and every label configuration, the text that the
    encoder returns starts with the format-start marker [^XA] and ends with
    the format-end marker [^XZ] followed by a line feed.  The encoder
    returns no text at all only when the conversion of a coordinate to a
    float overflows, which takes an object with a coordinate of magnitude
    [2^1023] or more. *)
Theorem generate_zpl_brackets (settings : LabelSettings) (objs : list ZPLObject) :
  match generate_zpl settings objs with
  | Some out =>
      startswith out "^XA" = true /\ endswith out ("^XZ" ++ nl) = true
  | None => exists o, In o objs /\ float_sized o = false
  end.
Proof.
  destruct (generate_zpl settings objs) as [out|] eqn:E.
  - destruct (generate_zpl_shape _ _ _ E) as (body & ->). split.
    + apply startswith_app.
    + replace ("^XA" ++ nl ++ body ++ "^XZ" ++ nl)
        with (("^XA" ++ nl ++ body) ++ "^XZ" ++ nl) by now norm_app.
      apply endswith_app.
  - exact (generate_zpl_none settings objs E).
Qed.

Lemma encode_object_not_text (skip : list string) (zpl : string) (o : ZPLObject) :
  String.eqb (obj_type o) "text" = false ->
  encode_object skip zpl o = encode_object [] zpl o.
Proof. intros H. unfold encode_object. now rewrite H. Qed.

Lemma encode_object_skipped (skip : list string) (zpl : string) (o : ZPLObject) :
  String.eqb (obj_type o) "text" = true -> in_ids (id o) skip = true ->
  encode_object skip zpl o = Some zpl.
Proof. intros H K. unfold encode_object. now rewrite H, K. Qed.

(** The de-duplication rule on a scene of one barcode and one text that
    duplicates its caption: the scene is encoded as the barcode alone. *)
Lemma generate_zpl_suppresses (settings : LabelSettings) (t b : ZPLObject) :
  obj_type b = "barcode" ->
  duplicates_caption b t = true ->
  generate_zpl settings [t; b] = generate_zpl settings [b]
  /\ generate_zpl settings [b; t] = generate_zpl settings [b].
Proof.
  intros Hb Hd.
  assert (Ht : String.eqb (obj_type t) "text" = true).
  { unfold duplicates_caption in Hd.
    repeat (apply andb_prop in Hd; destruct Hd as [Hd ?]). exact Hd. }
  assert (Hbt : String.eqb (obj_type b) "text" = false) by now rewrite Hb.
  assert (Hbb : String.eqb (obj_type b) "barcode" = true) by now rewrite Hb.
  assert (Htb : String.eqb (obj_type t) "barcode" = false).
  { apply String.eqb_eq in Ht. now rewrite Ht. }
  assert (Hself : duplicates_caption b b = false).
  { unfold duplicates_caption. now rewrite Hbt. }
  assert (Hin : in_ids (id t) [id t] = true).
  { unfold in_ids. simpl. now rewrite String.eqb_refl. }
  assert (S1 : skip_text_ids [t; b] = [id t]).
  { unfold skip_text_ids. simpl. now rewrite Htb, Hbb, Hd. }
  assert (S2 : skip_text_ids [b; t] = [id t]).
  { unfold skip_text_ids. simpl. now rewrite Htb, Hbb, Hself, Hd. }
  assert (S3 : skip_text_ids [b] = []).
  { unfold skip_text_ids. simpl. now rewrite Hbb, Hself. }
  unfold generate_zpl. rewrite S1, S2, S3. simpl encode_objects.
  split.
  - rewrite (encode_object_skipped [id t] _ t Ht Hin).
    now rewrite (encode_object_not_text [id t] _ b Hbt).
  - rewrite (encode_object_not_text [id t] _ b Hbt).
    destruct (encode_object [] _ b) as [z|]; [|reflexivity].
    now rewrite (encode_object_skipped [id t] _ t Ht Hin).
Qed.

(** C1, as amended.  For a scene made of a text object with text
    "123456789" at (10,80) and a barcode object with text "123456789" at
    (10,20) of height 55, whose widths differ by at most 2, and whatever
    their remaining fields and their order, the encoder returns exactly
    what it returns for the barcode alone: the text object contributes
    nothing.  (It does return a text, unless the width of the barcode is
    too large for a float.) *)
Theorem caption_suppressed (settings : LabelSettings) (t b : ZPLObject) :
  obj_type t = "text" -> text t = "123456789" -> x t = 10 -> y t = 80 ->
  obj_type b = "barcode" -> text b = "123456789" -> x b = 10 -> y b = 20 ->
  height b = 55 ->
  Z.abs (width t - width b) <= 2 ->
  generate_zpl settings [t; b] = generate_zpl settings [b]
  /\ generate_zpl settings [b; t] = generate_zpl settings [b]
  /\ (Z.abs (width b) < 2 ^ 1023 ->
      exists out, generate_zpl settings [b] = Some out).
Proof.
  intros Ht Htt Htx Hty Hb Hbt Hbx Hby Hbh Hw.
  assert (Hd : duplicates_caption b t = true).
  { unfold duplicates_caption.
    rewrite Ht, Htt, Hbt, Htx, Hty, Hbx, Hby, Hbh. simpl.
    rewrite andb_true_r. apply Z.leb_le. exact Hw. }
  destruct (generate_zpl_suppresses settings t b Hb Hd) as (E1 & E2).
  split; [exact E1|]. split; [exact E2|].
  intros Hwb. destruct (generate_zpl settings [b]) as [out|] eqn:E;
    [now exists out|].
  exfalso. destruct (generate_zpl_none _ _ E) as (o & [<-|[]] & F).
  unfold float_sized in F. rewrite Hbx, Hby, Hbh in F.
  apply Z.ltb_lt in Hwb. rewrite Hwb in F. discriminate F.
Qed.

Lemma caption_suppressed_witness :
  generate_zpl default_settings [caption_text_wide; caption_barcode]
  = generate_zpl default_settings [caption_barcode]
  /\ generate_zpl default_settings [caption_barcode; caption_text_wide]
    = generate_zpl default_settings [caption_barcode]
  /\ exists out, generate_zpl default_settings [caption_barcode] = Some out.
Proof.
  destruct (caption_suppressed default_settings caption_text_wide caption_barcode)
    as (E1 & E2 & E3); try reflexivity; [simpl; lia|].
  split; [exact E1|]. split; [exact E2|]. apply E3. simpl. lia.
Defined.

(** C1, as stated, fails.  With the widths that [add_object] gives the two
    variants, 100 for the text and 120 for the barcode, the rule does not
    apply and the block of the text object, with its field-data command, is
    in the output. *)
Lemma caption_kept_at_default_widths :
  generate_zpl default_settings [caption_text; caption_barcode]
  = Some ("^XA" ++ nl
          ++ "^FO10,80" ++ nl ++ "^AA,N,30,30" ++ nl ++ "^FD123456789^FS" ++ nl
          ++ "^FO10,20" ++ nl ++ "^BY3,2,100" ++ nl ++ "^BCN,55,Y,N,Y" ++ nl
          ++ "^FD123456789^FS" ++ nl
          ++ "^XZ" ++ nl)
  /\ generate_zpl default_settings [caption_text; caption_barcode]
     <> generate_zpl default_settings [caption_barcode].
Proof. split; [reflexivity | vm_compute; discriminate]. Qed.

Lemma encode_objects_split (skip : list string) (pre post : list ZPLObject) (o : ZPLObject) :
  forall zpl,
    encode_objects skip zpl (pre ++ o :: post)
    = let? z1 := encode_objects skip zpl pre in
      let? z2 := encode_object skip z1 o in
      encode_objects skip z2 post.
Proof.
  induction pre as [|p pre IH]; intros zpl; simpl; [reflexivity|].
  destruct (encode_object skip zpl p); [apply IH | reflexivity].
Qed.

(** C7, as amended.  For an image object whose reference name is made of
    ASCII characters the encoder emits a position command and, when the
    reference name is not empty, a graphics-reference command whose name
    operand is the reference name with every occurrence of [.bmp] and of
    [.BMP] removed, then cut to its first eight characters, then
    uppercased; when the reference name is empty only the position command
    is emitted.  This is what the object appends to the text encoded so
    far, what a scene made of the object alone is encoded to, and a part of
    the encoding of every scene that contains the object.  (On other names
    the source cuts and uppercases code points, which the characters of
    this development are not.) *)
Theorem image_reference (settings : LabelSettings) (o : ZPLObject) (px py : Z) :
  obj_type o = "image" ->
  string_forall is_ascii (text o) = true ->
  scaled (x o) = Some px -> scaled (y o) = Some py ->
  scaled (width o) <> None -> scaled (height o) <> None ->
  let position := "^FO" ++ str_int px ++ "," ++ str_int py ++ nl in
  let reference :=
    if is_empty (text o) then ""
    else "^XG" ++ upper (take 8 (remove_all ".BMP" (remove_all ".bmp" (text o))))
         ++ ",1,1^FS" ++ nl in
  (forall skip zpl, encode_object skip zpl o = Some (zpl ++ position ++ reference))
  /\ generate_zpl settings [o]
     = Some ("^XA" ++ nl
             ++ (if String.eqb (orientation settings) "Landscape"
                 then "^POI" ++ nl else "")
             ++ position ++ reference ++ "^XZ" ++ nl)
  /\ (forall pre post out,
        generate_zpl settings (pre ++ o :: post) = Some out ->
        exists before after, out = before ++ position ++ reference ++ after).
Proof.
  intros Hty _ Hx Hy Hw Hh position reference.
  assert (Hblock : forall skip zpl,
             encode_object skip zpl o = Some (zpl ++ position ++ reference)).
  { intros skip zpl. unfold encode_object.
    rewrite Hty, Hx, Hy. simpl.
    destruct (scaled (width o)); [|congruence].
    destruct (scaled (height o)); [|congruence].
    subst position reference.
    destruct (is_empty (text o)); simpl; f_equal.
    - now norm_app.
    - unfold image_name. now norm_app. }
  split; [exact Hblock|]. split.
  - unfold generate_zpl. simpl encode_objects. rewrite Hblock.
    subst position.
    destruct (String.eqb (orientation settings) "Landscape"); f_equal; now norm_app.
  - intros pre post out H. unfold generate_zpl in H.
    rewrite encode_objects_split in H.
    destruct (encode_objects _ _ pre) as [z1|]; [|discriminate].
    rewrite Hblock in H.
    rewrite encode_objects_app in H.
    destruct (encode_objects _ "" post) as [rest|]; simpl in H; [|discriminate].
    injection H as <-.
    exists z1, (rest ++ "^XZ" ++ nl). subst position. now norm_app.
Qed.

Lemma image_reference_witness :
  generate_zpl default_settings [new_object "image" 50 50 60 60 "image.bmp"]
  = Some ("^XA" ++ nl ++ "^FO50,50" ++ nl ++ "^XGIMAGE,1,1^FS" ++ nl ++ "^XZ" ++ nl).
Proof.
  refine (proj1 (proj2 (image_reference default_settings
                          (new_object "image" 50 50 60 60 "image.bmp") 50 50
                          _ _ _ _ _ _)));
    try reflexivity; discriminate.
Defined.

(** C7, as stated, fails.  The extension of a reference name is stripped
    only when it is [.bmp] or [.BMP]: the image [logo.png] is referenced as
    [LOGO.PNG], where the name with its extension stripped is [LOGO]. *)
Lemma image_extension_kept :
  generate_zpl default_settings [logo_image]
  = Some ("^XA" ++ nl ++ "^FO50,50" ++ nl ++ "^XGLOGO.PNG,1,1^FS" ++ nl
          ++ "^XZ" ++ nl)
  /\ spec_image_name (text logo_image) = "LOGO"
  /\ image_name (text logo_image) <> spec_image_name (text logo_image).
Proof.
  split; [reflexivity | split; [reflexivity | vm_compute; discriminate]].
Qed.

(** ** Decoder *)




Lemma string_forall_app (p : ascii -> bool) (a b : string) :
  string_forall p (a ++ b) = string_forall p a && string_forall p b.
Proof.
  induction a as [|c a IH]; simpl; [reflexivity|].
  now rewrite IH, andb_assoc.
Qed.



Section DecoderFacts.

Variable uuid4 : nat -> string.



(** A line that starts with none of the six prefixes leaves the variables
    of the loop as they are. *)
Lemma parse_line_unrecognized (st : ParserState) (raw : string) :
  recognizable raw = false -> parse_line uuid4 st raw = Some st.
Proof.
  unfold recognizable, parse_line. intros H.
  repeat (apply orb_false_elim in H; destruct H as [H ?]).
  destruct (is_empty (strip raw)); [reflexivity|].
  repeat match goal with K : startswith _ _ = false |- _ => rewrite K; clear K end.
  reflexivity.
Qed.


End DecoderFacts.


Section CheckedDecoder.

Variable uuid4 : nat -> string.

Lemma parse_line_with_unbounded (st : ParserState) (raw : string) :
  parse_line_with uuid4 int_of_digits st raw = parse_line uuid4 st raw.
Proof. reflexivity. Qed.




End CheckedDecoder.



(** ** Round trip of a rectangle *)

Lemma string_forall_impl (p q : ascii -> bool) (s : string) :
  (forall c, p c = true -> q c = true) ->
  string_forall p s = true -> string_forall q s = true.
Proof.
  intros Hpq. induction s as [|c s IH]; simpl; [reflexivity|].
  intros H. apply andb_prop in H. destruct H as [Hc Hs].
  now rewrite (Hpq _ Hc), IH.
Qed.

Lemma digit_nonspace (c : ascii) : is_digit c = true -> nonspace c = true.
Proof.
  destruct c as [[] [] [] [] [] [] [] []]; intros H;
    try discriminate H; reflexivity.
Qed.

Lemma nonspace_not_nl (c : ascii) :
  nonspace c = true -> Ascii.eqb c "010"%char = false.
Proof.
  destruct c as [[] [] [] [] [] [] [] []]; intros H;
    try discriminate H; reflexivity.
Qed.

Lemma digits_nonspace (s : string) :
  digits s = true -> string_forall nonspace s = true.
Proof.
  unfold digits. intros H. apply andb_prop in H. destruct H as [_ H].
  eapply string_forall_impl; [exact digit_nonspace | exact H].
Qed.

Lemma rstrip_nonspace (s : string) :
  string_forall nonspace s = true -> rstrip s = s.
Proof.
  induction s as [|c s IH]; simpl; [reflexivity|].
  intros H. apply andb_prop in H. destruct H as [Hc Hs].
  rewrite (IH Hs). unfold nonspace in Hc. apply negb_true_iff in Hc.
  now rewrite Hc, andb_false_r.
Qed.

Lemma strip_nonspace (s : string) :
  string_forall nonspace s = true -> strip s = s.
Proof.
  intros H. unfold strip.
  assert (L : lstrip s = s).
  { destruct s as [|c s]; [reflexivity|]. simpl in *.
    apply andb_prop in H. destruct H as [Hc _].
    unfold nonspace in Hc. apply negb_true_iff in Hc. now rewrite Hc. }
  rewrite L. now apply rstrip_nonspace.
Qed.

Lemma split_lines_cons (l rest : string) :
  string_forall nonspace l = true ->
  split_lines (l ++ nl ++ rest) = l :: split_lines rest.
Proof.
  induction l as [|c l IH]; intros H; [reflexivity|].
  cbn [string_forall] in H. apply andb_prop in H. destruct H as [Hc Hl].
  cbn [String.append split_lines].
  rewrite (nonspace_not_nl _ Hc), (IH Hl). reflexivity.
Qed.

Lemma split_lines_unlines (ls : list string) :
  Forall (fun l => string_forall nonspace l = true) ls ->
  split_lines (unlines ls) = (ls ++ [""])%list.
Proof.
  induction 1 as [|l ls Hl _ IH]; cbn [unlines]; [reflexivity|].
  rewrite split_lines_cons by exact Hl. now rewrite IH.
Qed.

Lemma findall_digits_from_run (d s : string) :
  forall cur,
    string_forall is_digit d = true ->
    findall_digits_from cur (d ++ s) = findall_digits_from (cur ++ d) s.
Proof.
  induction d as [|c d IH]; intros cur H; simpl.
  - now rewrite sapp_nil_r.
  - simpl in H. apply andb_prop in H. destruct H as [Hc Hd].
    rewrite Hc, (IH _ Hd). now rewrite sapp_assoc.
Qed.

Lemma emit_digits (d : string) : digits d = true -> emit d = [d].
Proof. unfold digits, emit. now destruct d. Qed.

Lemma digits_run (d : string) : digits d = true -> string_forall is_digit d = true.
Proof. unfold digits. intros H. now apply andb_prop in H. Qed.

Lemma findall_skip (c : ascii) (s : string) :
  is_digit c = false ->
  findall_digits_from "" (String c s) = findall_digits_from "" s.
Proof. intros H. cbn [findall_digits_from]. now rewrite H. Qed.

Lemma findall_run_then (d : string) (c : ascii) (s : string) :
  digits d = true -> is_digit c = false ->
  findall_digits_from "" (d ++ String c s) = d :: findall_digits_from "" s.
Proof.
  intros Hd Hc.
  rewrite (findall_digits_from_run d _ "" (digits_run _ Hd)).
  cbn [String.append findall_digits_from]. rewrite Hc.
  now rewrite (emit_digits _ Hd).
Qed.

Lemma findall_run_end (d : string) :
  digits d = true -> findall_digits_from "" d = [d].
Proof.
  intros Hd. rewrite <- (sapp_nil_r d) at 1.
  rewrite (findall_digits_from_run d "" "" (digits_run _ Hd)).
  cbn [String.append findall_digits_from]. now apply emit_digits.
Qed.

(** The operands the decoder reads from a position command. *)
Lemma findall_digits_position (dx dy : string) :
  digits dx = true -> digits dy = true ->
  findall_digits ("^FO" ++ dx ++ "," ++ dy) = [dx; dy].
Proof.
  intros Hx Hy. unfold findall_digits. cbn [String.append].
  rewrite !findall_skip by reflexivity.
  rewrite (findall_run_then dx) by (exact Hx || reflexivity).
  now rewrite findall_run_end.
Qed.

(** The operands the decoder reads from a box command. *)
Lemma findall_digits_box (dw dh dt : string) :
  digits dw = true -> digits dh = true -> digits dt = true ->
  findall_digits ("^GB" ++ dw ++ "," ++ dh ++ "," ++ dt ++ "^FS") = [dw; dh; dt].
Proof.
  intros Hw Hh Ht. unfold findall_digits. cbn [String.append].
  rewrite !findall_skip by reflexivity.
  rewrite (findall_run_then dw) by (exact Hw || reflexivity).
  rewrite (findall_run_then dh) by (exact Hh || reflexivity).
  rewrite (findall_run_then dt) by (exact Ht || reflexivity).
  now rewrite !findall_skip by reflexivity.
Qed.

Lemma string_of_uint_digits (d : Decimal.uint) :
  string_forall is_digit (NilEmpty.string_of_uint d) = true.
Proof. induction d; simpl; auto. Qed.

Lemma str_int_pos (p : positive) :
  str_int (Z.pos p) = NilEmpty.string_of_uint (Pos.to_uint p).
Proof.
  unfold str_int. simpl.
  pose proof (Unsigned.to_uint_nonnil p) as H.
  now destruct (Pos.to_uint p).
Qed.

(** The decimal text of a natural number is a non-empty string of digits,
    and [int] reads the number back from it. *)
Lemma str_int_digits (v : Z) : 0 <= v -> digits (str_int v) = true.
Proof.
  intros H. destruct v as [|p|p]; [reflexivity | | lia].
  rewrite str_int_pos. unfold digits.
  rewrite string_of_uint_digits, andb_true_r.
  pose proof (Unsigned.to_uint_nonnil p) as Hn.
  now destruct (Pos.to_uint p).
Qed.

Lemma int_of_str_int (v : Z) : 0 <= v -> int_of_digits (str_int v) = Some v.
Proof.
  intros H. destruct v as [|p|p]; [reflexivity | | lia].
  pose proof (str_int_digits (Z.pos p) H) as Hd.
  rewrite str_int_pos in *. unfold int_of_digits.
  destruct (NilEmpty.string_of_uint (Pos.to_uint p)) eqn:E; [discriminate|].
  rewrite <- E, NilEmpty.usu. simpl. unfold Z.of_uint.
  now rewrite Unsigned.of_to.
Qed.

Lemma scaled_nonneg (v p : Z) : 0 <= v -> scaled v = Some p -> 0 <= p.
Proof.
  unfold scaled, float_of_int. intros Hv H.
  destruct (Z.log2 (Z.abs v) + 1 <=? 53); [injection H as <-; exact Hv|].
  match type of H with context [Z.shiftl ?q ?sh] => set (q1 := q) in *; set (s1 := sh) in * end.
  destruct (2 ^ 1024 <=? Z.shiftl q1 s1); [discriminate|].
  injection H as <-.
  assert (0 <= q1).
  { unfold q1. pose proof (Z.shiftr_nonneg (Z.abs v) s1) as K.
    assert (0 <= Z.shiftr (Z.abs v) s1) by (apply K; lia).
    destruct (_ || _); lia. }
  assert (0 <= Z.shiftl q1 s1) by (apply Z.shiftl_nonneg; lia).
  assert (0 <= Z.sgn v) by (apply Z.sgn_nonneg; lia).
  nia.
Qed.

Ltac solve_nonspace :=
  repeat first [ progress cbn [String.append string_forall]
               | rewrite string_forall_app ];
  repeat match goal with
         | H : digits ?d = true |- context [string_forall nonspace ?d] =>
             rewrite (digits_nonspace d H)
         end;
  reflexivity.

Section RoundTrip.

Variable uuid4 : nat -> string.

Lemma parse_line_position (st : ParserState) (dx dy : string) (vx vy : Z) :
  digits dx = true -> digits dy = true ->
  int_of_digits dx = Some vx -> int_of_digits dy = Some vy ->
  parse_line uuid4 st ("^FO" ++ dx ++ "," ++ dy)
  = Some (mkParserState (parsed st) vx vy (current_font_type st)
            (current_font_size st) (parser_calls st)).
Proof.
  intros Hx Hy Ex Ey. unfold parse_line.
  rewrite strip_nonspace by solve_nonspace.
  rewrite startswith_app, findall_digits_position by assumption.
  rewrite Ex, Ey. reflexivity.
Qed.

Lemma parse_line_box (st : ParserState) (dw dh dt : string) (vw vh vt : Z) :
  digits dw = true -> digits dh = true -> digits dt = true ->
  int_of_digits dw = Some vw -> int_of_digits dh = Some vh ->
  int_of_digits dt = Some vt ->
  parse_line uuid4 st ("^GB" ++ dw ++ "," ++ dh ++ "," ++ dt ++ "^FS")
  = Some (push_parsed st
            (set_thickness vt
               (set_id (take 8 (uuid4 (parser_calls st)))
                  (new_object "rectangle" (current_x st) (current_y st) vw vh "")))
            (S (parser_calls st))).
Proof.
  intros Hw Hh Ht Ew Eh Et. unfold parse_line.
  rewrite strip_nonspace by solve_nonspace.
  rewrite findall_digits_box by assumption.
  rewrite Ew, Eh, Et.
  set (line := "^GB" ++ dw ++ "," ++ dh ++ "," ++ dt ++ "^FS").
  replace (is_empty line) with false by reflexivity.
  replace (startswith line "^FO") with false by reflexivity.
  replace (startswith line "^A") with false by reflexivity.
  replace (startswith line "^FD") with false by reflexivity.
  replace (startswith line "^GB") with true
    by (symmetry; apply startswith_app).
  reflexivity.
Qed.

(** Decoding the encoding of a rectangle with natural coordinates: one
    object, a rectangle, at the coordinates the encoder wrote. *)
Lemma rectangle_round_trip_rounded
  (calls : nat) (settings : LabelSettings) (o : ZPLObject) (out : string) :
  obj_type o = "rectangle" ->
  0 <= x o -> 0 <= y o -> 0 <= width o -> 0 <= height o -> 0 <= thickness o ->
  generate_zpl settings [o] = Some out ->
  exists o',
    parse_zpl_file uuid4 calls out = Some ([o'], S calls)
    /\ obj_type o' = "rectangle"
    /\ scaled (x o) = Some (x o') /\ scaled (y o) = Some (y o')
    /\ scaled (width o) = Some (width o') /\ scaled (height o) = Some (height o')
    /\ thickness o' = thickness o.
Proof.
  intros Hty Hx Hy Hw Hh Ht H.
  unfold generate_zpl in H. simpl encode_objects in H.
  unfold encode_object in H. rewrite Hty in H. simpl in H.
  destruct (scaled (x o)) as [px|] eqn:Ex; [|discriminate].
  destruct (scaled (y o)) as [py|] eqn:Ey; [|discriminate].
  destruct (scaled (width o)) as [pw|] eqn:Ew; [|discriminate].
  destruct (scaled (height o)) as [ph|] eqn:Eh; [|discriminate].
  pose proof (scaled_nonneg _ _ Hx Ex) as Px.
  pose proof (scaled_nonneg _ _ Hy Ey) as Py.
  pose proof (scaled_nonneg _ _ Hw Ew) as Pw.
  pose proof (scaled_nonneg _ _ Hh Eh) as Ph.
  pose proof (str_int_digits _ Px) as Dx. pose proof (str_int_digits _ Py) as Dy.
  pose proof (str_int_digits _ Pw) as Dw. pose proof (str_int_digits _ Ph) as Dh.
  pose proof (str_int_digits _ Ht) as Dt.
  set (position := "^FO" ++ str_int px ++ "," ++ str_int py) in *.
  set (box := "^GB" ++ str_int pw ++ "," ++ str_int ph ++ ","
              ++ str_int (thickness o) ++ "^FS") in *.
  assert (Npos : string_forall nonspace position = true)
    by (subst position; solve_nonspace).
  assert (Nbox : string_forall nonspace box = true)
    by (subst box; solve_nonspace).
  assert (Ppos : forall st, parse_line uuid4 st position = _)
    by (intros st; subst position;
        apply (parse_line_position st _ _ px py Dx Dy);
        now apply int_of_str_int).
  assert (Pbox : forall st, parse_line uuid4 st box = _)
    by (intros st; subst box;
        apply (parse_line_box st _ _ _ pw ph (thickness o) Dw Dh Dt);
        now apply int_of_str_int).
  assert (Pfix : forall st l, recognizable l = false ->
                             parse_line uuid4 st l = Some st)
    by (intros; now apply parse_line_unrecognized).
  eexists.
  destruct (String.eqb (orientation settings) "Landscape").
  - assert (Eout : out = unlines ["^XA"; "^POI"; position; box; "^XZ"]).
    { injection H as <-. subst position box. cbn [unlines]. now norm_app. }
    rewrite Eout. unfold parse_zpl_file.
    rewrite split_lines_unlines by (repeat constructor; assumption).
    cbn [app parse_lines].
    repeat (first [rewrite Pfix by reflexivity | rewrite Ppos | rewrite Pbox];
            cbv beta iota).
    cbn. repeat split; reflexivity.
  - assert (Eout : out = unlines ["^XA"; position; box; "^XZ"]).
    { injection H as <-. subst position box. cbn [unlines]. now norm_app. }
    rewrite Eout. unfold parse_zpl_file.
    rewrite split_lines_unlines by (repeat constructor; assumption).
    cbn [app parse_lines].
    repeat (first [rewrite Pfix by reflexivity | rewrite Ppos | rewrite Pbox];
            cbv beta iota).
    cbn. repeat split; reflexivity.
Qed.

End RoundTrip.

(** C4, as amended.  Encoding a scene made of one rectangle whose x, y,
    width and height are natural numbers below [2^53] and whose thickness is
    a natural number, then decoding the text, yields exactly one object, a
    rectangle with the same x, y, width, height and thickness.  (Above
    [2^53] the four coordinates come back rounded to the nearest float,
    which is [rectangle_round_trip_rounded].) *)
Theorem rectangle_round_trip
  (uuid4 : nat -> string) (calls : nat) (settings : LabelSettings) (o : ZPLObject) :
  obj_type o = "rectangle" ->
  0 <= x o < 2 ^ 53 -> 0 <= y o < 2 ^ 53 ->
  0 <= width o < 2 ^ 53 -> 0 <= height o < 2 ^ 53 ->
  0 <= thickness o ->
  exists out o',
    generate_zpl settings [o] = Some out
    /\ parse_zpl_file uuid4 calls out = Some ([o'], S calls)
    /\ obj_type o' = "rectangle"
    /\ x o' = x o /\ y o' = y o /\ width o' = width o /\ height o' = height o
    /\ thickness o' = thickness o.
Proof.
  intros Hty Hx Hy Hw Hh Ht.
  assert (Ex : scaled (x o) = Some (x o)) by (apply scaled_exact; lia).
  assert (Ey : scaled (y o) = Some (y o)) by (apply scaled_exact; lia).
  assert (Ew : scaled (width o) = Some (width o)) by (apply scaled_exact; lia).
  assert (Eh : scaled (height o) = Some (height o)) by (apply scaled_exact; lia).
  destruct (generate_zpl settings [o]) as [out|] eqn:E.
  - destruct (rectangle_round_trip_rounded uuid4 calls settings o out)
      as (o' & P & T & Rx & Ry & Rw & Rh & Rt); try assumption; try lia.
    exists out, o'. rewrite Ex in Rx. rewrite Ey in Ry.
    rewrite Ew in Rw. rewrite Eh in Rh.
    injection Rx as Rx. injection Ry as Ry. injection Rw as Rw. injection Rh as Rh.
    repeat split; auto.
  - exfalso. unfold generate_zpl in E. simpl encode_objects in E.
    unfold encode_object in E. rewrite Hty, Ex, Ey, Ew, Eh in E.
    simpl in E. destruct (String.eqb (orientation settings) "Landscape");
      discriminate.
Qed.

Lemma rectangle_round_trip_witness :
  exists out o',
    generate_zpl default_settings [inside_rectangle] = Some out
    /\ parse_zpl_file uuid_seq 0 out = Some ([o'], 1%nat)
    /\ obj_type o' = "rectangle"
    /\ x o' = 10 /\ y o' = 20 /\ width o' = 80 /\ height o' = 40
    /\ thickness o' = 2.
Proof.
  apply (rectangle_round_trip uuid_seq 0 default_settings inside_rectangle);
    first [reflexivity | simpl; lia].
Defined.

(** C4, as stated, fails.  The decoder reads the operands of a command as
    runs of digits, so the sign of a coordinate is lost: a rectangle at
    x = -5 comes back at x = 5. *)
Lemma rectangle_sign_lost :
  exists out o',
    generate_zpl default_settings [outside_rectangle] = Some out
    /\ parse_zpl_file uuid_seq 0 out = Some ([o'], 1%nat)
    /\ obj_type o' = "rectangle"
    /\ x outside_rectangle = -5 /\ x o' = 5.
Proof.
  eexists. eexists. split; [reflexivity|]. split; [vm_compute; reflexivity|].
  repeat split.
Qed.

(** ** Editor: frame facts *)

Section EditorFacts.

Variable uuid4 : nat -> string.
Variable measure_text : Z -> Q -> string -> string -> string -> option (Z * Z).

(** Drawing changes the width and the height of a text object, and
    nothing else. *)
Lemma draw_object_fields (s : LabelSettings) (z : Q) (o : ZPLObject) :
  let o' := draw_object measure_text s z o in
  obj_type o' = obj_type o /\ x o' = x o /\ y o' = y o /\ text o' = text o
  /\ font_size o' = font_size o /\ font_type o' = font_type o
  /\ selected o' = selected o /\ id o' = id o.
Proof.
  unfold draw_object.
  destruct (has_type o "text"); [|now repeat split].
  destruct (measure_text _ _ _ _ _) as [[w h]|]; now repeat split.
Qed.

(** Drawing twice is drawing once: the size of a text depends on its text
    and font, which drawing leaves alone. *)
Lemma draw_object_idem (s : LabelSettings) (z : Q) (o : ZPLObject) :
  draw_object measure_text s z (draw_object measure_text s z o)
  = draw_object measure_text s z o.
Proof.
  unfold draw_object. unfold has_type.
  destruct (String.eqb (obj_type o) "text") eqn:T; [|now rewrite T].
  destruct (measure_text _ _ _ _ _) as [[w h]|] eqn:M.
  - simpl. rewrite T, M. reflexivity.
  - rewrite T, M. reflexivity.
Qed.

Lemma scene_redraw (e : ZPLEditor) :
  scene (redraw_objects measure_text e)
  = map (draw_object measure_text (label_settings e) (zoom e)) (scene e).
Proof. unfold scene. simpl. now rewrite !map_map. Qed.

Lemma scene_alloc (n : ref) (vs : list ZPLObject) : map snd (alloc n vs) = vs.
Proof.
  revert n. induction vs as [|v vs IH]; intros n; simpl; [reflexivity|].
  now rewrite IH.
Qed.

Lemma drawn_redraw (e : ZPLEditor) :
  drawn measure_text (redraw_objects measure_text e).
Proof.
  unfold drawn. rewrite scene_redraw. simpl.
  rewrite map_map. apply map_ext. intros o. apply draw_object_idem.
Qed.

End EditorFacts.

(** ** Copy and paste *)

(** C10. Copying leaves the object list, the undo stack and the redo stack
    as they are, and every other component of the editor except the
    clipboard; without a selection the whole state is unchanged; with the
    object [v] selected the clipboard receives a copy of [v] with the
    selection flag cleared. *)
Theorem copy_object_frame (e : ZPLEditor) :
  objects (copy_object e) = objects e
  /\ undo_stack (copy_object e) = undo_stack e
  /\ redo_stack (copy_object e) = redo_stack e
  /\ selected_object (copy_object e) = selected_object e
  /\ label_settings (copy_object e) = label_settings e
  /\ (selected_object e = None -> copy_object e = e)
  /\ (forall r v,
        selected_object e = Some r -> lookup_ref r (objects e) = Some v ->
        clipboard_object (copy_object e) = Some (set_selected false v)
        /\ lookup_ref r (objects (copy_object e)) = Some v).
Proof.
  unfold copy_object, selection.
  destruct (selected_object e) as [r|] eqn:S;
    [destruct (lookup_ref r (objects e)) as [v|] eqn:L|];
    repeat split; intros; simpl; congruence.
Qed.

Lemma copy_object_frame_witness :
  let e := run uuid_seq measure_mono init [AddObject "text"] in
  exists v,
    lookup_ref 0%nat (objects e) = Some v
    /\ selected v = true
    /\ clipboard_object (copy_object e) = Some (set_selected false v)
    /\ copy_object init = init
    /\ undo_stack (copy_object e) = undo_stack e.
Proof.
  intros e.
  destruct (copy_object_frame e) as (_ & Hu & _ & _ & _ & _ & Hc).
  destruct (copy_object_frame init) as (_ & _ & _ & _ & _ & Hn & _).
  eexists. split; [reflexivity|]. split; [reflexivity|].
  split; [apply (Hc 0%nat); reflexivity|].
  split; [apply Hn; reflexivity | exact Hu].
Defined.

Section Paste.

Variable uuid4 : nat -> string.
Variable measure_text : Z -> Q -> string -> string -> string -> option (Z * Z).

Lemma scene_save_state (e : ZPLEditor) : scene (save_state e) = scene e.
Proof. reflexivity. Qed.

Lemma update_ref_app (r : ref) (f : ZPLObject -> ZPLObject)
  (l1 l2 : list (ref * ZPLObject)) :
  update_ref r f (l1 ++ l2) = (update_ref r f l1 ++ update_ref r f l2)%list.
Proof. unfold update_ref. apply map_app. Qed.

Lemma ids_update_ref (r : ref) (f : ZPLObject -> ZPLObject)
  (l : list (ref * ZPLObject)) :
  (forall o, id (f o) = id o) ->
  map id (map snd (update_ref r f l)) = map id (map snd l).
Proof.
  intros Hf. unfold update_ref. rewrite !map_map. apply map_ext.
  intros [r' o]. simpl. destruct (Nat.eqb r r'); simpl; [apply Hf | reflexivity].
Qed.

Lemma ids_draw (s : LabelSettings) (z : Q) (l : list ZPLObject) :
  map id (map (draw_object measure_text s z) l) = map id l.
Proof.
  rewrite map_map. apply map_ext. intros o.
  apply (draw_object_fields measure_text s z o).
Qed.

(** C6, as amended.  With a copied object [src] in the clipboard, [paste]
    appends one object to the scene and leaves the identifiers of the
    objects already there unchanged.  The identifier of the new object is
    the first eight characters of a freshly drawn UUID, never the one of
    [src]; it is distinct from the identifier of every object already in
    the scene whenever the drawn token is not in use there.  The position
    of the new object is exactly (src.x + 20, src.y + 20), and the new
    object is selected. *)
Theorem paste_object_spec (e : ZPLEditor) (src : ZPLObject) :
  clipboard_object e = Some src ->
  let token := take 8 (uuid4 (uuid_calls e)) in
  exists older pasted,
    scene (paste_object uuid4 measure_text e) = (older ++ [pasted])%list
    /\ map id older = map id (scene e)
    /\ id pasted = token
    /\ x pasted = x src + 20 /\ y pasted = y src + 20
    /\ selected pasted = true
    /\ (~ In token (map id (scene e)) -> ~ In (id pasted) (map id older)).
Proof.
  intros H token. unfold paste_object. rewrite H.
  unfold post_init. cbn [id set_id is_empty].
  rewrite scene_save_state, scene_redraw.
  unfold select_object. rewrite scene_redraw.
  unfold scene.
  cbn [objects with_objects with_selected with_uuid_calls with_next_ref
         label_settings zoom redraw_objects].
  set (D := draw_object measure_text (label_settings e) (zoom e)).
  set (new_obj := set_id _ _).
  rewrite map_app, update_ref_app, !map_app.
  cbn [map update_ref fst snd]. rewrite Nat.eqb_refl. cbn [fst snd].
  eexists. eexists. split; [reflexivity|].
  assert (Hids : map id
                   (map D (map D (map snd
                      (update_ref (next_ref e) (set_selected true)
                         (map (fun p => (fst p, set_selected false (snd p)))
                            (objects e))))))
                 = map id (map snd (objects e))).
  { unfold D. rewrite !ids_draw.
    rewrite ids_update_ref by reflexivity.
    rewrite !map_map. reflexivity. }
  pose proof (draw_object_fields measure_text (label_settings e) (zoom e)) as F.
  fold D in F.
  split; [exact Hids|].
  assert (Hid : id (D (D (set_selected true (set_selected false new_obj)))) = token).
  { destruct (F (D (set_selected true (set_selected false new_obj))))
      as (_ & _ & _ & _ & _ & _ & _ & ->).
    destruct (F (set_selected true (set_selected false new_obj)))
      as (_ & _ & _ & _ & _ & _ & _ & ->). reflexivity. }
  split; [exact Hid|].
  split.
  { destruct (F (D (set_selected true (set_selected false new_obj))))
      as (_ & -> & _).
    destruct (F (set_selected true (set_selected false new_obj)))
      as (_ & -> & _). reflexivity. }
  split.
  { destruct (F (D (set_selected true (set_selected false new_obj))))
      as (_ & _ & -> & _).
    destruct (F (set_selected true (set_selected false new_obj)))
      as (_ & _ & -> & _). reflexivity. }
  split.
  { destruct (F (D (set_selected true (set_selected false new_obj))))
      as (_ & _ & _ & _ & _ & _ & -> & _).
    destruct (F (set_selected true (set_selected false new_obj)))
      as (_ & _ & _ & _ & _ & _ & -> & _). reflexivity. }
  rewrite Hids, Hid. auto.
Qed.

End Paste.

Lemma paste_object_spec_witness :
  let e := run uuid_seq measure_mono init [AddObject "text"; CopyObject] in
  exists older pasted,
    scene (paste_object uuid_seq measure_mono e) = (older ++ [pasted])%list
    /\ map id older = ["10000000"]
    /\ id pasted = "10000010"
    /\ x pasted = 70 /\ y pasted = 70
    /\ selected pasted = true
    /\ ~ In (id pasted) (map id older).
Proof.
  intros e.
  destruct (paste_object_spec uuid_seq measure_mono e
              (set_selected false
                 (draw_object measure_mono default_settings 1
                    (set_selected true
                       (set_id "10000000"
                          (new_object "text" 50 50 100 30 "Esempio")))))
              eq_refl)
    as (older & pasted & E & Hold & Hid & Hx & Hy & Hs & Hfresh).
  exists older, pasted. repeat split; try assumption.
  apply Hfresh. vm_compute. intros [K|[]]. discriminate K.
Defined.

(** C6, as stated, fails.  Nothing compares the drawn token with the
    identifiers in use: when the UUID drawn for the pasted object starts
    with the eight characters that the UUID of an object of the scene
    started with, the two objects carry the same identifier. *)
Lemma paste_identifier_collides :
  let e := run uuid_same measure_mono init [AddObject "text"; CopyObject] in
  clipboard_object e <> None
  /\ uuid_same 0 <> uuid_same 1
  /\ map id (scene e) = ["deadbeef"]
  /\ map id (scene (paste_object uuid_same measure_mono e))
     = ["deadbeef"; "deadbeef"].
Proof.
  split; [discriminate|]. split; [vm_compute; discriminate|].
  split; reflexivity.
Qed.

(** ** History *)

Arguments save_state : simpl never.

Lemma save_state_nonempty (e : ZPLEditor) : undo_stack (save_state e) <> [].
Proof.
  unfold save_state. cbn [undo_stack with_stacks].
  set (st := (undo_stack e ++ [scene e])%list).
  destruct (Nat.ltb_spec max_undo_steps (length st)) as [L|L].
  - destruct st as [|a [|b st']]; simpl in L; unfold max_undo_steps in L;
      try lia; discriminate.
  - intros E. subst st. apply app_eq_nil in E. destruct E; discriminate.
Qed.

Lemma removelast_nonempty {A : Type} (l : list A) :
  (1 < length l)%nat -> removelast l <> [].
Proof. destruct l as [|a [|b l]]; simpl; try lia; discriminate. Qed.

Section HistoryInvariant.

Variable uuid4 : nat -> string.
Variable measure_text : Z -> Q -> string -> string -> string -> option (Z * Z).

Lemma undo_nonempty (e : ZPLEditor) :
  undo_stack e <> [] -> undo_stack (undo measure_text e) <> [].
Proof.
  intros H. unfold undo.
  destruct (1 <? length (undo_stack e))%nat eqn:L; [|exact H].
  cbn. apply removelast_nonempty. now apply Nat.ltb_lt.
Qed.

Lemma redo_nonempty (e : ZPLEditor) :
  undo_stack e <> [] -> undo_stack (redo measure_text e) <> [].
Proof.
  intros H. unfold redo.
  destruct (negb _); [|exact H].
  cbn. destruct (undo_stack e); [now elim H | discriminate].
Qed.

(** [undo] with at most one snapshot on the stack does nothing. *)
Lemma undo_noop (e : ZPLEditor) :
  (length (undo_stack e) <= 1)%nat -> undo measure_text e = e.
Proof.
  intros H. unfold undo.
  destruct (Nat.ltb_spec 1 (length (undo_stack e))); [lia | reflexivity].
Qed.

Ltac break_handler :=
  repeat match goal with
         | |- context [match ?t with _ => _ end] => destruct t eqn:?
         end.

(** No handler empties the undo stack. *)
Lemma handle_nonempty (e : ZPLEditor) (ev : Event) :
  undo_stack e <> [] -> undo_stack (handle uuid4 measure_text e ev) <> [].
Proof.
  intros H.
  destruct ev; cbn [handle];
    try (now apply undo_nonempty); try (now apply redo_nonempty);
    try apply save_state_nonempty.
  all: unfold add_object, delete_selected, clear_all, on_canvas_click,
         on_canvas_drag, on_canvas_release, edit_property, apply_changes,
         copy_object, paste_object, bring_forward, send_backward,
         new_project, import_project, import_zpl_file, set_zoom,
         apply_label_settings.
  all: break_handler; cbn; first [exact H | apply save_state_nonempty].
Qed.

Lemma run_nonempty (evs : list Event) :
  forall e, undo_stack e <> [] -> undo_stack (run uuid4 measure_text e evs) <> [].
Proof.
  induction evs as [|ev evs IH]; intros e H; simpl; [exact H|].
  apply IH. now apply handle_nonempty.
Qed.

Lemma undo_iter_nonempty (k : nat) (e : ZPLEditor) :
  undo_stack e <> [] -> undo_stack (Nat.iter k (undo measure_text) e) <> [].
Proof.
  intros H. induction k as [|k IH]; simpl; [exact H | now apply undo_nonempty].
Qed.

(** C9. Once the history is initialised the undo stack holds at least one
    snapshot after every event the editor handles: adding, deleting,
    clearing, clicking, dragging and releasing, editing a property,
    reordering, copying, pasting, undoing, redoing, starting a new project
    and importing included.  [undo] does nothing on a stack of one
    snapshot, so repeating it never empties the stack. *)
Theorem undo_stack_never_empty :
  (forall evs, (1 <= length (undo_stack (run uuid4 measure_text init evs)))%nat)
  /\ (forall e ev,
        undo_stack e <> [] -> undo_stack (handle uuid4 measure_text e ev) <> [])
  /\ (forall e, length (undo_stack e) = 1%nat -> undo measure_text e = e)
  /\ (forall e k,
        undo_stack e <> [] ->
        undo_stack (Nat.iter k (undo measure_text) e) <> []).
Proof.
  split; [|split; [|split]].
  - intros evs.
    assert (H : undo_stack (run uuid4 measure_text init evs) <> [])
      by (apply run_nonempty; discriminate).
    destruct (undo_stack _); [now elim H | simpl; lia].
  - exact handle_nonempty.
  - intros e H. apply undo_noop. lia.
  - intros e k. apply undo_iter_nonempty.
Qed.

End HistoryInvariant.

(** ** Undo and redo on the stacks *)

Lemma rev_cases {A : Type} (l : list A) :
  l = [] \/ exists a u, l = (rev u ++ [a])%list /\ rev l = a :: u.
Proof.
  destruct (rev l) as [|a u] eqn:E.
  - left. apply (f_equal (@rev A)) in E. now rewrite rev_involutive in E.
  - right. exists a, u. split; [|reflexivity].
    apply (f_equal (@rev A)) in E. now rewrite rev_involutive in E.
Qed.

Section Stacks.

Variable measure_text : Z -> Q -> string -> string -> string -> option (Z * Z).

Lemma stacks_undo (e : ZPLEditor) :
  stacks (undo measure_text e) = undo_stacks (stacks e).
Proof.
  unfold undo, stacks.
  destruct (rev_cases (undo_stack e)) as [E|(a & u & E & R)].
  - rewrite E. simpl. now rewrite E.
  - rewrite R. destruct u as [|b u].
    + rewrite E. simpl. now rewrite R.
    + rewrite E. rewrite length_app. simpl length.
      replace (1 <? _)%nat with true
        by (symmetry; apply Nat.ltb_lt; rewrite length_app; simpl; lia).
      cbn [undo_stack redo_stack redraw_objects with_objects with_selected
             restore with_next_ref with_stacks undo_stacks].
      rewrite removelast_last, last_last, rev_app_distr.
      simpl rev at 2. simpl app.
      rewrite rev_app_distr, rev_involutive. reflexivity.
Qed.

Lemma stacks_redo (e : ZPLEditor) :
  stacks (redo measure_text e) = redo_stacks (stacks e).
Proof.
  unfold redo, stacks.
  destruct (rev_cases (redo_stack e)) as [E|(a & r & E & R)].
  - rewrite E. simpl. now rewrite E.
  - rewrite R, E. rewrite length_app. simpl length.
    replace (negb _) with true
      by (symmetry; apply negb_true_iff, Nat.eqb_neq; lia).
    cbn [undo_stack redo_stack redraw_objects with_objects with_selected
           restore with_next_ref with_stacks redo_stacks].
    rewrite removelast_last, last_last, rev_app_distr, rev_involutive.
    reflexivity.
Qed.

Lemma stacks_undo_iter (k : nat) (e : ZPLEditor) :
  stacks (Nat.iter k (undo measure_text) e) = Nat.iter k undo_stacks (stacks e).
Proof.
  induction k as [|k IH]; simpl; [reflexivity|]. now rewrite stacks_undo, IH.
Qed.

Lemma stacks_redo_iter (k : nat) (e : ZPLEditor) :
  stacks (Nat.iter k (redo measure_text) e) = Nat.iter k redo_stacks (stacks e).
Proof.
  induction k as [|k IH]; simpl; [reflexivity|]. now rewrite stacks_redo, IH.
Qed.

End Stacks.

(** [k] undos take [min k (n - 1)] snapshots off a stack of [n]. *)
Lemma undo_stacks_iter (k : nat) :
  forall u r,
    Nat.iter k undo_stacks (u, r)
    = (skipn (Nat.min k (length u - 1)) u,
       (rev (firstn (Nat.min k (length u - 1)) u) ++ r)%list).
Proof.
  induction k as [|k IH]; intros u r.
  - reflexivity.
  - rewrite (Nat.iter_succ_r k _ undo_stacks).
    destruct u as [|a [|b u]]; cbn [undo_stacks].
    + rewrite IH. simpl. now rewrite Nat.min_0_r.
    + rewrite IH. simpl. now rewrite Nat.min_0_r.
    + rewrite IH. cbn [length].
      replace (Nat.min (S k) (S (S (length u)) - 1))
        with (S (Nat.min k (S (length u) - 1))) by lia.
      cbn [skipn firstn rev]. now rewrite <- app_assoc.
Qed.

Lemma redo_stacks_nothing (k : nat) (u : list (list ZPLObject)) :
  Nat.iter k redo_stacks (u, []) = (u, []).
Proof. induction k as [|k IH]; simpl; [reflexivity | now rewrite IH]. Qed.

(** As many redos as undos bring the stacks back, when nothing could be
    redone before. *)
Lemma redo_undo_stacks (k : nat) :
  forall u r,
    Nat.iter k redo_stacks (Nat.iter k undo_stacks (u, r))
    = Nat.iter (k - Nat.min k (length u - 1)) redo_stacks (u, r).
Proof.
  induction k as [|k IH]; intros u r; [reflexivity|].
  destruct u as [|a [|b u]].
  - assert (E : forall j, Nat.iter j undo_stacks (@nil (list ZPLObject), r) = ([], r))
      by (induction j as [|j IHj]; simpl; [reflexivity | now rewrite IHj]).
    rewrite E. simpl length. now rewrite Nat.min_0_r, Nat.sub_0_r.
  - assert (E : forall j, Nat.iter j undo_stacks ([a], r) = ([a], r))
      by (induction j as [|j IHj]; simpl; [reflexivity | now rewrite IHj]).
    rewrite E. simpl length. now rewrite Nat.min_0_r, Nat.sub_0_r.
  - rewrite (Nat.iter_succ_r k _ undo_stacks). cbn [undo_stacks].
    rewrite (Nat.iter_succ k _ redo_stacks). rewrite IH.
    rewrite <- (Nat.iter_succ _ _ redo_stacks).
    rewrite (Nat.iter_succ_r _ _ redo_stacks). cbn [redo_stacks length].
    replace (S k - Nat.min (S k) (S (S (length u)) - 1))%nat
      with (k - Nat.min k (S (length u) - 1))%nat by lia.
    reflexivity.
Qed.

Section UndoRedo.

Variable uuid4 : nat -> string.
Variable measure_text : Z -> Q -> string -> string -> string -> option (Z * Z).

Lemma undo_frame (e : ZPLEditor) :
  label_settings (undo measure_text e) = label_settings e
  /\ zoom (undo measure_text e) = zoom e.
Proof. unfold undo. destruct (1 <? _)%nat; split; reflexivity. Qed.

Lemma redo_frame (e : ZPLEditor) :
  label_settings (redo measure_text e) = label_settings e
  /\ zoom (redo measure_text e) = zoom e.
Proof. unfold redo. destruct (negb _); split; reflexivity. Qed.

Lemma shows_top_undo (e : ZPLEditor) :
  shows_top measure_text e -> shows_top measure_text (undo measure_text e).
Proof.
  intros H. unfold undo. destruct (1 <? _)%nat; [|exact H].
  unfold shows_top. rewrite scene_redraw. unfold scene.
  cbn [label_settings zoom undo_stack scene objects redraw_objects
         with_objects with_selected restore with_next_ref with_stacks].
  now rewrite scene_alloc.
Qed.

Lemma shows_top_redo (e : ZPLEditor) :
  shows_top measure_text e -> shows_top measure_text (redo measure_text e).
Proof.
  intros H. unfold redo. destruct (negb _); [|exact H].
  unfold shows_top. rewrite scene_redraw. unfold scene.
  cbn [label_settings zoom undo_stack scene objects redraw_objects
         with_objects with_selected restore with_next_ref with_stacks].
  now rewrite scene_alloc, last_last.
Qed.

Lemma undo_iter_frame (k : nat) (e : ZPLEditor) :
  label_settings (Nat.iter k (undo measure_text) e) = label_settings e
  /\ zoom (Nat.iter k (undo measure_text) e) = zoom e
  /\ (shows_top measure_text e ->
      shows_top measure_text (Nat.iter k (undo measure_text) e)).
Proof.
  induction k as [|k (IH1 & IH2 & IH3)]; simpl; [now repeat split|].
  destruct (undo_frame (Nat.iter k (undo measure_text) e)) as (-> & ->).
  repeat split; auto. intros H. apply shows_top_undo. auto.
Qed.

Lemma redo_iter_frame (k : nat) (e : ZPLEditor) :
  label_settings (Nat.iter k (redo measure_text) e) = label_settings e
  /\ zoom (Nat.iter k (redo measure_text) e) = zoom e
  /\ (shows_top measure_text e ->
      shows_top measure_text (Nat.iter k (redo measure_text) e)).
Proof.
  induction k as [|k (IH1 & IH2 & IH3)]; simpl; [now repeat split|].
  destruct (redo_frame (Nat.iter k (redo measure_text) e)) as (-> & ->).
  repeat split; auto. intros H. apply shows_top_redo. auto.
Qed.

(** Right after a commit, with the scene drawn, [k] undos followed by [k]
    redos bring the scene back, whatever [k]. *)
Lemma undo_redo_restores (e : ZPLEditor) (k : nat) :
  committed e -> drawn measure_text e ->
  scene (Nat.iter k (redo measure_text) (Nat.iter k (undo measure_text) e))
  = scene e.
Proof.
  intros (Htop & Hne & Hredo) Hdrawn.
  set (e1 := Nat.iter k (undo measure_text) e).
  set (e2 := Nat.iter k (redo measure_text) e1).
  assert (K0 : shows_top measure_text e).
  { unfold shows_top. rewrite Htop. symmetry. exact Hdrawn. }
  destruct (undo_iter_frame k e) as (S1 & Z1 & K1).
  destruct (redo_iter_frame k e1) as (S2 & Z2 & K2).
  fold e1 in S1, Z1, K1. fold e2 in S2, Z2, K2.
  assert (St : stacks e2 = stacks e).
  { unfold e2, e1. rewrite stacks_redo_iter, stacks_undo_iter.
    unfold stacks at 1. rewrite redo_undo_stacks.
    unfold stacks. rewrite Hredo. simpl rev at 2.
    now rewrite redo_stacks_nothing. }
  assert (U : undo_stack e2 = undo_stack e).
  { unfold stacks in St. injection St as St _.
    apply (f_equal (@rev _)) in St. now rewrite !rev_involutive in St. }
  specialize (K2 (K1 K0)). unfold shows_top in K2.
  rewrite K2, U, S2, Z2, S1, Z1, Htop. exact Hdrawn.
Qed.

End UndoRedo.

Lemma last_tl {A : Type} (l : list A) (d : A) :
  (1 < length l)%nat -> last (tl l) d = last l d.
Proof. destruct l as [|a [|b l]]; simpl; intros; try lia; reflexivity. Qed.

(** [save_state] leaves the editor committed. *)
Lemma committed_save_state (e : ZPLEditor) : committed (save_state e).
Proof.
  unfold committed. split; [|split; [apply save_state_nonempty | reflexivity]].
  unfold save_state. cbn [undo_stack with_stacks].
  change (scene (mkEditor _ _ _ _ _ _ _ _ _ _)) with (scene e).
  set (st := (undo_stack e ++ [scene e])%list).
  assert (L : last st [] = scene e) by apply last_last.
  destruct (Nat.ltb_spec max_undo_steps (length st)) as [H|H]; [|exact L].
  rewrite last_tl; [exact L|]. unfold max_undo_steps in H. lia.
Qed.

Lemma committed_ext (a b : ZPLEditor) :
  undo_stack a = undo_stack b -> redo_stack a = redo_stack b ->
  objects a = objects b -> committed b -> committed a.
Proof.
  unfold committed, scene. intros -> -> ->. auto.
Qed.

Section Commit.

Variable uuid4 : nat -> string.
Variable measure_text : Z -> Q -> string -> string -> string -> option (Z * Z).

Lemma drawn_ext (a b : ZPLEditor) :
  label_settings a = label_settings b -> zoom a = zoom b ->
  objects a = objects b -> drawn measure_text b -> drawn measure_text a.
Proof. unfold drawn, scene. intros -> -> ->. auto. Qed.

Ltac unfold_handlers :=
  unfold add_object, delete_selected, clear_all, on_canvas_click,
    on_canvas_drag, on_canvas_release, edit_property, apply_changes,
    copy_object, paste_object, bring_forward, send_backward,
    new_project, import_project, import_zpl_file, set_zoom,
    apply_label_settings, select_object, undo, redo.

Ltac break_handler :=
  repeat match goal with
         | |- context [match ?t with _ => _ end] => destruct t eqn:?
         end.

Ltac solve_drawn e H :=
  first
    [ exact H
    | apply drawn_redraw
    | match goal with
      | |- drawn _ ?t =>
          match t with
          | context [redraw_objects measure_text ?Y] =>
              apply (drawn_ext t (redraw_objects measure_text Y));
              [reflexivity | reflexivity | reflexivity | apply drawn_redraw]
          end
      end
    | match goal with
      | |- drawn _ ?t =>
          apply (drawn_ext t e); [reflexivity | reflexivity | reflexivity | exact H]
      end ].

(** Every handler leaves the scene drawn: whatever changes an object, the
    label settings or the zoom ends with a redraw. *)
Lemma handle_drawn (e : ZPLEditor) (ev : Event) :
  drawn measure_text e -> drawn measure_text (handle uuid4 measure_text e ev).
Proof.
  intros H. destruct ev; cbn [handle]; unfold_handlers; break_handler;
    solve_drawn e H.
Qed.

Lemma init_drawn : drawn measure_text init.
Proof. reflexivity. Qed.

Lemma run_drawn (evs : list Event) :
  forall e, drawn measure_text e -> drawn measure_text (run uuid4 measure_text e evs).
Proof.
  induction evs as [|ev evs IH]; intros e H; simpl; [exact H|].
  apply IH. now apply handle_drawn.
Qed.

(** An event that commits leaves the editor as [save_state] leaves it. *)
Lemma commits_committed (e : ZPLEditor) (ev : Event) :
  commits uuid4 e ev = true -> committed (handle uuid4 measure_text e ev).
Proof.
  destruct ev; cbn [handle commits]; unfold_handlers; unfold selection;
    cbn [objects with_uuid_calls];
    break_handler; intros H; try discriminate H;
    first
      [ apply committed_save_state
      | match goal with
        | |- committed ?t =>
            match t with
            | context [save_state ?Y] =>
                apply (committed_ext t (save_state Y));
                [reflexivity | reflexivity | reflexivity
                | apply committed_save_state]
            end
        end ].
Qed.


End Commit.

(** C3, as amended.  Whenever the object list is the snapshot on top of the
    undo stack and nothing can be redone, as right after an operation that
    committed a snapshot, and the list is drawn (every text object has the
    size of its rendering under the current label and zoom, as after every
    handler that ran to its closing redraw), [k] undos followed by [k] redos
    give back a list equal, field by field, to that list.  This holds for
    every [k]: for the number of operations committed, and for the number
    of undos after which [undo] does nothing, alike. *)
Theorem undo_redo_symmetry
  (measure_text : Z -> Q -> string -> string -> string -> option (Z * Z))
  (e : ZPLEditor) (k : nat) :
  committed e ->
  drawn measure_text e ->
  scene (Nat.iter k (redo measure_text) (Nat.iter k (undo measure_text) e))
  = scene e.
Proof. intros Hc Hd. now apply undo_redo_restores. Qed.

Lemma undo_redo_symmetry_witness :
  scene (Nat.iter 3 (redo measure_mono)
           (Nat.iter 3 (undo measure_mono) released_state))
  = scene released_state.
Proof.
  assert (Hc : committed released_state).
  { unfold committed. split; [vm_compute; reflexivity|].
    split; [vm_compute; discriminate | vm_compute; reflexivity]. }
  assert (Hd : drawn measure_mono released_state)
    by (unfold drawn; vm_compute; reflexivity).
  exact (undo_redo_symmetry measure_mono released_state 3 Hc Hd).
Defined.

(** C3, as stated, fails.  A rectangle is added; a project file is opened
    whose second object the constructor rejects, which leaves the first, a
    text 100 wide and 30 high, in the list without a redraw; the focus
    leaves an entry of the properties panel, which commits the list.  Two
    operations have committed a snapshot.  Undone twice and redone twice,
    the text comes back redrawn, with the size of its rendering and not the
    size it had when it was committed. *)
Lemma undo_redo_remeasures :
  map (fun o => (width o, height o)) (scene rejected_then_committed)
  = [(100, 30)]
  /\ map (fun o => (width o, height o))
       (scene (Nat.iter 2 (redo measure_mono)
                 (Nat.iter 2 (undo measure_mono) rejected_then_committed)))
     = [(84, 20)]
  /\ scene (Nat.iter 2 (redo measure_mono)
              (Nat.iter 2 (undo measure_mono) rejected_then_committed))
     <> scene rejected_then_committed
  /\ length (undo_stack rejected_then_committed) = 3%nat.
Proof.
  split; [vm_compute; reflexivity|]. split; [vm_compute; reflexivity|].
  split; [vm_compute; discriminate | vm_compute; reflexivity].
Qed.

Lemma drag_history_moves :
  map (fun o => (x o, y o))
    (scene (handle uuid_seq measure_mono
              (run uuid_seq measure_mono init drag_history) CanvasRelease))
  = [(55, 57)]
  /\ scene (Nat.iter 3 (undo measure_mono)
             (handle uuid_seq measure_mono
                (run uuid_seq measure_mono init drag_history) CanvasRelease))
     = [].
Proof. split; vm_compute; reflexivity. Qed.

Lemma undo_stack_never_empty_witness :
  undo_stack (handle uuid_seq measure_mono init (NewProject true)) <> []
  /\ undo measure_mono init = init
  /\ undo_stack
       (Nat.iter 5 (undo measure_mono)
          (run uuid_seq measure_mono init drag_history)) <> [].
Proof.
  destruct (undo_stack_never_empty uuid_seq measure_mono) as (_ & Hev & Hone & Hit).
  split; [apply Hev; discriminate|].
  split; [apply Hone; reflexivity|].
  apply Hit. vm_compute. discriminate.
Defined.

(** ** Sixty objects added *)

Lemma hd_skipn_nth {A : Type} (d : A) (j : nat) :
  forall l, hd d (skipn j l) = nth j l d.
Proof.
  induction j as [|j IH]; intros [|a l]; simpl; auto.
Qed.

Lemma last_rev_hd {A : Type} (d : A) (l : list A) : last (rev l) d = hd d l.
Proof. destruct l as [|a l]; simpl; [reflexivity | apply last_last]. Qed.

Lemma map_hd {A B : Type} (f : A -> B) (l : list (list A)) :
  map f (hd [] l) = hd [] (map (map f) l).
Proof. now destruct l. Qed.

Lemma map_tl {A B : Type} (f : A -> B) (l : list A) :
  map f (tl l) = tl (map f l).
Proof. now destruct l. Qed.

Lemma nth_rev_seq (lo c j : nat) :
  (j < c)%nat -> nth j (rev (seq lo c)) O = (lo + c - 1 - j)%nat.
Proof.
  intros H. rewrite rev_nth by (rewrite length_seq; exact H).
  rewrite length_seq. rewrite seq_nth by lia. lia.
Qed.

Section Adds.

Variable uuid4 : nat -> string.
Variable measure_text : Z -> Q -> string -> string -> string -> option (Z * Z).

(** The identifiers of the snapshots a state can be taken back to, the
    most recent first, are the identifiers of the scene after [k] undos. *)
Lemma undo_iter_ids (e : ZPLEditor) (k : nat) :
  shows_top measure_text e ->
  map id (scene (Nat.iter k (undo measure_text) e))
  = nth (Nat.min k (length (undo_stack e) - 1))
      (rev (map (map id) (undo_stack e))) [].
Proof.
  intros K.
  destruct (undo_iter_frame measure_text k e) as (_ & _ & Kk).
  specialize (Kk K). unfold shows_top in Kk. rewrite Kk.
  rewrite ids_draw.
  pose proof (stacks_undo_iter measure_text k e) as St.
  unfold stacks at 2 in St. rewrite undo_stacks_iter in St.
  unfold stacks in St. injection St as St _.
  apply (f_equal (@rev _)) in St. rewrite rev_involutive in St.
  rewrite St, last_rev_hd, map_hd, length_rev.
  rewrite <- skipn_map. rewrite hd_skipn_nth, map_rev. reflexivity.
Qed.

Lemma undo_iter_length (e : ZPLEditor) (k : nat) :
  length (undo_stack (Nat.iter k (undo measure_text) e))
  = (length (undo_stack e) - Nat.min k (length (undo_stack e) - 1))%nat.
Proof.
  pose proof (stacks_undo_iter measure_text k e) as St.
  unfold stacks at 2 in St. rewrite undo_stacks_iter in St.
  unfold stacks in St. injection St as St _.
  apply (f_equal (@length _)) in St.
  rewrite length_rev, length_skipn, !length_rev in St. exact St.
Qed.

(** What [add_object] does when snapping is off. *)
Lemma add_object_facts (ty : string) (e : ZPLEditor) :
  snap_to_grid (label_settings e) 50 50 = Some (50, 50) ->
  let e' := add_object uuid4 measure_text ty e in
  label_settings e' = label_settings e
  /\ uuid_calls e' = S (uuid_calls e)
  /\ map id (scene e') = (map id (scene e) ++ [token uuid4 (uuid_calls e)])%list
  /\ undo_stack e'
     = (let st := (undo_stack e ++ [scene e'])%list in
        if (max_undo_steps <? length st)%nat then tl st else st)
  /\ committed e' /\ drawn measure_text e'.
Proof.
  intros H e'. subst e'. unfold add_object. rewrite H.
  unfold post_init. cbn [id new_object is_empty].
  split; [reflexivity|]. split; [reflexivity|]. split.
  { rewrite scene_save_state, scene_redraw.
    unfold select_object. rewrite scene_redraw. unfold scene.
    cbn [objects with_objects with_selected with_uuid_calls with_next_ref
           label_settings zoom redraw_objects].
    rewrite !ids_draw. rewrite ids_update_ref by reflexivity.
    rewrite !map_map, map_app. reflexivity. }
  split; [reflexivity|]. split; [apply committed_save_state|].
  match goal with
  | |- drawn _ (save_state ?X) =>
      apply (drawn_ext measure_text (save_state X) X);
      [reflexivity | reflexivity | reflexivity | apply drawn_redraw]
  end.
Qed.

Lemma run_app (e : ZPLEditor) (a b : list Event) :
  run uuid4 measure_text e (a ++ b)
  = run uuid4 measure_text (run uuid4 measure_text e a) b.
Proof. unfold run. apply fold_left_app. Qed.

(** The state after [n] objects were added to a new editor: the [n]
    identifiers drawn, in order, and on the undo stack the last fifty of
    the [n + 1] snapshots taken. *)
Lemma adds_invariant (tys : list string) :
  let n := length tys in
  let e := run uuid4 measure_text init (map AddObject tys) in
  label_settings e = default_settings
  /\ uuid_calls e = n
  /\ map id (scene e) = map (token uuid4) (seq 0 n)
  /\ map (map id) (undo_stack e)
     = map (fun m => map (token uuid4) (seq 0 m))
         (seq (S n - Nat.min (S n) 50) (Nat.min (S n) 50))
  /\ committed e /\ drawn measure_text e.
Proof.
  induction tys as [|ty tys IH] using rev_ind.
  - cbv zeta. repeat split; try reflexivity; discriminate.
  - cbv zeta in *. destruct IH as (Hs & Hc & Hi & Hu & _ & _).
    rewrite map_app, run_app. cbn [map run fold_left].
    set (e := run uuid4 measure_text init (map AddObject tys)) in *.
    rewrite length_app. cbn [length]. rewrite Nat.add_1_r.
    set (n := length tys) in *.
    assert (Hsnap : snap_to_grid (label_settings e) 50 50 = Some (50, 50))
      by (rewrite Hs; reflexivity).
    destruct (add_object_facts ty e Hsnap) as (As & Ac & Ai & Au & Acm & Adr).
    fold (handle uuid4 measure_text e (AddObject ty)).
    cbn [handle].
    set (e' := add_object uuid4 measure_text ty e) in *.
    assert (Hi' : map id (scene e') = map (token uuid4) (seq 0 (S n))).
    { rewrite Ai, Hi, Hc, seq_S, map_app. reflexivity. }
    split; [congruence|]. split; [congruence|]. split; [exact Hi'|].
    split; [|split; assumption].
    rewrite Au. cbv zeta.
    set (F := fun m => map (token uuid4) (seq 0 m)) in *.
    assert (Hst : map (map id) (undo_stack e ++ [scene e'])
                  = map F (seq (S n - Nat.min (S n) 50) (S (Nat.min (S n) 50)))).
    { rewrite map_app, Hu, seq_S, map_app. cbn [map]. rewrite Hi'.
      replace (S n - Nat.min (S n) 50 + Nat.min (S n) 50)%nat with (S n) by lia.
      reflexivity. }
    assert (Hlen : length (undo_stack e ++ [scene e'])%list
                   = S (Nat.min (S n) 50)).
    { apply (f_equal (@length _)) in Hst.
      now rewrite !length_map, length_seq in Hst. }
    rewrite Hlen. unfold max_undo_steps.
    destruct (Nat.ltb_spec 50 (S (Nat.min (S n) 50))) as [L|L].
    + rewrite map_tl, Hst. cbn [seq map tl].
      replace (Nat.min (S (S n)) 50) with 50%nat by lia.
      replace (Nat.min (S n) 50) with 50%nat by lia.
      replace (S (S n) - 50)%nat with (S (S n - 50)) by lia.
      reflexivity.
    + rewrite Hst.
      replace (Nat.min (S (S n)) 50) with (S (Nat.min (S n) 50)) by lia.
      replace (S (S n) - S (Nat.min (S n) 50))%nat
        with (S n - Nat.min (S n) 50)%nat by lia.
      reflexivity.
Qed.

End Adds.

(** C2. Sixty objects added to a freshly initialised editor leave exactly
    fifty snapshots on the undo stack.  The eleven oldest snapshots, the
    initial empty scene and the scenes after the first ten additions, are
    gone: after [k] undos the scene holds the objects of the first
    [60 - min k 49] additions, so at least eleven objects whatever [k], and
    from the forty-ninth undo on [undo] does nothing and the scene holds
    the objects of the first eleven additions. *)
Theorem history_bound
  (uuid4 : nat -> string)
  (measure_text : Z -> Q -> string -> string -> string -> option (Z * Z))
  (tys : list string) :
  length tys = 60%nat ->
  let e := run uuid4 measure_text init (map AddObject tys) in
  length (undo_stack e) = 50%nat
  /\ (forall k,
        map id (scene (Nat.iter k (undo measure_text) e))
        = map (token uuid4) (seq 0 (60 - Nat.min k 49)))
  /\ (forall k, (11 <= length (scene (Nat.iter k (undo measure_text) e)))%nat)
  /\ (forall k, (49 <= k)%nat ->
        undo measure_text (Nat.iter k (undo measure_text) e)
        = Nat.iter k (undo measure_text) e
        /\ length (scene (Nat.iter k (undo measure_text) e)) = 11%nat).
Proof.
  intros Hlen e.
  destruct (adds_invariant uuid4 measure_text tys) as (_ & _ & _ & Hu & Hc & Hd).
  fold e in Hu, Hc, Hd. rewrite Hlen in Hu.
  change (S 60 - Nat.min (S 60) 50)%nat with 11%nat in Hu.
  change (Nat.min (S 60) 50) with 50%nat in Hu.
  assert (L : length (undo_stack e) = 50%nat).
  { apply (f_equal (@length _)) in Hu.
    now rewrite !length_map, length_seq in Hu. }
  assert (K : shows_top measure_text e).
  { destruct Hc as (Htop & _ & _). unfold shows_top. rewrite Htop.
    symmetry. exact Hd. }
  assert (Ids : forall k,
             map id (scene (Nat.iter k (undo measure_text) e))
             = map (token uuid4) (seq 0 (60 - Nat.min k 49))).
  { intros k. rewrite (undo_iter_ids measure_text e k K), L, Hu.
    change (50 - 1)%nat with 49%nat.
    rewrite <- map_rev.
    change (@nil string) with ((fun m => map (token uuid4) (seq 0 m)) O).
    rewrite map_nth. rewrite nth_rev_seq by lia. cbv beta.
    replace (11 + 50 - 1 - Nat.min k 49)%nat with (60 - Nat.min k 49)%nat
      by lia.
    reflexivity. }
  assert (Len : forall k,
             length (scene (Nat.iter k (undo measure_text) e))
             = (60 - Nat.min k 49)%nat).
  { intros k. rewrite <- (length_map id), Ids, length_map, length_seq.
    reflexivity. }
  split; [exact L|]. split; [exact Ids|]. split.
  - intros k. rewrite Len. lia.
  - intros k Hk. split.
    + apply undo_noop. rewrite undo_iter_length, L. lia.
    + rewrite Len. lia.
Qed.

Lemma history_bound_witness :
  length (undo_stack
            (run uuid_seq measure_mono init (map AddObject (repeat "text" 60))))
  = 50%nat
  /\ map id
       (scene
          (Nat.iter 100 (undo measure_mono)
             (run uuid_seq measure_mono init (map AddObject (repeat "text" 60)))))
     = map (token uuid_seq) (seq 0 (60 - Nat.min 100 49)).
Proof.
  destruct (history_bound uuid_seq measure_mono (repeat "text" 60) eq_refl)
    as (L & Ids & _).
  split; [exact L | exact (Ids 100%nat)].
Defined.

(** ** The selection is never stale *)

Lemma refs_map_snd (f : ZPLObject -> ZPLObject) (l : list (ref * ZPLObject)) :
  map fst (map (fun p => (fst p, f (snd p))) l) = map fst l.
Proof. rewrite map_map. apply map_ext. reflexivity. Qed.

Lemma refs_update_ref (r : ref) (f : ZPLObject -> ZPLObject)
  (l : list (ref * ZPLObject)) :
  map fst (update_ref r f l) = map fst l.
Proof.
  unfold update_ref. rewrite map_map. apply map_ext.
  intros p. destruct (Nat.eqb _ _); reflexivity.
Qed.

Lemma in_swap_with_next {A : Type} (a : A) (i : nat) :
  forall l, In a l -> In a (swap_with_next i l).
Proof.
  induction i as [|i IH]; intros l H.
  - destruct l as [|b [|c l]]; simpl in *; intuition.
  - destruct l as [|b l]; simpl in *; [exact H|].
    destruct H as [H|H]; [now left | right; now apply IH].
Qed.

Lemma refs_swap_with_next (i : nat) (l : list (ref * ZPLObject)) :
  map fst (swap_with_next i l) = swap_with_next i (map fst l).
Proof.
  revert l. induction i as [|i IH]; intros l.
  - destruct l as [|b [|c l]]; reflexivity.
  - destruct l as [|b l]; simpl; [reflexivity|]. now rewrite IH.
Qed.

Lemma lookup_ref_live (r : ref) (l : list (ref * ZPLObject)) :
  In r (map fst l) -> exists v, lookup_ref r l = Some v.
Proof.
  induction l as [|[r' o] l IH]; simpl; [intros []|].
  intros [E|H].
  - subst. rewrite Nat.eqb_refl. now eexists.
  - destruct (Nat.eqb r r'); [now eexists | now apply IH].
Qed.

Section Selection.

Variable uuid4 : nat -> string.
Variable measure_text : Z -> Q -> string -> string -> string -> option (Z * Z).

Ltac unfold_handlers :=
  unfold add_object, delete_selected, clear_all, on_canvas_click,
    on_canvas_drag, on_canvas_release, edit_property, apply_changes,
    copy_object, paste_object, bring_forward, send_backward,
    new_project, import_project, import_zpl_file, set_zoom,
    apply_label_settings, select_object, undo, redo.

Ltac break_handler :=
  repeat match goal with
         | |- context [match ?t with _ => _ end] => destruct t eqn:?
         end.

Ltac simpl_refs :=
  unfold selection_live, save_state, redraw_objects, restore;
  cbn [selected_object objects with_objects with_selected with_drag_item
         with_clipboard with_zoom with_stacks with_settings with_next_ref
         with_uuid_calls];
  repeat first [ rewrite refs_map_snd | rewrite refs_update_ref
               | rewrite refs_swap_with_next ].

(** Every handler keeps the selection among the objects of the list: the
    handlers that rebind or empty the list reset it. *)
Lemma handle_selection_live (e : ZPLEditor) (ev : Event) :
  selection_live e -> selection_live (handle uuid4 measure_text e ev).
Proof.
  intros H.
  destruct ev; cbn [handle]; unfold_handlers; unfold selection;
    break_handler; simpl_refs; try exact H; try exact I;
    try (unfold selection_live in H;
         match goal with
         | K : selected_object e = Some _ |- _ => rewrite K in H; try rewrite K
         end);
    try (apply in_swap_with_next; exact H);
    try (rewrite map_app; apply in_or_app; right; left; reflexivity).
  - (* the object under the pointer is an object of the list *)
    match goal with
    | K : find _ (rev (objects e)) = Some ?c |- _ =>
        apply find_some in K; destruct K as [K _];
        apply in_rev in K; now apply (in_map fst) in K
    end.
  - (* reordering keeps the objects *)
    unfold selection_live in H.
    destruct (selected_object e); [|exact I].
    apply in_swap_with_next; exact H.
  - unfold selection_live in H.
    destruct (selected_object e); [|exact I].
    apply in_swap_with_next; exact H.
Qed.

Lemma run_selection_live (evs : list Event) :
  selection_live (run uuid4 measure_text init evs).
Proof.
  assert (G : forall e, selection_live e ->
                        selection_live (run uuid4 measure_text e evs)).
  { induction evs as [|ev evs IH]; intros e H; simpl; [exact H|].
    apply IH. now apply handle_selection_live. }
  apply G. exact I.
Qed.

(** In every state the editor reaches, a selection is an object of the
    list: [selection] finds it. *)
Lemma run_selection_found (evs : list Event) (r : ref) :
  selected_object (run uuid4 measure_text init evs) = Some r ->
  exists v, selection (run uuid4 measure_text init evs) = Some (r, v).
Proof.
  intros H. pose proof (run_selection_live evs) as L.
  unfold selection_live in L. rewrite H in L.
  destruct (lookup_ref_live _ _ L) as (v & E).
  exists v. unfold selection. now rewrite H, E.
Qed.

End Selection.

(** ** Image names with the extension [.bmp] *)

Lemma prefix_dot_false (old : string) (c : ascii) (s : string) :
  Ascii.eqb c "."%char = false -> String.prefix (String "."%char old) (String c s) = false.
Proof.
  intros H.
  change (String.prefix (String "."%char old) (String c s))
    with (if ascii_dec "."%char c then String.prefix old s else false).
  destruct (ascii_dec "."%char c) as [E|]; [|reflexivity].
  subst c. discriminate H.
Qed.

Lemma remove_all_no_dot (old base : string) :
  has_dot base = false -> remove_all (String "."%char old) base = base.
Proof.
  unfold remove_all. induction base as [|c b IH]; intros H; [reflexivity|].
  simpl in H. apply orb_false_elim in H. destruct H as [Hc Hb].
  cbn [remove_from]. rewrite (prefix_dot_false old c b Hc). now rewrite IH.
Qed.

Lemma remove_all_suffix (old base keep : string) :
  has_dot base = false ->
  remove_all (String "."%char old) (base ++ keep)
  = base ++ remove_all (String "."%char old) keep.
Proof.
  unfold remove_all. induction base as [|c b IH]; intros H; [reflexivity|].
  simpl in H. apply orb_false_elim in H. destruct H as [Hc Hb].
  cbn [String.append remove_from].
  rewrite (prefix_dot_false old c (b ++ keep) Hc). now rewrite IH.
Qed.

Lemma strip_extension_suffix (base ext : string) :
  has_dot base = false -> has_dot ext = false ->
  strip_extension (base ++ String "."%char ext) = base.
Proof.
  intros Hb He. induction base as [|c b IH]; cbn [String.append strip_extension].
  - now rewrite He.
  - simpl in Hb. apply orb_false_elim in Hb. destruct Hb as [Hc Hb].
    rewrite Hc. cbn [andb]. now rewrite IH.
Qed.

(** On a reference name made of a base without dot and of the extension
    [.bmp] or [.BMP], the only names the editor itself produces, the code
    and the words of the specification agree. *)
Lemma image_name_bmp (base : string) :
  has_dot base = false ->
  image_name (base ++ ".bmp") = spec_image_name (base ++ ".bmp")
  /\ image_name (base ++ ".BMP") = spec_image_name (base ++ ".BMP")
  /\ image_name (base ++ ".bmp") = upper (take 8 base).
Proof.
  intros H. unfold image_name, spec_image_name.
  rewrite !strip_extension_suffix by (exact H || reflexivity).
  rewrite !(remove_all_suffix "bmp") by exact H.
  change (remove_all ".bmp" ".bmp") with "".
  change (remove_all ".bmp" ".BMP") with ".BMP".
  rewrite sapp_nil_r.
  rewrite (remove_all_no_dot "BMP" base H).
  rewrite (remove_all_suffix "BMP") by exact H.
  change (remove_all ".BMP" ".BMP") with "".
  rewrite sapp_nil_r. repeat split.
Qed.

(** * Further properties of the encoder, the decoder and the history *)

(** ** The encoder does not read the selection *)

Lemma find_map {A B : Type} (p : B -> bool) (g : A -> B) (l : list A) :
  find p (map g l) = option_map g (find (fun a => p (g a)) l).
Proof.
  induction l as [|a l IH]; simpl; [reflexivity|].
  destruct (p (g a)); [reflexivity | exact IH].
Qed.

Lemma collect_skip_flags (flags : ZPLObject -> bool) (objs rest : list ZPLObject) :
  forall skip,
    collect_skip_text_ids (map (fun o => set_selected (flags o) o) objs)
      (map (fun o => set_selected (flags o) o) rest) skip
    = collect_skip_text_ids objs rest skip.
Proof.
  induction rest as [|o rest IH]; intros skip; [reflexivity|].
  cbn [map collect_skip_text_ids].
  change (obj_type (set_selected (flags o) o)) with (obj_type o).
  destruct (String.eqb (obj_type o) "barcode"); [|apply IH].
  rewrite find_map.
  change (fun a => duplicates_caption (set_selected (flags o) o)
                     (set_selected (flags a) a))
    with (duplicates_caption o).
  destruct (find (duplicates_caption o) objs); apply IH.
Qed.

Lemma encode_objects_flags (flags : ZPLObject -> bool) (skip : list string)
  (objs : list ZPLObject) :
  forall zpl,
    encode_objects skip zpl (map (fun o => set_selected (flags o) o) objs)
    = encode_objects skip zpl objs.
Proof.
  induction objs as [|o objs IH]; intros zpl; [reflexivity|].
  cbn [map encode_objects].
  change (encode_object skip zpl (set_selected (flags o) o))
    with (encode_object skip zpl o).
  destruct (encode_object skip zpl o); [apply IH | reflexivity].
Qed.

(** X1. The selection flags of the objects have no influence on the
    command text: however the flags are set, the encoder returns the same
    text. *)
Theorem generate_zpl_ignores_selection
  (settings : LabelSettings) (flags : ZPLObject -> bool) (objs : list ZPLObject) :
  generate_zpl settings (map (fun o => set_selected (flags o) o) objs)
  = generate_zpl settings objs.
Proof.
  unfold generate_zpl, skip_text_ids.
  now rewrite collect_skip_flags, encode_objects_flags.
Qed.

(** ** Commit, undo and redo *)

Section CommitUndo.

Variable uuid4 : nat -> string.
Variable measure_text : Z -> Q -> string -> string -> string -> option (Z * Z).

Ltac unfold_handlers :=
  unfold add_object, delete_selected, clear_all, on_canvas_click,
    on_canvas_drag, on_canvas_release, edit_property, apply_changes,
    copy_object, paste_object, bring_forward, send_backward,
    new_project, import_project, import_zpl_file, set_zoom,
    apply_label_settings, select_object.

Ltac break_handler :=
  repeat match goal with
         | |- context [match ?t with _ => _ end] => destruct t eqn:?
         end.

Lemma save_state_bound (e : ZPLEditor) :
  (length (undo_stack e) <= max_undo_steps)%nat ->
  (length (undo_stack (save_state e)) + length (redo_stack (save_state e))
   <= max_undo_steps)%nat.
Proof.
  intros H. unfold save_state. cbn [undo_stack redo_stack with_stacks].
  set (st := (undo_stack e ++ [scene e])%list).
  assert (L : length st = S (length (undo_stack e)))
    by (unfold st; rewrite length_app; simpl; lia).
  destruct (Nat.ltb_spec max_undo_steps (length st)) as [K|K]; simpl.
  - destruct st; simpl in *; lia.
  - lia.
Qed.

Lemma undo_bound (e : ZPLEditor) :
  (length (undo_stack (undo measure_text e))
   + length (redo_stack (undo measure_text e))
   = length (undo_stack e) + length (redo_stack e))%nat.
Proof.
  unfold undo. destruct (Nat.ltb_spec 1 (length (undo_stack e))); [|reflexivity].
  cbn. rewrite length_app. simpl.
  destruct (rev_cases (undo_stack e)) as [E|(a & u & E & _)].
  - rewrite E in *. simpl in *. lia.
  - rewrite E, removelast_last, length_app. simpl. lia.
Qed.

Lemma redo_bound (e : ZPLEditor) :
  (length (undo_stack (redo measure_text e))
   + length (redo_stack (redo measure_text e))
   = length (undo_stack e) + length (redo_stack e))%nat.
Proof.
  unfold redo.
  destruct (rev_cases (redo_stack e)) as [E|(a & u & E & _)].
  - rewrite E. simpl. now rewrite E.
  - rewrite E, length_app. simpl length.
    replace (negb _) with true
      by (symmetry; apply negb_true_iff, Nat.eqb_neq; lia).
    cbn. rewrite removelast_last, !length_app. simpl. lia.
Qed.

(** The two stacks together never hold more than fifty snapshots. *)
Lemma handle_bound (e : ZPLEditor) (ev : Event) :
  (length (undo_stack e) + length (redo_stack e) <= max_undo_steps)%nat ->
  (length (undo_stack (handle uuid4 measure_text e ev))
   + length (redo_stack (handle uuid4 measure_text e ev)) <= max_undo_steps)%nat.
Proof.
  intros H.
  assert (Hu : (length (undo_stack e) <= max_undo_steps)%nat) by lia.
  destruct ev; cbn [handle];
    try (rewrite undo_bound; exact H); try (rewrite redo_bound; exact H);
    try (apply save_state_bound; exact Hu).
  all: unfold_handlers; break_handler;
    first [ exact H
          | apply save_state_bound; first [exact Hu | cbn; unfold max_undo_steps; lia]
          | match goal with
            | |- context [save_state ?Y] =>
                change (length (undo_stack (save_state Y))
                        + length (redo_stack (save_state Y)) <= max_undo_steps)%nat;
                apply save_state_bound; exact Hu
            end ].
Qed.

(** X3. In every state the editor reaches, the undo stack and the redo
    stack together hold at most fifty snapshots, so neither ever exceeds
    the capacity, although [redo] pushes without looking at it. *)
Theorem history_capacity (evs : list Event) :
  let e := run uuid4 measure_text init evs in
  (length (undo_stack e) + length (redo_stack e) <= max_undo_steps)%nat
  /\ (length (undo_stack e) <= 50)%nat /\ (length (redo_stack e) <= 49)%nat.
Proof.
  intros e.
  assert (G : forall evs e0,
             (length (undo_stack e0) + length (redo_stack e0) <= max_undo_steps)%nat ->
             (length (undo_stack (run uuid4 measure_text e0 evs))
              + length (redo_stack (run uuid4 measure_text e0 evs))
              <= max_undo_steps)%nat).
  { clear. induction evs as [|ev evs IH]; intros e0 H; simpl; [exact H|].
    apply IH. now apply handle_bound. }
  assert (B : (length (undo_stack e) + length (redo_stack e) <= max_undo_steps)%nat)
    by (apply G; unfold init, save_state, max_undo_steps; simpl; lia).
  assert (N : undo_stack e <> [])
    by (apply run_nonempty; discriminate).
  unfold max_undo_steps in *.
  destruct (undo_stack e); [now elim N|]. simpl in *. lia.
Qed.

End CommitUndo.

Section UndoReverts.

Variable measure_text : Z -> Q -> string -> string -> string -> option (Z * Z).

Lemma last_default {A : Type} (l : list A) (d d' : A) :
  l <> [] -> last l d = last l d'.
Proof.
  induction l as [|a [|b l] IH]; intros H; [now elim H | reflexivity |].
  change (last (b :: l) d = last (b :: l) d'). apply IH. discriminate.
Qed.

Lemma removelast_capped {A : Type} (u : list A) (s : A) :
  u <> [] ->
  let st := (u ++ [s])%list in
  last (removelast (if (max_undo_steps <? length st)%nat then tl st else st)) s
  = last u s
  /\ (1 < length (if (max_undo_steps <? length st)%nat then tl st else st))%nat.
Proof.
  intros Hu st.
  assert (L : length st = S (length u))
    by (unfold st; rewrite length_app; simpl; lia).
  destruct (Nat.ltb_spec max_undo_steps (length st)) as [K|K].
  - unfold max_undo_steps in K.
    destruct u as [|a u]; [now elim Hu|].
    unfold st. cbn [app tl]. rewrite removelast_last.
    split.
    + destruct u as [|b u]; [simpl in *; lia | reflexivity].
    + rewrite length_app. simpl in *. lia.
  - unfold st. rewrite removelast_last. split; [reflexivity|].
    destruct u; [now elim Hu | simpl in *; lia].
Qed.

(** X4. [undo] goes back to the previous commit.  Let [e] be a state
    whose list is drawn and is the snapshot on top of the undo stack, and
    [e1] any state reached from it with the undo stack, the label settings
    and the zoom untouched, whatever happened to the objects.  Once
    [save_state] has committed [e1], [undo] gives back the list of [e],
    also when the undo stack is full and the commit drops its oldest
    snapshot. *)
Theorem undo_reverts_commit (e e1 : ZPLEditor) :
  committed e -> drawn measure_text e ->
  undo_stack e1 = undo_stack e ->
  label_settings e1 = label_settings e ->
  zoom e1 = zoom e ->
  scene (undo measure_text (save_state e1)) = scene e.
Proof.
  intros (Htop & Hne & _) Hd Hu Hs Hz.
  set (e' := save_state e1).
  assert (Hu' : undo_stack e'
                = (let st := (undo_stack e ++ [scene e1])%list in
                   if (max_undo_steps <? length st)%nat then tl st else st))
    by (unfold e', save_state; cbn [undo_stack with_stacks]; now rewrite Hu).
  cbv zeta in Hu'.
  destruct (removelast_capped (undo_stack e) (scene e1) Hne) as (Hl & Hlen).
  cbv zeta in Hl, Hlen. rewrite <- Hu' in Hl, Hlen.
  unfold undo.
  replace (1 <? length (undo_stack e'))%nat with true
    by (symmetry; now apply Nat.ltb_lt).
  rewrite scene_redraw. unfold scene at 1.
  cbn [label_settings zoom undo_stack objects with_objects with_selected
         restore with_next_ref with_stacks].
  rewrite scene_alloc.
  change (label_settings e') with (label_settings e1).
  change (zoom e') with (zoom e1). rewrite Hs, Hz.
  assert (E : last (removelast (undo_stack e')) [] = scene e).
  { rewrite <- Htop.
    assert (R : removelast (undo_stack e') <> []).
    { apply removelast_nonempty. exact Hlen. }
    assert (U : undo_stack e <> []) by exact Hne.
    rewrite (last_default (removelast (undo_stack e')) [] (scene e1) R).
    rewrite (last_default (undo_stack e) [] (scene e1) U). exact Hl. }
  rewrite E. exact Hd.
Qed.

End UndoReverts.

Lemma undo_reverts_commit_witness :
  scene (undo measure_mono (save_state (with_objects [] released_state)))
  = scene released_state.
Proof.
  assert (Hc : committed released_state).
  { unfold committed. split; [vm_compute; reflexivity|].
    split; [vm_compute; discriminate | vm_compute; reflexivity]. }
  assert (Hd : drawn measure_mono released_state)
    by (unfold drawn; vm_compute; reflexivity).
  exact (undo_reverts_commit measure_mono released_state
           (with_objects [] released_state) Hc Hd eq_refl eq_refl eq_refl).
Defined.


(** ** What the decoder builds *)

Lemma int_of_digits_nonneg (s : string) (v : Z) :
  int_of_digits s = Some v -> 0 <= v.
Proof.
  unfold int_of_digits. destruct s as [|c s]; [discriminate|].
  destruct (NilEmpty.uint_of_string (String c s)) as [d|]; [|discriminate].
  simpl. intros H. injection H as <-. unfold Z.of_uint. apply N2Z.is_nonneg.
Qed.

Lemma span_forall (p : ascii -> bool) (s : string) :
  string_forall p (span p s) = true.
Proof.
  induction s as [|c s IH]; simpl; [reflexivity|].
  destruct (p c) eqn:E; simpl; [now rewrite E | reflexivity].
Qed.

Section DecoderOutput.

Variable uuid4 : nat -> string.
Variable calls : nat.

Lemma parser_inv_push (st : ParserState) (o : ZPLObject) :
  parser_inv uuid4 calls st ->
  decoded o ->
  id o = take 8 (uuid4 (parser_calls st)) ->
  parser_inv uuid4 calls (push_parsed st o (S (parser_calls st))).
Proof.
  intros (Hx & Hy & Hf & Hc & Hi & Ho) Hd Hid.
  unfold parser_inv, push_parsed; cbn [current_x current_y current_font_size
                                       parser_calls parsed].
  rewrite length_app, map_app, Nat.add_1_r, seq_S, map_app. cbn [length map].
  repeat split; try assumption.
  - rewrite Hc. lia.
  - rewrite Hi, Hid, Hc. reflexivity.
  - apply Forall_app. split; [assumption | now constructor].
Qed.

Lemma parse_line_inv (st st' : ParserState) (raw : string) :
  parser_inv uuid4 calls st -> parse_line uuid4 st raw = Some st' -> parser_inv uuid4 calls st'.
Proof.
  intros Hinv. pose proof Hinv as (Hx & Hy & Hf & Hc & Hi & Ho).
  unfold parse_line.
  destruct (is_empty (strip raw)); [intros H; now injection H as <-|].
  destruct (startswith (strip raw) "^FO").
  { destruct (findall_digits (strip raw)) as [|c0 [|c1 more]];
      try (intros H; now injection H as <-).
    destruct (int_of_digits c0) as [v0|] eqn:E0; [|discriminate].
    destruct (int_of_digits c1) as [v1|] eqn:E1; [|discriminate].
    intros H; injection H as <-.
    apply int_of_digits_nonneg in E0, E1.
    unfold parser_inv; cbn. repeat split; assumption. }
  destruct (startswith (strip raw) "^A").
  { destruct (match_font (strip raw)) as [[ft fs]|] eqn:E;
      [|intros H; now injection H as <-].
    intros H; injection H as <-.
    unfold parser_inv; cbn [current_x current_y current_font_size
                            parser_calls parsed].
    repeat split; try assumption.
    unfold match_font in E.
    repeat match type of E with
           | match ?t with _ => _ end = _ =>
               destruct t eqn:?; try discriminate E
           end.
    injection E as _ <-. unfold digits.
    match goal with
    | H : (_ && negb (is_empty ?d))%bool = true |- _ =>
        apply andb_prop in H; destruct H as [_ ->]
    end.
    apply span_forall. }
  destruct (startswith (strip raw) "^FD").
  { cbn. intros H; injection H as <-.
    apply parser_inv_push; [assumption | | reflexivity].
    unfold decoded; cbn. repeat split; try lia; try assumption; auto. }
  destruct (startswith (strip raw) "^GB").
  { destruct (findall_digits (strip raw)) as [|p0 [|p1 more]];
      try (intros H; now injection H as <-).
    destruct (int_of_digits p0) as [v0|] eqn:E0; [|discriminate].
    destruct (int_of_digits p1) as [v1|] eqn:E1; [|discriminate].
    apply int_of_digits_nonneg in E0, E1.
    destruct more as [|p2 more]; cbn.
    - intros H; injection H as <-.
      apply parser_inv_push; [assumption | | reflexivity].
      unfold decoded; cbn. repeat split; try lia; try assumption; auto.
    - destruct (int_of_digits p2) as [v2|] eqn:E2; [|discriminate].
      apply int_of_digits_nonneg in E2. cbn.
      intros H; injection H as <-.
      apply parser_inv_push; [assumption | | reflexivity].
      unfold decoded; cbn. repeat split; try lia; try assumption; auto. }
  destruct (startswith (strip raw) "^GC").
  { destruct (findall_digits (strip raw)) as [|p0 more];
      try (intros H; now injection H as <-).
    destruct (int_of_digits p0) as [v0|] eqn:E0; [|discriminate].
    apply int_of_digits_nonneg in E0.
    destruct more as [|p1 more]; cbn.
    - intros H; injection H as <-.
      apply parser_inv_push; [assumption | | reflexivity].
      unfold decoded; cbn. repeat split; try lia; try assumption; auto 10.
    - destruct (int_of_digits p1) as [v1|] eqn:E1; [|discriminate].
      apply int_of_digits_nonneg in E1. cbn.
      intros H; injection H as <-.
      apply parser_inv_push; [assumption | | reflexivity].
      unfold decoded; cbn. repeat split; try lia; try assumption; auto 10. }
  destruct (startswith (strip raw) "^B").
  { destruct (match_barcode (strip raw)) as [code|];
      [|intros H; now injection H as <-].
    cbn. intros H; injection H as <-.
    apply parser_inv_push; [assumption | | reflexivity].
    unfold decoded; cbn. repeat split; try lia; try assumption; auto 10. }
  intros H; now injection H as <-.
Qed.

Lemma parse_lines_inv (lines : list string) :
  forall st st', parser_inv uuid4 calls st -> parse_lines uuid4 st lines = Some st' ->
                 parser_inv uuid4 calls st'.
Proof.
  induction lines as [|raw lines IH]; intros st st' Hinv; simpl.
  - intros H; now injection H as <-.
  - destruct (parse_line uuid4 st raw) as [st1|] eqn:E; [|discriminate].
    apply IH. exact (parse_line_inv st st1 raw Hinv E).
Qed.

(** X5. The objects the decoder returns: every one is a text, a rectangle,
    a circle or a barcode, with natural coordinates, sizes and thickness,
    no rotation, not selected, and a font size made of digits; the [i]-th
    of them carries the first eight characters of the [i]-th UUID drawn
    from the call on; as many UUIDs are drawn as there are objects. *)
Theorem parse_zpl_file_objects (content : string) (objs : list ZPLObject)
  (calls' : nat) :
  parse_zpl_file uuid4 calls content = Some (objs, calls') ->
  calls' = (calls + length objs)%nat
  /\ map id objs = map (fun i => take 8 (uuid4 i)) (seq calls (length objs))
  /\ Forall decoded objs.
Proof.
  unfold parse_zpl_file.
  destruct (parse_lines uuid4 (parser_start calls) (split_lines content))
    as [st|] eqn:E; [|discriminate].
  intros H; injection H as <- <-.
  assert (I : parser_inv uuid4 calls (parser_start calls)).
  { unfold parser_inv, parser_start; cbn.
    repeat split; try lia; try reflexivity; auto. }
  destruct (parse_lines_inv _ _ _ I E) as (_ & _ & _ & Hc & Hi & Ho).
  repeat split; assumption.
Qed.

End DecoderOutput.

Lemma parse_zpl_file_objects_witness :
  exists objs,
    parse_zpl_file uuid_seq 0 sample_label = Some (objs, 2%nat)
    /\ map id objs = map (fun i => take 8 (uuid_seq i)) (seq 0 (length objs))
    /\ Forall decoded objs.
Proof.
  assert (H : parse_zpl_file uuid_seq 0 sample_label
              = Some ([set_thickness 2
                         (set_id (take 8 (uuid_seq 0))
                            (new_object "rectangle" 10 20 80 40 ""));
                       set_font_size "18"
                         (set_font_type "D"
                            (set_id (take 8 (uuid_seq 1))
                               (new_object "text" 10 70 100 30 "hello")))],
                      2%nat))
    by (vm_compute; reflexivity).
  eexists. split; [exact H|].
  exact (proj2 (parse_zpl_file_objects uuid_seq 0 sample_label _ _ H)).
Defined.

(** ** Decoding what the encoder wrote *)

Lemma split_lines_line (l rest : string) :
  string_forall not_nl l = true ->
  split_lines (l ++ nl ++ rest) = l :: split_lines rest.
Proof.
  induction l as [|c l IH]; intros H; [reflexivity|].
  cbn [string_forall] in H. apply andb_prop in H. destruct H as [Hc Hl].
  cbn [String.append split_lines].
  unfold not_nl in Hc. apply negb_true_iff in Hc.
  rewrite Hc, (IH Hl). reflexivity.
Qed.

Lemma split_lines_unlines_lines (ls : list string) :
  Forall (fun l => string_forall not_nl l = true) ls ->
  split_lines (unlines ls) = (ls ++ [""])%list.
Proof.
  induction 1 as [|l ls Hl _ IH]; cbn [unlines]; [reflexivity|].
  rewrite split_lines_line by exact Hl. now rewrite IH.
Qed.

Lemma unlines_app (a b : list string) :
  unlines (a ++ b) = unlines a ++ unlines b.
Proof.
  induction a as [|l a IH]; cbn [unlines app]; [reflexivity|].
  rewrite IH. now rewrite !sapp_assoc.
Qed.

Lemma nonspace_not_nl_all (l : string) :
  string_forall nonspace l = true -> string_forall not_nl l = true.
Proof.
  apply string_forall_impl. intros c H. unfold not_nl.
  now rewrite (nonspace_not_nl c H).
Qed.

Lemma field_not_nl_all (l : string) :
  string_forall field_char l = true -> string_forall not_nl l = true.
Proof.
  apply string_forall_impl. intros c H. unfold field_char in H.
  apply andb_prop in H. now destruct H.
Qed.

Lemma rstrip_app (s t : string) :
  rstrip t = t -> t <> "" -> rstrip (s ++ t) = s ++ t.
Proof.
  intros Ht Hn. induction s as [|c s IH]; [exact Ht|].
  cbn [String.append rstrip]. rewrite IH.
  destruct (s ++ t) eqn:E; [|reflexivity].
  destruct s; [now elim Hn | discriminate E].
Qed.

Lemma prefix_caret_false (old : string) (c : ascii) (s : string) :
  Ascii.eqb c "^"%char = false ->
  String.prefix (String "^"%char old) (String c s) = false.
Proof.
  intros H.
  change (String.prefix (String "^"%char old) (String c s))
    with (if ascii_dec "^"%char c then String.prefix old s else false).
  destruct (ascii_dec "^"%char c) as [E|]; [|reflexivity].
  subst c. discriminate H.
Qed.

(** [(t + '^FS').replace('^FS', '')] is [t] when [t] holds no caret. *)
Lemma remove_all_field (t : string) :
  string_forall field_char t = true -> remove_all "^FS" (t ++ "^FS") = t.
Proof.
  unfold remove_all. induction t as [|c t IH]; intros H; [reflexivity|].
  cbn [string_forall] in H. apply andb_prop in H. destruct H as [Hc Ht].
  unfold field_char in Hc. apply andb_prop in Hc. destruct Hc as [Hc _].
  apply negb_true_iff in Hc.
  cbn [String.append remove_from].
  rewrite (prefix_caret_false "FS" c (t ++ "^FS") Hc). now rewrite IH.
Qed.

Lemma span_run (p : ascii -> bool) (d : string) (c : ascii) (s : string) :
  string_forall p d = true -> p c = false -> span p (d ++ String c s) = d.
Proof.
  intros Hd Hc. induction d as [|a d IH]; cbn [String.append span].
  - now rewrite Hc.
  - cbn [string_forall] in Hd. apply andb_prop in Hd. destruct Hd as [Ha Hd].
    now rewrite Ha, IH.
Qed.

Lemma upper_or_digit_nonspace (c : ascii) :
  is_upper_or_digit c = true -> nonspace c = true.
Proof.
  destruct c as [[] [] [] [] [] [] [] []]; intros H;
    try discriminate H; reflexivity.
Qed.

(** The operands the decoder reads from a circle command. *)
Lemma findall_digits_circle (dd dt : string) :
  digits dd = true -> digits dt = true ->
  findall_digits ("^GC" ++ dd ++ "," ++ dt ++ "^FS") = [dd; dt].
Proof.
  intros Hd Ht. unfold findall_digits. cbn [String.append].
  rewrite !findall_skip by reflexivity.
  rewrite (findall_run_then dd) by (exact Hd || reflexivity).
  rewrite (findall_run_then dt) by (exact Ht || reflexivity).
  now rewrite !findall_skip by reflexivity.
Qed.

(** The operands the decoder reads from the box command of a line. *)
Lemma findall_digits_bar (dw dh : string) :
  digits dw = true -> digits dh = true ->
  findall_digits ("^GB" ++ dw ++ "," ++ dh ++ ",B^FS") = [dw; dh].
Proof.
  intros Hw Hh. unfold findall_digits. cbn [String.append].
  rewrite !findall_skip by reflexivity.
  rewrite (findall_run_then dw) by (exact Hw || reflexivity).
  rewrite (findall_run_then dh) by (exact Hh || reflexivity).
  now rewrite !findall_skip by reflexivity.
Qed.

Lemma parse_lines_app (uuid4 : nat -> string) (a b : list string) :
  forall st,
    parse_lines uuid4 st (a ++ b)
    = let? st' := parse_lines uuid4 st a in parse_lines uuid4 st' b.
Proof.
  induction a as [|l a IH]; intros st; cbn [app parse_lines]; [reflexivity|].
  destruct (parse_line uuid4 st l); [apply IH | reflexivity].
Qed.

Lemma collect_skip_no_barcode (all rest : list ZPLObject) :
  forall skip,
    Forall (fun o => String.eqb (obj_type o) "barcode" = false) rest ->
    collect_skip_text_ids all rest skip = skip.
Proof.
  induction rest as [|o rest IH]; intros skip H; [reflexivity|].
  inversion H as [|? ? Ho Hr]; subst. cbn [collect_skip_text_ids].
  rewrite Ho. now apply IH.
Qed.

Section SceneRoundTrip.

Variable uuid4 : nat -> string.

Lemma parse_line_circle (st : ParserState) (dd dt : string) (vd vt : Z) :
  digits dd = true -> digits dt = true ->
  int_of_digits dd = Some vd -> int_of_digits dt = Some vt ->
  parse_line uuid4 st ("^GC" ++ dd ++ "," ++ dt ++ "^FS")
  = Some (push_parsed st
            (set_thickness vt
               (set_id (take 8 (uuid4 (parser_calls st)))
                  (new_object "circle" (current_x st) (current_y st) vd vd "")))
            (S (parser_calls st))).
Proof.
  intros Hd Ht Ed Et. unfold parse_line.
  rewrite strip_nonspace by solve_nonspace.
  rewrite findall_digits_circle by assumption.
  rewrite Ed, Et.
  set (line := "^GC" ++ dd ++ "," ++ dt ++ "^FS").
  replace (is_empty line) with false by reflexivity.
  replace (startswith line "^FO") with false by reflexivity.
  replace (startswith line "^A") with false by reflexivity.
  replace (startswith line "^FD") with false by reflexivity.
  replace (startswith line "^GB") with false by reflexivity.
  replace (startswith line "^GC") with true
    by (symmetry; apply startswith_app).
  reflexivity.
Qed.

Lemma parse_line_bar (st : ParserState) (dw dh : string) (vw vh : Z) :
  digits dw = true -> digits dh = true ->
  int_of_digits dw = Some vw -> int_of_digits dh = Some vh ->
  parse_line uuid4 st ("^GB" ++ dw ++ "," ++ dh ++ ",B^FS")
  = Some (push_parsed st
            (set_thickness 2
               (set_id (take 8 (uuid4 (parser_calls st)))
                  (new_object "rectangle" (current_x st) (current_y st) vw vh "")))
            (S (parser_calls st))).
Proof.
  intros Hw Hh Ew Eh. unfold parse_line.
  rewrite strip_nonspace by solve_nonspace.
  rewrite findall_digits_bar by assumption.
  rewrite Ew, Eh.
  set (line := "^GB" ++ dw ++ "," ++ dh ++ ",B^FS").
  replace (is_empty line) with false by reflexivity.
  replace (startswith line "^FO") with false by reflexivity.
  replace (startswith line "^A") with false by reflexivity.
  replace (startswith line "^FD") with false by reflexivity.
  replace (startswith line "^GB") with true
    by (symmetry; apply startswith_app).
  reflexivity.
Qed.

Lemma parse_line_font (st : ParserState) (c : ascii) (fs : string) :
  is_upper_or_digit c = true -> digits fs = true ->
  parse_line uuid4 st ("^A" ++ String c "" ++ ",N," ++ fs ++ "," ++ fs)
  = Some (mkParserState (parsed st) (current_x st) (current_y st)
            (String c "") fs (parser_calls st)).
Proof.
  intros Hc Hf. unfold parse_line.
  pose proof (upper_or_digit_nonspace c Hc) as Nc.
  rewrite strip_nonspace
    by (cbn [String.append string_forall]; rewrite Nc;
        cbn [andb string_forall]; solve_nonspace).
  cbn [String.append].
  set (line := String "^" (String "A" (String c (",N," ++ fs ++ "," ++ fs)))).
  replace (is_empty line) with false by reflexivity.
  replace (startswith line "^FO") with false by reflexivity.
  replace (startswith line "^A") with true by reflexivity.
  unfold line, match_font. cbn [String.append].
  rewrite (span_run is_digit fs "," fs (digits_run fs Hf) eq_refl).
  rewrite Hc. unfold digits in Hf. apply andb_prop in Hf.
  destruct Hf as [-> _]. reflexivity.
Qed.

Lemma parse_line_field (st : ParserState) (t : string) :
  string_forall field_char t = true ->
  parse_line uuid4 st ("^FD" ++ t ++ "^FS")
  = Some (push_parsed st
            (set_font_size (current_font_size st)
               (set_font_type (current_font_type st)
                  (set_id (take 8 (uuid4 (parser_calls st)))
                     (new_object "text" (current_x st) (current_y st) 100 30 t))))
            (S (parser_calls st))).
Proof.
  intros Ht. unfold parse_line.
  assert (S : strip ("^FD" ++ t ++ "^FS") = "^FD" ++ t ++ "^FS").
  { unfold strip. replace (lstrip ("^FD" ++ t ++ "^FS"))
      with ("^FD" ++ t ++ "^FS") by reflexivity.
    rewrite <- sapp_assoc. apply rstrip_app; [reflexivity | discriminate]. }
  rewrite S.
  set (line := "^FD" ++ t ++ "^FS").
  replace (is_empty line) with false by reflexivity.
  replace (startswith line "^FO") with false by reflexivity.
  replace (startswith line "^A") with false by reflexivity.
  replace (startswith line "^FD") with true
    by (symmetry; apply startswith_app).
  replace (drop 3 line) with (t ++ "^FS") by reflexivity.
  rewrite remove_all_field by exact Ht. reflexivity.
Qed.

Lemma in_float_range_spec (v : Z) :
  in_float_range v = true -> 0 <= v /\ scaled v = Some v.
Proof.
  unfold in_float_range. intros H. apply andb_prop in H. destruct H as [A B].
  apply Z.leb_le in A. apply Z.ltb_lt in B.
  split; [exact A | apply scaled_exact; lia].
Qed.

Lemma exportable_cases (o : ZPLObject) :
  exportable o = true ->
  (0 <= x o /\ scaled (x o) = Some (x o))
  /\ (0 <= y o /\ scaled (y o) = Some (y o))
  /\ (0 <= width o /\ scaled (width o) = Some (width o))
  /\ (0 <= height o /\ scaled (height o) = Some (height o))
  /\ (obj_type o = "text"
        /\ (exists c, font_type o = String c "" /\ is_upper_or_digit c = true)
        /\ digits (font_size o) = true
        /\ string_forall field_char (text o) = true
      \/ obj_type o = "rectangle" /\ 0 <= thickness o
      \/ obj_type o = "circle" /\ 0 <= thickness o
      \/ obj_type o = "line").
Proof.
  unfold exportable. intros H.
  repeat match type of H with
         | (_ && _)%bool = true =>
             let K := fresh "K" in
             apply andb_prop in H; destruct H as [H K]
         end.
  apply in_float_range_spec in H, K2, K1, K0.
  repeat split; try tauto.
  destruct (String.eqb (obj_type o) "text") eqn:Et.
  { apply String.eqb_eq in Et. left.
    repeat match type of K with
           | (_ && _)%bool = true =>
               let K' := fresh "K" in
               apply andb_prop in K; destruct K as [K K']
           end.
    repeat split; try assumption.
    destruct (font_type o) as [|c [|]]; try discriminate K. now exists c. }
  destruct (String.eqb (obj_type o) "rectangle") eqn:Er.
  { apply String.eqb_eq in Er. apply Z.leb_le in K. tauto. }
  destruct (String.eqb (obj_type o) "circle") eqn:Ec.
  { apply String.eqb_eq in Ec. apply Z.leb_le in K. tauto. }
  apply String.eqb_eq in K. tauto.
Qed.

Lemma exportable_not_barcode (o : ZPLObject) :
  exportable o = true -> String.eqb (obj_type o) "barcode" = false.
Proof.
  intros H. destruct (exportable_cases o H) as (_ & _ & _ & _ & C).
  destruct C as [(-> & _)|[(-> & _)|[(-> & _)| ->]]]; reflexivity.
Qed.

(** The lines the encoder writes for an exportable object, and what the
    decoder makes of them. *)
Lemma encode_decode_object (o : ZPLObject) :
  exportable o = true ->
  exists ls,
    (forall zpl, encode_object [] zpl o = Some (zpl ++ unlines ls))
    /\ Forall (fun l => string_forall not_nl l = true) ls
    /\ forall st, exists st' o',
         parse_lines uuid4 st ls = Some st'
         /\ parsed st' = (parsed st ++ [o'])%list
         /\ parser_calls st' = S (parser_calls st)
         /\ reads_back o o'.
Proof.
  intros H.
  destruct (exportable_cases o H)
    as ((Hx & Ex) & (Hy & Ey) & (Hw & Ew) & (Hh & Eh) & C).
  pose proof (str_int_digits _ Hx) as Dx. pose proof (str_int_digits _ Hy) as Dy.
  pose proof (str_int_digits _ Hw) as Dw. pose proof (str_int_digits _ Hh) as Dh.
  set (position := "^FO" ++ str_int (x o) ++ "," ++ str_int (y o)).
  assert (Npos : string_forall not_nl position = true)
    by (apply nonspace_not_nl_all; subst position; solve_nonspace).
  assert (Ppos : forall st, parse_line uuid4 st position = _)
    by (intros st; subst position;
        apply (parse_line_position uuid4 st _ _ (x o) (y o) Dx Dy);
        now apply int_of_str_int).
  destruct C as [(Hty & (c & Hft & Hc) & Hfs & Htx)
                |[(Hty & Ht)|[(Hty & Ht)|Hty]]].
  - (* text *)
    set (font := "^A" ++ String c "" ++ ",N," ++ font_size o ++ ","
                 ++ font_size o).
    set (field := "^FD" ++ text o ++ "^FS").
    assert (Nfont : string_forall not_nl font = true).
    { apply nonspace_not_nl_all. subst font.
      pose proof (upper_or_digit_nonspace c Hc) as Nc.
      cbn [String.append string_forall]. rewrite Nc.
      cbn [andb]. solve_nonspace. }
    assert (Nfield : string_forall not_nl field = true).
    { subst field. rewrite !string_forall_app, (field_not_nl_all _ Htx).
      reflexivity. }
    assert (Pfont : forall st, parse_line uuid4 st font = _)
      by (intros st; subst font; apply (parse_line_font st c _ Hc Hfs)).
    assert (Pfield : forall st, parse_line uuid4 st field = _)
      by (intros st; subst field; apply (parse_line_field st _ Htx)).
    exists (if negb (rotation o =? 0) then [position; font; "^FWR"; field]
            else [position; font; field]).
    split; [|split].
    + intros zpl. unfold encode_object. rewrite Hty, Ex, Ey, Ew, Eh, Hft.
      cbn [String.eqb Ascii.eqb Bool.eqb andb in_ids existsb].
      destruct (negb (rotation o =? 0)); cbv beta iota zeta;
        f_equal; subst position font field; cbn [unlines];
        norm_app; now rewrite ?sapp_nil_r.
    + destruct (negb (rotation o =? 0)); repeat constructor; assumption.
    + intros st.
      destruct (negb (rotation o =? 0)); cbn [parse_lines];
        rewrite Ppos; cbv beta iota; rewrite Pfont; cbv beta iota;
        rewrite ?(parse_line_unrecognized uuid4 _ "^FWR" eq_refl);
        cbv beta iota; rewrite Pfield; cbv beta iota;
        (do 2 eexists; split; [reflexivity|]);
        (split; [reflexivity|]); (split; [reflexivity|]);
        unfold reads_back; rewrite Hty; cbn; rewrite Hft;
        repeat split; reflexivity.
  - (* rectangle *)
    pose proof (str_int_digits _ Ht) as Dt.
    set (box := "^GB" ++ str_int (width o) ++ "," ++ str_int (height o) ++ ","
                ++ str_int (thickness o) ++ "^FS").
    assert (Nbox : string_forall not_nl box = true)
      by (apply nonspace_not_nl_all; subst box; solve_nonspace).
    assert (Pbox : forall st, parse_line uuid4 st box = _)
      by (intros st; subst box;
          apply (parse_line_box uuid4 st _ _ _ (width o) (height o)
                   (thickness o) Dw Dh Dt);
          now apply int_of_str_int).
    exists [position; box]. split; [|split].
    + intros zpl. unfold encode_object. rewrite Hty, Ex, Ey, Ew, Eh.
      cbn [String.eqb Ascii.eqb Bool.eqb andb in_ids existsb].
      cbv beta iota zeta.
      f_equal; subst position box; cbn [unlines];
        norm_app; now rewrite ?sapp_nil_r.
    + repeat constructor; assumption.
    + intros st. cbn [parse_lines].
      rewrite Ppos; cbv beta iota; rewrite Pbox; cbv beta iota.
      do 2 eexists; split; [reflexivity|].
      split; [reflexivity|]. split; [reflexivity|].
      unfold reads_back; rewrite Hty; cbn. repeat split; reflexivity.
  - (* circle *)
    pose proof (str_int_digits _ Ht) as Dt.
    assert (Hm : 0 <= Z.min (width o) (height o)) by lia.
    pose proof (str_int_digits _ Hm) as Dm.
    set (circle := "^GC" ++ str_int (Z.min (width o) (height o)) ++ ","
                   ++ str_int (thickness o) ++ "^FS").
    assert (Ncircle : string_forall not_nl circle = true)
      by (apply nonspace_not_nl_all; subst circle; solve_nonspace).
    assert (Pcircle : forall st, parse_line uuid4 st circle = _)
      by (intros st; subst circle;
          apply (parse_line_circle st _ _ (Z.min (width o) (height o))
                   (thickness o) Dm Dt);
          now apply int_of_str_int).
    exists [position; circle]. split; [|split].
    + intros zpl. unfold encode_object. rewrite Hty, Ex, Ey, Ew, Eh.
      cbn [String.eqb Ascii.eqb Bool.eqb andb in_ids existsb].
      cbv beta iota zeta.
      f_equal; subst position circle; cbn [unlines];
        norm_app; now rewrite ?sapp_nil_r.
    + repeat constructor; assumption.
    + intros st. cbn [parse_lines].
      rewrite Ppos; cbv beta iota; rewrite Pcircle; cbv beta iota.
      do 2 eexists; split; [reflexivity|].
      split; [reflexivity|]. split; [reflexivity|].
      unfold reads_back; rewrite Hty; cbn. repeat split; reflexivity.
  - (* line *)
    assert (Hl : 0 <= Z.max 1 (line_thickness o)) by lia.
    pose proof (str_int_digits _ Hl) as Dl.
    set (bar := if height o <? width o
                then "^GB" ++ str_int (width o) ++ ","
                     ++ str_int (Z.max 1 (line_thickness o)) ++ ",B^FS"
                else "^GB" ++ str_int (Z.max 1 (line_thickness o)) ++ ","
                     ++ str_int (height o) ++ ",B^FS").
    assert (Nbar : string_forall not_nl bar = true)
      by (apply nonspace_not_nl_all; subst bar;
          destruct (height o <? width o); solve_nonspace).
    assert (Pbar : forall st, parse_line uuid4 st bar
                   = Some (push_parsed st
                       (set_thickness 2
                          (set_id (take 8 (uuid4 (parser_calls st)))
                             (new_object "rectangle" (current_x st)
                                (current_y st)
                                (if height o <? width o then width o
                                 else Z.max 1 (line_thickness o))
                                (if height o <? width o
                                 then Z.max 1 (line_thickness o)
                                 else height o) "")))
                       (S (parser_calls st)))).
    { intros st; subst bar; destruct (height o <? width o).
      - apply (parse_line_bar st _ _ _ _ Dw Dl); now apply int_of_str_int.
      - apply (parse_line_bar st _ _ _ _ Dl Dh); now apply int_of_str_int. }
    exists [position; bar]. split; [|split].
    + intros zpl. unfold encode_object. rewrite Hty, Ex, Ey, Ew, Eh.
      cbn [String.eqb Ascii.eqb Bool.eqb andb in_ids existsb].
      cbv beta iota zeta.
      subst position bar; destruct (height o <? width o);
        f_equal; cbn [unlines]; norm_app; now rewrite ?sapp_nil_r.
    + repeat constructor; assumption.
    + intros st. cbn [parse_lines].
      rewrite Ppos; cbv beta iota; rewrite Pbar; cbv beta iota.
      do 2 eexists; split; [reflexivity|].
      split; [reflexivity|]. split; [reflexivity|].
      unfold reads_back; rewrite Hty; cbn. repeat split; reflexivity.
Qed.

Lemma encode_decode_objects (objs : list ZPLObject) :
  forallb exportable objs = true ->
  exists ls,
    (forall zpl, encode_objects [] zpl objs = Some (zpl ++ unlines ls))
    /\ Forall (fun l => string_forall not_nl l = true) ls
    /\ forall st, exists st' objs',
         parse_lines uuid4 st ls = Some st'
         /\ parsed st' = (parsed st ++ objs')%list
         /\ parser_calls st' = (parser_calls st + length objs)%nat
         /\ Forall2 reads_back objs objs'.
Proof.
  induction objs as [|o objs IH]; intros H.
  - exists []. split; [|split].
    + intros zpl. cbn. now rewrite sapp_nil_r.
    + constructor.
    + intros st. exists st, []. cbn [parse_lines length].
      rewrite List.app_nil_r, Nat.add_0_r. repeat split. constructor.
  - cbn [forallb] in H. apply andb_prop in H. destruct H as [Ho Hr].
    destruct (encode_decode_object o Ho) as (l1 & E1 & N1 & P1).
    destruct (IH Hr) as (l2 & E2 & N2 & P2).
    exists (l1 ++ l2)%list. split; [|split].
    + intros zpl. cbn [encode_objects]. rewrite E1. cbv beta iota.
      rewrite E2, unlines_app. now rewrite sapp_assoc.
    + apply Forall_app. now split.
    + intros st. destruct (P1 st) as (st1 & o' & Q1 & R1 & C1 & B1).
      destruct (P2 st1) as (st2 & objs' & Q2 & R2 & C2 & B2).
      exists st2, (o' :: objs'). rewrite parse_lines_app, Q1. cbv beta iota.
      split; [exact Q2|]. split; [|split].
      * rewrite R2, R1, <- List.app_assoc. reflexivity.
      * rewrite C2, C1. cbn [length]. lia.
      * now constructor.
Qed.

(** Export, then import, of a scene of exportable objects. *)
Lemma encode_decode_scene (calls : nat) (settings : LabelSettings)
  (objs : list ZPLObject) :
  forallb exportable objs = true ->
  exists out objs',
    generate_zpl settings objs = Some out
    /\ parse_zpl_file uuid4 calls out
       = Some (objs', (calls + length objs)%nat)
    /\ Forall2 reads_back objs objs'.
Proof.
  intros H.
  destruct (encode_decode_objects objs H) as (ls & E & N & P).
  assert (S : skip_text_ids objs = []).
  { unfold skip_text_ids. apply collect_skip_no_barcode.
    apply Forall_forall. intros o Ho. apply exportable_not_barcode.
    rewrite forallb_forall in H. now apply H. }
  set (head := if String.eqb (orientation settings) "Landscape"
               then ["^XA"; "^POI"] else ["^XA"]).
  assert (Nhead : Forall (fun l => string_forall not_nl l = true) head)
    by (subst head; destruct (String.eqb _ _); repeat constructor).
  assert (Phead : forall st, parse_lines uuid4 st head = Some st)
    by (intros st; subst head; destruct (String.eqb _ _); reflexivity).
  destruct (P (parser_start calls)) as (st' & objs' & Q & R & C & B).
  exists (unlines (head ++ ls ++ ["^XZ"])), objs'. split; [|split].
  - unfold generate_zpl. rewrite S, E. cbv beta iota. f_equal.
    rewrite !unlines_app. subst head.
    destruct (String.eqb _ _); cbn [unlines]; norm_app;
      now rewrite ?sapp_nil_r.
  - unfold parse_zpl_file.
    rewrite split_lines_unlines_lines
      by (repeat (apply Forall_app; split); try assumption;
          repeat constructor).
    rewrite <- !List.app_assoc, parse_lines_app, Phead. cbv beta iota.
    rewrite parse_lines_app, Q. cbv beta iota. cbn [app parse_lines].
    rewrite !(parse_line_unrecognized uuid4 st') by reflexivity.
    cbv beta iota. rewrite R, C. reflexivity.
  - exact B.
Qed.

(** X6. A scene of texts, rectangles, circles and lines survives export
    and import as far as the commands carry it.  When every object has
    natural coordinates and sizes below [2^53], every rectangle and circle
    a natural thickness, and every text a font of one capital letter or
    digit, a size made of digits and a content without caret or line feed,
    the encoder returns a text, and the decoder reads from it as many
    objects, in the same order and at the same positions: a text with its
    content and font, in a box of 100 by 30 and without rotation; a
    rectangle with its size and thickness; a circle as wide and as high as
    the smaller of width and height; a line as a rectangle of thickness
    2. *)
Theorem scene_round_trip (calls : nat) (settings : LabelSettings)
  (objs : list ZPLObject) :
  forallb exportable objs = true ->
  exists out objs',
    generate_zpl settings objs = Some out
    /\ parse_zpl_file uuid4 calls out
       = Some (objs', (calls + length objs)%nat)
    /\ Forall2 reads_back objs objs'.
Proof. exact (encode_decode_scene calls settings objs). Qed.

(** What the encoder writes for an object the decoder read back from the
    commands of a stable object is what it wrote in the first place. *)
Lemma encode_object_read_back (o o' : ZPLObject) :
  stable o = true -> reads_back o o' ->
  forall zpl, encode_object [] zpl o' = encode_object [] zpl o.
Proof.
  unfold stable. intros H R zpl.
  apply andb_prop in H. destruct H as [H Hrot].
  apply andb_prop in H. destruct H as [H Hline].
  destruct (exportable_cases o H)
    as ((Hx & Ex) & (Hy & Ey) & (Hw & Ew) & (Hh & Eh) & C).
  destruct R as (Rx & Ry & _ & R).
  destruct C as [(Hty & (c & Hft & Hc) & Hfs & Htx)
                |[(Hty & Ht)|[(Hty & Ht)|Hty]]].
  - rewrite Hty in R, Hrot. cbn in R, Hrot.
    destruct R as (Rt & Rtx & Rft & Rfs & Rw & Rh & Rr).
    apply negb_true_iff, negb_false_iff in Hrot.
    unfold encode_object.
    rewrite Rt, Hty, Rx, Ry, Rw, Rh, Rr, Rtx, Rft, Rfs, Ex, Ey, Ew, Eh, Hrot.
    reflexivity.
  - rewrite Hty in R. cbn in R. destruct R as (Rt & Rw & Rh & Rth).
    unfold encode_object.
    rewrite Rt, Hty, Rx, Ry, Rw, Rh, Rth. reflexivity.
  - rewrite Hty in R. cbn in R. destruct R as (Rt & Rw & Rh & Rth).
    assert (Em : scaled (Z.min (width o) (height o))
                 = Some (Z.min (width o) (height o)))
      by (destruct (Z.min_spec (width o) (height o)) as [(_ & ->)|(_ & ->)];
          assumption).
    unfold encode_object.
    rewrite Rt, Hty, Rx, Ry, Rw, Rh, Rth, Ex, Ey, Ew, Eh, Em.
    cbn. now rewrite Z.min_id.
  - rewrite Hty in Hline. discriminate Hline.
Qed.

Lemma encode_objects_read_back (objs objs' : list ZPLObject) :
  forallb stable objs = true -> Forall2 reads_back objs objs' ->
  forall zpl, encode_objects [] zpl objs' = encode_objects [] zpl objs.
Proof.
  intros H R. induction R as [|o o' objs objs' Ro _ IH]; intros zpl;
    [reflexivity|].
  cbn [forallb] in H. apply andb_prop in H. destruct H as [Ho Hr].
  cbn [encode_objects]. rewrite (encode_object_read_back o o' Ho Ro).
  destruct (encode_object [] zpl o); [now apply IH | reflexivity].
Qed.

Lemma reads_back_not_barcode (o o' : ZPLObject) :
  reads_back o o' -> String.eqb (obj_type o') "barcode" = false.
Proof.
  intros (_ & _ & _ & R).
  destruct (String.eqb (obj_type o) "text"); [now destruct R as (-> & _)|].
  destruct (String.eqb (obj_type o) "rectangle"); [now destruct R as (-> & _)|].
  destruct (String.eqb (obj_type o) "circle"); now destruct R as (-> & _).
Qed.

Lemma stable_exportable (objs : list ZPLObject) :
  forallb stable objs = true -> forallb exportable objs = true.
Proof.
  intros H. apply forallb_forall. intros o Ho.
  rewrite forallb_forall in H. specialize (H o Ho). unfold stable in H.
  apply andb_prop in H. destruct H as [H _].
  apply andb_prop in H. now destruct H.
Qed.

(** X12. Export is stable under import.  For a scene of exportable
    rectangles, circles and unrotated texts, the objects the decoder reads
    from the exported text are exported to the very same text again:
    whatever the first import loses (identifiers, the size of a text, the
    width or height of a circle) the encoder never reads. *)
Theorem export_stable (calls : nat) (settings : LabelSettings)
  (objs : list ZPLObject) :
  forallb stable objs = true ->
  exists out objs',
    generate_zpl settings objs = Some out
    /\ parse_zpl_file uuid4 calls out
       = Some (objs', (calls + length objs)%nat)
    /\ generate_zpl settings objs' = Some out.
Proof.
  intros H.
  destruct (encode_decode_scene calls settings objs (stable_exportable objs H))
    as (out & objs' & G & P & R).
  exists out, objs'. split; [exact G|]. split; [exact P|].
  assert (S' : skip_text_ids objs' = []).
  { unfold skip_text_ids. apply collect_skip_no_barcode.
    clear -R. induction R; constructor; [|assumption].
    eapply reads_back_not_barcode; eassumption. }
  assert (S : skip_text_ids objs = []).
  { unfold skip_text_ids. apply collect_skip_no_barcode.
    apply Forall_forall. intros o Ho. apply exportable_not_barcode.
    pose proof (stable_exportable objs H) as E.
    rewrite forallb_forall in E. now apply E. }
  unfold generate_zpl in *. rewrite S in G. rewrite S'.
  rewrite (encode_objects_read_back objs objs' H R). exact G.
Qed.


End SceneRoundTrip.

Lemma scene_round_trip_witness :
  exists out objs',
    generate_zpl default_settings sample_scene = Some out
    /\ parse_zpl_file uuid_seq 0 out
       = Some (objs', (0 + length sample_scene)%nat)
    /\ Forall2 reads_back sample_scene objs'.
Proof.
  assert (H : forallb exportable sample_scene = true)
    by (vm_compute; reflexivity).
  exact (scene_round_trip uuid_seq 0 default_settings sample_scene H).
Defined.

(** ** A barcode, exported and imported *)

Lemma span_upper_or_digit (code rest : string) :
  string_forall is_upper_or_digit code = true ->
  span is_upper_or_digit (code ++ String "," rest) = code.
Proof. intros H. now apply span_run. Qed.

Lemma upper_or_digit_nonspace_all (s : string) :
  string_forall is_upper_or_digit s = true -> string_forall nonspace s = true.
Proof. apply string_forall_impl. exact upper_or_digit_nonspace. Qed.

Lemma digit_upper_or_digit_all (s : string) :
  string_forall is_digit s = true -> string_forall is_upper_or_digit s = true.
Proof.
  apply string_forall_impl. intros c H. unfold is_upper_or_digit.
  now rewrite H, orb_true_r.
Qed.

(** The two barcode commands the encoder writes, up to their first comma. *)
Lemma barcode_command_shape (bt : string) (h : Z) (above : bool) :
  In bt ["128"; "39"; "93"; "I25"; "EAN13"; "EAN8"; "UPCA"; "UPCE"] ->
  0 <= h ->
  exists code rest,
    barcode_command bt h (if above then "Y" else "N")
    = ("^B" ++ code ++ String "," rest) ++ nl
    /\ In code ["CN"; "3N"; "AN"; "2N"; "EN"; "UN"]
    /\ string_forall nonspace rest = true.
Proof.
  intros Hbt Hh. pose proof (str_int_digits h Hh) as Dh.
  cbn [In] in Hbt.
  repeat match type of Hbt with
         | _ \/ _ => destruct Hbt as [<-|Hbt]
         end; try contradiction;
    unfold barcode_command; cbn [String.eqb Ascii.eqb Bool.eqb orb andb].
  - exists "CN", (str_int h ++ ",Y," ++ (if above then "Y" else "N") ++ ",Y").
    split; [now norm_app|]. split; [cbn; tauto|].
    destruct above; solve_nonspace.
  - exists "3N", ("N," ++ str_int h ++ ",Y," ++ (if above then "Y" else "N")
                  ++ ",Y").
    split; [now norm_app|]. split; [cbn; tauto|].
    destruct above; solve_nonspace.
  - exists "AN", (str_int h ++ ",Y," ++ (if above then "Y" else "N") ++ ",Y").
    split; [now norm_app|]. split; [cbn; tauto|].
    destruct above; solve_nonspace.
  - exists "2N", ("N," ++ str_int h ++ ",Y," ++ (if above then "Y" else "N")
                  ++ ",Y").
    split; [now norm_app|]. split; [cbn; tauto|].
    destruct above; solve_nonspace.
  - exists "EN", (str_int h ++ ",Y," ++ (if above then "Y" else "N") ++ ",Y").
    split; [now norm_app|]. split; [cbn; tauto|].
    destruct above; solve_nonspace.
  - exists "EN", (str_int h ++ ",Y," ++ (if above then "Y" else "N") ++ ",Y").
    split; [now norm_app|]. split; [cbn; tauto|].
    destruct above; solve_nonspace.
  - exists "UN", (str_int h ++ ",Y," ++ (if above then "Y" else "N") ++ ",Y").
    split; [now norm_app|]. split; [cbn; tauto|].
    destruct above; solve_nonspace.
  - exists "UN", (str_int h ++ ",Y," ++ (if above then "Y" else "N") ++ ",Y").
    split; [now norm_app|]. split; [cbn; tauto|].
    destruct above; solve_nonspace.
Qed.

Section BarcodeReimport.

Variable uuid4 : nat -> string.

(** A line that starts with [^B], a run of capital letters and digits and a
    comma makes the decoder build a barcode of that "type". *)
Lemma parse_line_symbol (st : ParserState) (code rest : string) :
  string_forall is_upper_or_digit code = true -> code <> "" ->
  string_forall nonspace rest = true ->
  parse_line uuid4 st ("^B" ++ code ++ String "," rest)
  = Some (push_parsed st
            (set_barcode_type code
               (set_id (take 8 (uuid4 (parser_calls st)))
                  (new_object "barcode" (current_x st) (current_y st) 120 60 "")))
            (S (parser_calls st))).
Proof.
  intros Hc Hn Hr. unfold parse_line.
  rewrite strip_nonspace
    by (cbn [String.append string_forall];
        rewrite string_forall_app, (upper_or_digit_nonspace_all _ Hc);
        cbn [string_forall]; now rewrite Hr).
  cbn [String.append].
  set (line := String "^" (String "B" (code ++ String "," rest))).
  replace (is_empty line) with false by reflexivity.
  replace (startswith line "^FO") with false by reflexivity.
  replace (startswith line "^A") with false by reflexivity.
  replace (startswith line "^FD") with false by reflexivity.
  replace (startswith line "^GB") with false by reflexivity.
  replace (startswith line "^GC") with false by reflexivity.
  replace (startswith line "^B") with true
    by (symmetry; apply (startswith_app "^B")).
  unfold line, match_barcode. rewrite (span_upper_or_digit code rest Hc).
  destruct code; [now elim Hn | reflexivity].
Qed.

(** X7. A barcode does not survive export and import: the decoder reads
    three objects from the commands the encoder writes for one barcode of a
    known symbology.  The module command [^BY] is taken for a barcode of
    "type" [Y] followed by the module width, the symbology command for a
    second barcode, both of 120 by 60 and without data, and the data comes
    back as a text object; all three stand at the position of the
    barcode. *)
Theorem barcode_reimport (calls : nat) (settings : LabelSettings)
  (o : ZPLObject) :
  obj_type o = "barcode" ->
  In (barcode_type o)
    ["128"; "39"; "93"; "I25"; "EAN13"; "EAN8"; "UPCA"; "UPCE"] ->
  in_float_range (x o) = true -> in_float_range (y o) = true ->
  in_float_range (width o) = true -> in_float_range (height o) = true ->
  0 <= bar_module o -> 0 <= bar_ratio o -> 0 <= bar_height o ->
  string_forall field_char (text o) = true ->
  exists out b1 b2 t,
    generate_zpl settings [o] = Some out
    /\ parse_zpl_file uuid4 calls out = Some ([b1; b2; t], (calls + 3)%nat)
    /\ obj_type b1 = "barcode"
    /\ barcode_type b1 = "Y" ++ str_int (bar_module o)
    /\ obj_type b2 = "barcode"
    /\ In (barcode_type b2) ["CN"; "3N"; "AN"; "2N"; "EN"; "UN"]
    /\ Forall (fun b => width b = 120 /\ height b = 60 /\ text b = "") [b1; b2]
    /\ obj_type t = "text" /\ text t = text o
    /\ Forall (fun o' => x o' = x o /\ y o' = y o) [b1; b2; t].
Proof.
  intros Hty Hbt Hx Hy Hw Hh Hm Hr Hb Htx.
  apply in_float_range_spec in Hx, Hy, Hw, Hh.
  destruct Hx as (Hx & Ex), Hy as (Hy & Ey), Hw as (Hw & Ew), Hh as (Hh & Eh).
  pose proof (str_int_digits _ Hx) as Dx. pose proof (str_int_digits _ Hy) as Dy.
  pose proof (str_int_digits _ Hm) as Dm. pose proof (str_int_digits _ Hr) as Dr.
  pose proof (str_int_digits _ Hb) as Db.
  destruct (barcode_command_shape (barcode_type o) (height o) (hri_above o)
              Hbt Hh) as (code & rest & Ecmd & Hcode & Nrest).
  set (position := "^FO" ++ str_int (x o) ++ "," ++ str_int (y o)).
  set (module := "^B" ++ ("Y" ++ str_int (bar_module o))
                 ++ String "," (str_int (bar_ratio o) ++ ","
                                ++ str_int (bar_height o))).
  set (symbol := "^B" ++ code ++ String "," rest).
  set (field := "^FD" ++ text o ++ "^FS").
  assert (Ucode : string_forall is_upper_or_digit code = true /\ code <> "").
  { cbn [In] in Hcode.
    repeat match type of Hcode with
           | _ \/ _ => destruct Hcode as [<-|Hcode]
           end; try contradiction; split; (reflexivity || discriminate). }
  destruct Ucode as (Ucode & Ncode).
  assert (Umod : string_forall is_upper_or_digit ("Y" ++ str_int (bar_module o))
                 = true).
  { cbn [String.append string_forall].
    now rewrite (digit_upper_or_digit_all _ (digits_run _ Dm)). }
  assert (Npos : string_forall not_nl position = true)
    by (apply nonspace_not_nl_all; subst position; solve_nonspace).
  assert (Nmod : string_forall not_nl module = true)
    by (apply nonspace_not_nl_all; subst module; solve_nonspace).
  assert (Nsym : string_forall not_nl symbol = true).
  { apply nonspace_not_nl_all; subst symbol.
    cbn [String.append string_forall].
    rewrite string_forall_app, (upper_or_digit_nonspace_all _ Ucode).
    cbn [string_forall]. now rewrite Nrest. }
  assert (Nfield : string_forall not_nl field = true).
  { subst field. rewrite !string_forall_app, (field_not_nl_all _ Htx).
    reflexivity. }
  assert (Ppos : forall st, parse_line uuid4 st position = _)
    by (intros st; subst position;
        apply (parse_line_position uuid4 st _ _ (x o) (y o) Dx Dy);
        now apply int_of_str_int).
  assert (Pmod : forall st, parse_line uuid4 st module = _)
    by (intros st; subst module;
        apply (parse_line_symbol st _ _ Umod); [discriminate | solve_nonspace]).
  assert (Psym : forall st, parse_line uuid4 st symbol = _)
    by (intros st; subst symbol;
        apply (parse_line_symbol st _ _ Ucode Ncode Nrest)).
  assert (Pfield : forall st, parse_line uuid4 st field = _)
    by (intros st; subst field; apply (parse_line_field uuid4 st _ Htx)).
  set (head := if String.eqb (orientation settings) "Landscape"
               then ["^XA"; "^POI"] else ["^XA"]).
  assert (Nhead : Forall (fun l => string_forall not_nl l = true) head)
    by (subst head; destruct (String.eqb _ _); repeat constructor).
  assert (Phead : forall st, parse_lines uuid4 st head = Some st)
    by (intros st; subst head; destruct (String.eqb _ _); reflexivity).
  exists (unlines (head ++ [position; module; symbol; field; "^XZ"])).
  do 3 eexists. split; [|split].
  - unfold generate_zpl, skip_text_ids.
    cbn [collect_skip_text_ids encode_objects find].
    unfold duplicates_caption at 1. unfold encode_object. rewrite Hty.
    cbn [String.eqb Ascii.eqb Bool.eqb andb].
    rewrite Ex, Ey, Ew, Eh. cbv beta iota zeta. rewrite Ecmd.
    f_equal. rewrite unlines_app. subst head position module symbol field.
    destruct (String.eqb _ _); cbn [unlines]; norm_app;
      now rewrite ?sapp_nil_r.
  - unfold parse_zpl_file.
    rewrite split_lines_unlines_lines
      by (repeat (apply Forall_app; split); try assumption;
          repeat constructor; assumption).
    rewrite <- !List.app_assoc, parse_lines_app, Phead. cbv beta iota.
    cbn [app parse_lines].
    rewrite Ppos; cbv beta iota. rewrite Pmod; cbv beta iota.
    rewrite Psym; cbv beta iota. rewrite Pfield; cbv beta iota.
    rewrite !(parse_line_unrecognized uuid4) by reflexivity.
    cbv beta iota. cbn. rewrite Nat.add_comm. reflexivity.
  - cbn. repeat split; try reflexivity; try assumption.
    + repeat constructor.
    + repeat constructor.
Qed.

End BarcodeReimport.

Lemma barcode_reimport_witness :
  exists out b1 b2 t,
    generate_zpl default_settings [caption_barcode] = Some out
    /\ parse_zpl_file uuid_seq 0 out = Some ([b1; b2; t], (0 + 3)%nat)
    /\ obj_type b1 = "barcode"
    /\ barcode_type b1 = "Y" ++ str_int (bar_module caption_barcode)
    /\ obj_type b2 = "barcode"
    /\ In (barcode_type b2) ["CN"; "3N"; "AN"; "2N"; "EN"; "UN"]
    /\ Forall (fun b => width b = 120 /\ height b = 60 /\ text b = "") [b1; b2]
    /\ obj_type t = "text" /\ text t = text caption_barcode
    /\ Forall (fun o' => x o' = x caption_barcode /\ y o' = y caption_barcode)
         [b1; b2; t].
Proof.
  apply (barcode_reimport uuid_seq 0 default_settings caption_barcode);
    first [reflexivity | simpl; lia | simpl; tauto].
Defined.

(** ** Validation of the encoder's output *)

(** The two tests on the markers never fail on the text of the encoder. *)
Lemma validate_zpl_shape (settings : LabelSettings) (objs : list ZPLObject) :
  match generate_zpl settings objs with
  | Some out =>
      negb (startswith out "^XA") = false
      /\ negb (endswith out ("^XZ" ++ nl)) = false
  | None => True
  end.
Proof.
  destruct (generate_zpl settings objs) as [out|] eqn:E; [|exact I].
  destruct (generate_zpl_shape _ _ _ E) as (body & ->).
  replace (startswith ("^XA" ++ nl ++ body ++ "^XZ" ++ nl) "^XA") with true
    by (symmetry; apply startswith_app).
  replace (endswith ("^XA" ++ nl ++ body ++ "^XZ" ++ nl) ("^XZ" ++ nl))
    with true.
  2:{ symmetry.
      replace ("^XA" ++ nl ++ body ++ "^XZ" ++ nl)
        with (("^XA" ++ nl ++ body) ++ "^XZ" ++ nl) by now norm_app.
      apply endswith_app. }
  now split.
Qed.

(** X8. The validation never finds an error in what the encoder returns:
    the two checks on the markers [^XA] and [^XZ] cannot fail, whatever the
    scene and the label, and the error box is shown only when the encoder
    itself raises. *)
Theorem validate_zpl_no_errors (settings : LabelSettings)
  (objs : list ZPLObject) :
  match validate_zpl settings objs with
  | Some (errors, _) => errors = []
  | None => generate_zpl settings objs = None
  end
  /\ (validation_dialog (validate_zpl settings objs) = ShowError
      <-> generate_zpl settings objs = None).
Proof.
  pose proof (validate_zpl_shape settings objs) as N.
  unfold validate_zpl.
  destruct (generate_zpl settings objs) as [out|] eqn:E; cbv beta iota zeta.
  - destruct N as (-> & ->). cbn [app]. split; [reflexivity|].
    unfold validation_dialog.
    destruct (_ ++ _)%list; split; discriminate.
  - split; [reflexivity|]. split; reflexivity.
Qed.

Lemma prefix_nil (s : string) : String.prefix "" s = true.
Proof. now destruct s. Qed.

Lemma count_hit (sub : string) (c : ascii) (s : string) :
  String.prefix sub (String c s) = true ->
  count_from sub 0 (String c s)
  = S (count_from sub (String.length sub - 1) s).
Proof. intros H. cbn [count_from]. now rewrite H. Qed.

Lemma count_miss (sub : string) (c : ascii) (s : string) :
  String.prefix sub (String c s) = false ->
  count_from sub 0 (String c s) = count_from sub 0 s.
Proof. intros H. cbn [count_from]. now rewrite H. Qed.

Lemma count_skip (sub : string) (k : nat) (c : ascii) (s : string) :
  count_from sub (S k) (String c s) = count_from sub k s.
Proof. reflexivity. Qed.

(** No occurrence of a command starts in a run without caret. *)
Lemma count_free (old d s : string) :
  string_forall field_char d = true ->
  count_from (String "^" old) 0 (d ++ s) = count_from (String "^" old) 0 s.
Proof.
  induction d as [|c d IH]; intros H; [reflexivity|].
  cbn [string_forall] in H. apply andb_prop in H. destruct H as [Hc Hd].
  unfold field_char in Hc. apply andb_prop in Hc. destruct Hc as [Hc _].
  apply negb_true_iff in Hc.
  cbn [String.append]. rewrite count_miss by now apply prefix_caret_false.
  now apply IH.
Qed.

Lemma digit_field_char (c : ascii) : is_digit c = true -> field_char c = true.
Proof.
  destruct c as [[] [] [] [] [] [] [] []]; intros H;
    try discriminate H; reflexivity.
Qed.

Lemma upper_or_digit_field_char (c : ascii) :
  is_upper_or_digit c = true -> field_char c = true.
Proof.
  destruct c as [[] [] [] [] [] [] [] []]; intros H;
    try discriminate H; reflexivity.
Qed.

Lemma digits_field (d : string) :
  digits d = true -> string_forall field_char d = true.
Proof.
  intros H. apply digits_run in H.
  eapply string_forall_impl; [exact digit_field_char | exact H].
Qed.

Ltac solve_prefix :=
  cbn; first [reflexivity | apply prefix_nil].

Lemma prefix_empty_field (c : ascii) (s : string) :
  field_char c = true ->
  String.prefix "^FD^FS" (String "^" (String "F" (String "D" (String c s))))
  = false.
Proof.
  intros H. unfold field_char in H. apply andb_prop in H. destruct H as [H _].
  apply negb_true_iff in H.
  change (String.prefix "^FD^FS"
            (String "^" (String "F" (String "D" (String c s)))))
    with (String.prefix "^FS" (String c s)).
  now apply prefix_caret_false.
Qed.

Lemma count_field_char (old : string) (c : ascii) (s : string) :
  field_char c = true ->
  count_from (String "^" old) 0 (String c s) = count_from (String "^" old) 0 s.
Proof.
  intros H. apply (count_free old (String c "") s).
  cbn [string_forall]. now rewrite H.
Qed.

Ltac count_steps :=
  repeat first
    [ rewrite count_free by assumption
    | rewrite count_field_char by assumption
    | rewrite count_skip
    | rewrite count_hit by solve_prefix; cbn [String.length Nat.sub]
    | rewrite count_miss by solve_prefix
    | rewrite count_miss by (apply prefix_empty_field; assumption) ].

(** What an exportable object with a content adds to the three counts of
    the validation. *)
Lemma encode_object_counts (o : ZPLObject) :
  exportable o = true ->
  (obj_type o = "text" -> text o <> "") ->
  exists body,
    (forall zpl, encode_object [] zpl o = Some (zpl ++ body))
    /\ forall rest,
         count (body ++ rest) "^FO" = S (count rest "^FO")
         /\ count (body ++ rest) "^FS" = S (count rest "^FS")
         /\ count (body ++ rest) "^FD^FS" = count rest "^FD^FS".
Proof.
  intros H Hne.
  destruct (exportable_cases o H)
    as ((Hx & Ex) & (Hy & Ey) & (Hw & Ew) & (Hh & Eh) & C).
  pose proof (digits_field _ (str_int_digits _ Hx)) as Dx.
  pose proof (digits_field _ (str_int_digits _ Hy)) as Dy.
  pose proof (digits_field _ (str_int_digits _ Hw)) as Dw.
  pose proof (digits_field _ (str_int_digits _ Hh)) as Dh.
  unfold count.
  destruct C as [(Hty & (c & Hft & Hc) & Hfs & Htx)
                |[(Hty & Ht)|[(Hty & Ht)|Hty]]].
  - (* text *)
    pose proof (digits_field _ Hfs) as Df.
    pose proof (upper_or_digit_field_char c Hc) as Fc.
    specialize (Hne Hty).
    destruct (text o) as [|a t] eqn:Et; [now elim Hne|].
    cbn [string_forall] in Htx. apply andb_prop in Htx.
    destruct Htx as [Fa Ft].
    eexists. split.
    + intros zpl. unfold encode_object. rewrite Hty, Ex, Ey, Ew, Eh, Hft, Et.
      cbn [String.eqb Ascii.eqb Bool.eqb andb in_ids existsb].
      cbv beta iota zeta.
      instantiate (1 := "^FO" ++ str_int (x o) ++ "," ++ str_int (y o) ++ nl
                        ++ "^A" ++ String c "" ++ ",N," ++ font_size o ++ ","
                        ++ font_size o ++ nl
                        ++ (if negb (rotation o =? 0) then "^FWR" ++ nl else "")
                        ++ "^FD" ++ String a t ++ "^FS" ++ nl).
      destruct (negb (rotation o =? 0)); f_equal; now norm_app.
    + intros rest.
      destruct (negb (rotation o =? 0)); unfold nl; norm_app;
        repeat split; count_steps; reflexivity.
  - (* rectangle *)
    pose proof (digits_field _ (str_int_digits _ Ht)) as Dt.
    eexists. split.
    + intros zpl. unfold encode_object. rewrite Hty, Ex, Ey, Ew, Eh.
      cbn [String.eqb Ascii.eqb Bool.eqb andb in_ids existsb].
      cbv beta iota zeta.
      instantiate (1 := "^FO" ++ str_int (x o) ++ "," ++ str_int (y o) ++ nl
                        ++ "^GB" ++ str_int (width o) ++ ","
                        ++ str_int (height o) ++ ","
                        ++ str_int (thickness o) ++ "^FS" ++ nl).
      f_equal; now norm_app.
    + intros rest. unfold nl; norm_app; repeat split; count_steps; reflexivity.
  - (* circle *)
    pose proof (digits_field _ (str_int_digits _ Ht)) as Dt.
    assert (Hm : 0 <= Z.min (width o) (height o)) by lia.
    pose proof (digits_field _ (str_int_digits _ Hm)) as Dm.
    eexists. split.
    + intros zpl. unfold encode_object. rewrite Hty, Ex, Ey, Ew, Eh.
      cbn [String.eqb Ascii.eqb Bool.eqb andb in_ids existsb].
      cbv beta iota zeta.
      instantiate (1 := "^FO" ++ str_int (x o) ++ "," ++ str_int (y o) ++ nl
                        ++ "^GC" ++ str_int (Z.min (width o) (height o)) ++ ","
                        ++ str_int (thickness o) ++ "^FS" ++ nl).
      f_equal; now norm_app.
    + intros rest. unfold nl; norm_app; repeat split; count_steps; reflexivity.
  - (* line *)
    assert (Hl : 0 <= Z.max 1 (line_thickness o)) by lia.
    pose proof (digits_field _ (str_int_digits _ Hl)) as Dl.
    eexists. split.
    + intros zpl. unfold encode_object. rewrite Hty, Ex, Ey, Ew, Eh.
      cbn [String.eqb Ascii.eqb Bool.eqb andb in_ids existsb].
      cbv beta iota zeta.
      instantiate (1 := "^FO" ++ str_int (x o) ++ "," ++ str_int (y o) ++ nl
                        ++ (if height o <? width o
                            then "^GB" ++ str_int (width o) ++ ","
                                 ++ str_int (Z.max 1 (line_thickness o))
                                 ++ ",B^FS" ++ nl
                            else "^GB" ++ str_int (Z.max 1 (line_thickness o))
                                 ++ "," ++ str_int (height o)
                                 ++ ",B^FS" ++ nl)).
      destruct (height o <? width o); f_equal; now norm_app.
    + intros rest.
      destruct (height o <? width o); unfold nl; norm_app;
        repeat split; count_steps; reflexivity.
Qed.

Lemma encode_objects_counts (objs : list ZPLObject) :
  forallb printable objs = true ->
  exists body,
    (forall zpl, encode_objects [] zpl objs = Some (zpl ++ body))
    /\ forall rest,
         count (body ++ rest) "^FO" = (length objs + count rest "^FO")%nat
         /\ count (body ++ rest) "^FS" = (length objs + count rest "^FS")%nat
         /\ count (body ++ rest) "^FD^FS" = count rest "^FD^FS".
Proof.
  induction objs as [|o objs IH]; intros H.
  - exists "". split.
    + intros zpl. cbn. now rewrite sapp_nil_r.
    + intros rest. repeat split.
  - cbn [forallb] in H. apply andb_prop in H. destruct H as [Ho Hr].
    unfold printable in Ho. apply andb_prop in Ho. destruct Ho as [He Hn].
    assert (Hne : obj_type o = "text" -> text o <> "").
    { intros Hty Htx. rewrite Hty, Htx in Hn. discriminate Hn. }
    destruct (encode_object_counts o He Hne) as (b1 & E1 & C1).
    destruct (IH Hr) as (b2 & E2 & C2).
    exists (b1 ++ b2). split.
    + intros zpl. cbn [encode_objects]. rewrite E1. cbv beta iota.
      rewrite E2. now rewrite sapp_assoc.
    + intros rest. rewrite sapp_assoc.
      destruct (C1 (b2 ++ rest)) as (A1 & A2 & A3).
      destruct (C2 rest) as (B1 & B2 & B3).
      rewrite A1, A2, A3, B1, B2, B3. cbn [length]. repeat split; lia.
Qed.

(** X9. The validation accepts every scene of exportable objects none of
    which is a text without content: as many [^FO] as [^FS] are counted, no
    empty field is found, neither list receives an entry, and the box shown
    is the one that reports a valid code. *)
Theorem validate_zpl_accepts (settings : LabelSettings)
  (objs : list ZPLObject) :
  forallb printable objs = true ->
  validate_zpl settings objs = Some ([], [])
  /\ validation_dialog (validate_zpl settings objs) = ShowInfo.
Proof.
  intros H.
  destruct (encode_objects_counts objs H) as (body & E & C).
  assert (S : skip_text_ids objs = []).
  { unfold skip_text_ids. apply collect_skip_no_barcode.
    apply Forall_forall. intros o Ho. apply exportable_not_barcode.
    rewrite forallb_forall in H. specialize (H o Ho).
    unfold printable in H. apply andb_prop in H. now destruct H. }
  destruct (C ("^XZ" ++ nl)) as (A1 & A2 & A3).
  assert (V : validate_zpl settings objs = Some ([], [])).
  { pose proof (validate_zpl_shape settings objs) as N.
    unfold validate_zpl in *. unfold generate_zpl in *. rewrite S, E in *.
    cbv beta iota zeta in *.
    destruct N as (-> & ->).
    set (z := if String.eqb (orientation settings) "Landscape"
              then ("^XA" ++ nl) ++ "^POI" ++ nl else "^XA" ++ nl).
    assert (K : forall sub n,
               In sub ["^FO"; "^FS"; "^FD^FS"] ->
               count (body ++ "^XZ" ++ nl) sub = n ->
               count ((z ++ body) ++ "^XZ" ++ nl) sub = n).
    { intros sub n Hs <-. subst z. unfold count, nl.
      cbn [In] in Hs.
      destruct (String.eqb _ _);
        repeat match type of Hs with
               | _ \/ _ => destruct Hs as [<-|Hs]
               end; try contradiction; norm_app; count_steps; reflexivity. }
    rewrite (K "^FO" _ (or_introl eq_refl) A1).
    rewrite (K "^FS" _ (or_intror (or_introl eq_refl)) A2).
    rewrite (K "^FD^FS" _ (or_intror (or_intror (or_introl eq_refl))) A3).
    rewrite Nat.eqb_refl. reflexivity. }
  rewrite V. split; reflexivity.
Qed.

Lemma validate_zpl_accepts_witness :
  validate_zpl default_settings sample_scene = Some ([], [])
  /\ validation_dialog (validate_zpl default_settings sample_scene) = ShowInfo.
Proof.
  assert (H : forallb printable sample_scene = true)
    by (vm_compute; reflexivity).
  exact (validate_zpl_accepts default_settings sample_scene H).
Defined.

(** ** Snapping to the grid *)

Lemma round_div_nearest (a g : Z) :
  g <> 0 ->
  exists k, round_div a g = Some k
            /\ 2 * Z.abs (k * g - a) <= Z.abs g
            /\ forall m, round_div (m * g) g = Some m.
Proof.
  intros Hg. unfold round_div.
  destruct (Z.eqb_spec g 0) as [E|_]; [contradiction|].
  eexists. split; [reflexivity|]. split.
  - set (n := if g <? 0 then - a else a).
    assert (Hd : 0 < Z.abs g) by lia.
    pose proof (Z.div_mod n (Z.abs g) ltac:(lia)) as D.
    pose proof (Z.mod_pos_bound n (Z.abs g) Hd) as B.
    set (q := n / Z.abs g) in *. set (r := n mod Z.abs g) in *.
    assert (N : n = - a /\ g < 0 \/ n = a /\ 0 < g).
    { unfold n. destruct (Z.ltb_spec g 0); [left | right]; lia. }
    destruct (Z.ltb_spec (2 * r) (Z.abs g));
      [|destruct (Z.ltb_spec (Z.abs g) (2 * r));
        [|destruct (Z.even q)]];
      destruct N as [(N & S)|(N & S)]; nia.
  - intros m.
    set (n := if g <? 0 then - (m * g) else m * g).
    assert (N : n = m * Z.abs g).
    { unfold n. destruct (Z.ltb_spec g 0); nia. }
    rewrite N, Z.div_mul, Z.mod_mul by lia.
    destruct (Z.ltb_spec (2 * 0) (Z.abs g)); [reflexivity | lia].
Qed.

(** X10. With snapping enabled and a grid size other than zero,
    [snap_to_grid] returns the point of the grid nearest to the one it is
    given: both coordinates are multiples of the grid size, neither is
    farther than half a grid step from the coordinate it replaces, and a
    point of the grid is left where it is.  The coordinates are taken
    small enough for the float quotient of the source to round as the exact
    quotient does. *)
Theorem snap_to_grid_nearest (s : LabelSettings) (px py : Z) :
  snap_to_grid_enabled s = true ->
  grid_size s <> 0 ->
  Z.abs px + Z.abs (grid_size s) < 2 ^ 52 ->
  Z.abs py + Z.abs (grid_size s) < 2 ^ 52 ->
  exists sx sy,
    snap_to_grid s px py = Some (sx, sy)
    /\ (grid_size s | sx) /\ (grid_size s | sy)
    /\ 2 * Z.abs (sx - px) <= Z.abs (grid_size s)
    /\ 2 * Z.abs (sy - py) <= Z.abs (grid_size s)
    /\ snap_to_grid s sx sy = Some (sx, sy).
Proof.
  intros He Hg _ _. unfold snap_to_grid. rewrite He. cbn [negb].
  destruct (round_div_nearest px (grid_size s) Hg) as (kx & Ex & Bx & Ix).
  destruct (round_div_nearest py (grid_size s) Hg) as (ky & Ey & By & Iy).
  rewrite Ex, Ey. cbv beta iota.
  exists (kx * grid_size s), (ky * grid_size s).
  split; [reflexivity|].
  split; [now exists kx|]. split; [now exists ky|].
  split; [exact Bx|]. split; [exact By|].
  now rewrite Ix, Iy.
Qed.

Lemma snap_to_grid_nearest_witness :
  exists sx sy,
    snap_to_grid grid_settings 47 53 = Some (sx, sy)
    /\ (grid_size grid_settings | sx) /\ (grid_size grid_settings | sy)
    /\ 2 * Z.abs (sx - 47) <= Z.abs (grid_size grid_settings)
    /\ 2 * Z.abs (sy - 53) <= Z.abs (grid_size grid_settings)
    /\ snap_to_grid grid_settings sx sy = Some (sx, sy).
Proof.
  apply (snap_to_grid_nearest grid_settings 47 53);
    first [reflexivity | discriminate | vm_compute; reflexivity].
Defined.

(** ** Project files *)

Section ProjectRoundTrip.

Variable uuid4 : nat -> string.
Variable measure_text : Z -> Q -> string -> string -> string -> option (Z * Z).

(** Objects that carry an identifier are loaded as they are, and no UUID is
    drawn. *)
Lemma load_objects_ids (l : list ZPLObject) (calls : nat) :
  forallb (fun o => negb (is_empty (id o))) l = true ->
  load_objects uuid4 calls l = (l, calls).
Proof.
  induction l as [|o l IH]; intros H; [reflexivity|].
  cbn [forallb] in H. apply andb_prop in H. destruct H as [Ho Hl].
  cbn [load_objects]. unfold post_init.
  apply negb_true_iff in Ho. rewrite Ho, (IH Hl). reflexivity.
Qed.

(** X11. A project saved and opened again gives back the scene and the
    label.  When the scene of [e] is drawn and every object of it carries an
    identifier, opening the file saved from [e], in any state of the editor
    that shows the same zoom, leaves the label settings and the objects of
    [e], field by field and in their order, with nothing selected and no
    UUID drawn.  (Whether the opened scene is committed depends on the
    redraw that precedes [save_state], and is left out.) *)
Theorem project_round_trip (e e' : ZPLEditor) :
  drawn measure_text e ->
  zoom e' = zoom e ->
  forallb (fun o => negb (is_empty (id o))) (scene e) = true ->
  let opened := import_project uuid4 measure_text (Some (save_project e)) e' in
  scene opened = scene e
  /\ label_settings opened = label_settings e
  /\ selected_object opened = None
  /\ uuid_calls opened = uuid_calls e'.
Proof.
  intros Hd Hz Hid. cbv zeta.
  unfold import_project, save_project.
  cbn [file_settings file_objects uuid_calls with_settings].
  rewrite (load_objects_ids _ _ Hid).
  set (e1 := with_selected None _).
  assert (S1 : scene (redraw_objects measure_text e1) = scene e).
  { rewrite scene_redraw. unfold e1, restore, scene.
    cbn [objects with_selected with_uuid_calls with_next_ref with_objects
           label_settings zoom with_settings].
    rewrite scene_alloc, Hz. exact Hd. }
  split; [exact S1|].
  split; [reflexivity|]. split; reflexivity.
Qed.

End ProjectRoundTrip.

Lemma project_round_trip_witness :
  let e := run uuid_seq measure_mono init drag_history in
  let opened :=
    import_project uuid_seq measure_mono (Some (save_project e)) init in
  scene opened = scene e
  /\ label_settings opened = label_settings e
  /\ selected_object opened = None
  /\ uuid_calls opened = uuid_calls init.
Proof.
  assert (Hid : forallb (fun o => negb (is_empty (id o)))
                  (scene (run uuid_seq measure_mono init drag_history)) = true)
    by (vm_compute; reflexivity).
  assert (Hz : zoom init = zoom (run uuid_seq measure_mono init drag_history))
    by (vm_compute; reflexivity).
  exact (project_round_trip uuid_seq measure_mono
           (run uuid_seq measure_mono init drag_history) init
           (run_drawn uuid_seq measure_mono drag_history init
              (init_drawn measure_mono)) Hz Hid).
Defined.

Lemma export_stable_witness :
  exists out objs',
    generate_zpl default_settings stable_scene = Some out
    /\ parse_zpl_file uuid_seq 0 out
       = Some (objs', (0 + length stable_scene)%nat)
    /\ generate_zpl default_settings objs' = Some out.
Proof.
  assert (H : forallb stable stable_scene = true)
    by (vm_compute; reflexivity).
  exact (export_stable uuid_seq 0 default_settings stable_scene H).
Defined.

(** ** What holds in every state of a session *)

Section Session.

Variable uuid4 : nat -> string.
Variable measure_text : Z -> Q -> string -> string -> string -> option (Z * Z).

Ltac unfold_handlers :=
  unfold add_object, delete_selected, clear_all, on_canvas_click,
    on_canvas_drag, on_canvas_release, edit_property, apply_changes,
    copy_object, paste_object, bring_forward, send_backward,
    new_project, import_project, import_zpl_file, undo, redo,
    apply_label_settings, select_object.

Ltac break_handler :=
  repeat match goal with
         | |- context [match ?t with _ => _ end] => destruct t eqn:?
         end.

(** X13. No handler leaves the selection stale.  Whatever the event, a
    project being opened apart, if [selected_object] is empty or refers to
    an object of the list before the handler runs, it is empty or refers to
    an object of the list after it: every handler that empties or replaces
    the list resets the selection first, and every handler that selects an
    object selects one of the list.  (A project file that the constructor
    of [ZPLObject] rejects half way is the exception:
    [import_project_rejected] refills the list and leaves the selection as
    it was.) *)
Theorem selection_stays_live (e : ZPLEditor) (ev : Event) :
  (forall f, ev <> ImportProject f) ->
  selection_live e ->
  match selected_object (handle uuid4 measure_text e ev) with
  | Some r =>
      exists v, lookup_ref r (objects (handle uuid4 measure_text e ev)) = Some v
  | None => True
  end.
Proof.
  intros _ H.
  pose proof (handle_selection_live uuid4 measure_text e ev H) as L.
  unfold selection_live in L.
  destruct (selected_object (handle uuid4 measure_text e ev)) as [r|];
    [|exact I].
  exact (lookup_ref_live _ _ L).
Qed.

Lemma handle_zoom (e : ZPLEditor) (ev : Event) :
  (forall v, ev <> SetZoom v) ->
  zoom (handle uuid4 measure_text e ev) = zoom e.
Proof.
  intros N. destruct ev; cbn [handle]; unfold_handlers; break_handler;
    try reflexivity.
  now elim (N v).
Qed.

Lemma set_zoom_range (v : Q) (e : ZPLEditor) :
  Qle_bool zoom_min (zoom (set_zoom measure_text v e)) = true
  /\ Qle_bool (zoom (set_zoom measure_text v e)) zoom_max = true.
Proof.
  unfold set_zoom, Qlt_bool. cbn [zoom redraw_objects with_objects with_zoom].
  destruct (Qle_bool zoom_max v) eqn:A; cbn [negb].
  - replace (Qle_bool zoom_max zoom_min) with false by reflexivity.
    cbn [negb]. split; reflexivity.
  - destruct (Qle_bool v zoom_min) eqn:B; cbn [negb].
    + split; reflexivity.
    + split; apply Qle_bool_iff, Qlt_le_weak, Qnot_le_lt; intros C;
        apply Qle_bool_iff in C; congruence.
Qed.

(** X15. The zoom stays between 20% and 500%: in every state the editor
    reaches, [zoom] lies between the float 0.2 and 5, whatever values
    [set_zoom] is called with. *)
Theorem zoom_in_range (evs : list Event) :
  let e := run uuid4 measure_text init evs in
  Qle_bool zoom_min (zoom e) = true /\ Qle_bool (zoom e) zoom_max = true.
Proof.
  cbv zeta.
  assert (G : forall e,
             Qle_bool zoom_min (zoom e) = true
             /\ Qle_bool (zoom e) zoom_max = true ->
             Qle_bool zoom_min (zoom (run uuid4 measure_text e evs)) = true
             /\ Qle_bool (zoom (run uuid4 measure_text e evs)) zoom_max = true).
  { induction evs as [|ev evs IH]; intros e H; [exact H|].
    cbn [run fold_left]. apply IH.
    destruct ev; try (rewrite handle_zoom by discriminate; exact H).
    apply set_zoom_range. }
  apply G. split; reflexivity.
Qed.

End Session.

Lemma selection_stays_live_witness :
  match selected_object
          (handle uuid_seq measure_mono
             (run uuid_seq measure_mono init [AddObject "text"]) DeleteSelected)
  with
  | Some r =>
      exists v,
        lookup_ref r
          (objects
             (handle uuid_seq measure_mono
                (run uuid_seq measure_mono init [AddObject "text"])
                DeleteSelected)) = Some v
  | None => True
  end.
Proof.
  assert (N : forall f, DeleteSelected <> ImportProject f) by discriminate.
  exact (selection_stays_live uuid_seq measure_mono
           (run uuid_seq measure_mono init [AddObject "text"]) DeleteSelected
           N (run_selection_live uuid_seq measure_mono [AddObject "text"])).
Defined.

(** ** Picking, dragging and deleting *)

Lemma find_rev_last {A : Type} (f : A -> bool) (l : list A) :
  match find f (rev l) with
  | Some p =>
      exists before after,
        l = (before ++ p :: after)%list /\ f p = true
        /\ forallb (fun q => negb (f q)) after = true
  | None => forallb (fun q => negb (f q)) l = true
  end.
Proof.
  induction l as [|a l IH] using rev_ind; [reflexivity|].
  rewrite rev_app_distr. cbn [rev app find].
  destruct (f a) eqn:Fa.
  - exists l, []. now repeat split.
  - destruct (find f (rev l)) as [p|].
    + destruct IH as (before & after & -> & Fp & Hafter).
      exists before, (after ++ [a])%list. rewrite <- List.app_assoc.
      split; [reflexivity|]. split; [exact Fp|].
      rewrite forallb_app, Hafter. cbn. now rewrite Fa.
    + rewrite forallb_app, IH. cbn. now rewrite Fa.
Qed.

Section Pointer.

Variable measure_text : Z -> Q -> string -> string -> string -> option (Z * Z).

(** The flags [select_object] leaves. *)
Lemma select_object_flags (target : option ref) (e : ZPLEditor) :
  let e' := select_object measure_text target e in
  selected_object e' = target
  /\ map fst (objects e') = map fst (objects e)
  /\ map (fun p => selected (snd p)) (objects e')
     = map (fun p => match target with
                     | Some r => Nat.eqb r (fst p)
                     | None => false
                     end) (objects e).
Proof.
  cbv zeta. unfold select_object, redraw_objects.
  cbn [selected_object objects with_objects with_selected label_settings zoom].
  split; [reflexivity|].
  generalize (label_settings e), (zoom e). intros s z.
  destruct target as [r|]; unfold update_ref; rewrite !map_map; cbn [fst snd];
    split; apply map_ext; intros [r' o]; cbn [fst snd];
    try destruct (Nat.eqb r r'); cbn [fst snd]; try reflexivity;
    match goal with
    | |- selected (draw_object _ ?s ?z ?o) = _ =>
        destruct (draw_object_fields measure_text s z o)
          as (_ & _ & _ & _ & _ & _ & -> & _); reflexivity
    end.
Qed.

(** X16. A click selects the topmost object under the pointer.  When the
    click leaves a selection, the selected object contains the point and no
    object after it in the list (drawn above it) does; when it leaves none,
    no object contains the point and the dragged item is as it was.  In
    both cases the objects keep their order, and the flag [selected] is set
    on the selected object and cleared on every other.  (Whether the
    selected object also becomes the dragged item depends on the redraw of
    [select_object], and is not stated.) *)
Theorem click_selects_topmost (px py : Q) (e : ZPLEditor) :
  let e' := on_canvas_click measure_text px py e in
  match selected_object e' with
  | Some r =>
      exists before o after,
        objects e = (before ++ (r, o) :: after)%list
        /\ hit px py (r, o) = true
        /\ forallb (fun p => negb (hit px py p)) after = true
  | None =>
      drag_item e' = drag_item e
      /\ forallb (fun p => negb (hit px py p)) (objects e) = true
  end
  /\ map fst (objects e') = map fst (objects e)
  /\ map (fun p => selected (snd p)) (objects e')
     = map (fun p => match selected_object e' with
                     | Some r => Nat.eqb r (fst p)
                     | None => false
                     end) (objects e).
Proof.
  cbv zeta. unfold on_canvas_click.
  pose proof (find_rev_last (hit px py) (objects e)) as F.
  destruct (find (hit px py) (rev (objects e))) as [[r o]|].
  - destruct (select_object_flags (Some r) e) as (Hs & Hr & Hf).
    cbn [fst selected_object drag_item objects with_drag_item].
    rewrite Hs. split; [|split; assumption].
    destruct F as (before & after & E & Hh & Ha). now exists before, o, after.
  - destruct (select_object_flags None e) as (Hs & Hr & Hf).
    rewrite Hs. split; [|split; assumption].
    split; [reflexivity | exact F].
Qed.

End Pointer.

Section Dragging.

Variable measure_text : Z -> Q -> string -> string -> string -> option (Z * Z).

(** Moving an object and drawing it commute: the rendering of a text does
    not depend on where it stands. *)
Lemma draw_object_moved (s : LabelSettings) (z : Q) (nx ny : Z) (o : ZPLObject) :
  draw_object measure_text s z (set_y ny (set_x nx o))
  = set_y ny (set_x nx (draw_object measure_text s z o)).
Proof.
  unfold draw_object, has_type. cbn [obj_type set_x set_y font_size font_type text].
  destruct (String.eqb (obj_type o) "text"); [|reflexivity].
  destruct (measure_text _ _ _ _ _) as [[w h]|]; reflexivity.
Qed.

Lemma lookup_update_ref (r r' : ref) (f : ZPLObject -> ZPLObject)
  (l : list (ref * ZPLObject)) :
  lookup_ref r' (update_ref r f l)
  = if Nat.eqb r r' then option_map f (lookup_ref r' l) else lookup_ref r' l.
Proof.
  unfold update_ref. induction l as [|[q o] l IH]; cbn [map lookup_ref fst snd].
  - now destruct (Nat.eqb r r').
  - destruct (Nat.eqb r q) eqn:A; cbn [lookup_ref];
      destruct (Nat.eqb r' q) eqn:B; rewrite ?IH;
      destruct (Nat.eqb r r') eqn:C; try reflexivity;
      apply Nat.eqb_eq in A || apply Nat.eqb_neq in A;
      apply Nat.eqb_eq in B || apply Nat.eqb_neq in B;
      apply Nat.eqb_eq in C || apply Nat.eqb_neq in C;
      subst; congruence.
Qed.

(** X17. A drag moves the dragged object and nothing else.  When the scene
    is drawn and the snapped target of the move is [(nx, ny)], the handler
    sets [x] and [y] of the dragged object to it; every other field of the
    object, every other object, the order of the list, the selection, the
    clipboard, the label, the zoom and both history stacks stay as they
    are: the move is committed only by the release. *)
Theorem drag_moves_only_dragged (dx dy nx ny : Z) (r : ref) (o : ZPLObject)
  (e : ZPLEditor) :
  drawn measure_text e ->
  drag_item e = Some r ->
  lookup_ref r (objects e) = Some o ->
  snap_to_grid (label_settings e) (x o + dx) (y o + dy) = Some (nx, ny) ->
  let e' := on_canvas_drag measure_text dx dy e in
  e' = with_objects
         (update_ref r (fun v => set_y ny (set_x nx v)) (objects e)) e
  /\ lookup_ref r (objects e') = Some (set_y ny (set_x nx o))
  /\ (forall r', r' <> r ->
        lookup_ref r' (objects e') = lookup_ref r' (objects e))
  /\ undo_stack e' = undo_stack e /\ redo_stack e' = redo_stack e.
Proof.
  intros Hd Hi Hl Hs. cbv zeta. unfold on_canvas_drag. rewrite Hi, Hl, Hs.
  assert (E : redraw_objects measure_text
                (with_objects
                   (update_ref r (fun v => set_y ny (set_x nx v)) (objects e)) e)
              = with_objects
                  (update_ref r (fun v => set_y ny (set_x nx v)) (objects e)) e).
  { clear Hl Hs Hi.
    assert (M : map (fun p => (fst p,
                       draw_object measure_text (label_settings e) (zoom e)
                         (snd p)))
                  (update_ref r (fun v => set_y ny (set_x nx v)) (objects e))
                = update_ref r (fun v => set_y ny (set_x nx v)) (objects e)).
    { unfold drawn, scene in Hd. revert Hd.
      generalize (label_settings e), (zoom e). intros s z.
      unfold update_ref. induction (objects e) as [|[q v] l IH]; intros Hd;
        [reflexivity|].
      cbn [map fst snd] in *. injection Hd as D1 D2. rewrite (IH D2).
      destruct (Nat.eqb r q); cbn [fst snd];
        rewrite ?draw_object_moved, D1; reflexivity. }
    unfold redraw_objects.
    cbn [objects with_objects label_settings zoom]. rewrite M.
    reflexivity. }
  rewrite E. cbn [objects with_objects undo_stack redo_stack].
  split; [reflexivity|]. split; [|split; [|split; reflexivity]].
  - rewrite lookup_update_ref, Nat.eqb_refl, Hl. reflexivity.
  - intros r' N. rewrite lookup_update_ref.
    destruct (Nat.eqb_spec r r'); [congruence | reflexivity].
Qed.

End Dragging.

Lemma drag_moves_only_dragged_witness :
  let e := run uuid_seq measure_mono init
             [AddObject "text"; CanvasClick (60 # 1) (60 # 1)] in
  let e' := on_canvas_drag measure_mono 5 7 e in
  e' = with_objects
         (update_ref 0%nat (fun v => set_y 57 (set_x 55 v)) (objects e)) e
  /\ lookup_ref 0%nat (objects e')
     = Some (set_y 57
               (set_x 55
                  (set_selected true
                     (set_height 20
                        (set_width 84
                           (set_id (take 8 (uuid_seq 0))
                              (new_object "text" 50 50 100 30 "Esempio")))))))
  /\ (forall r', r' <> 0%nat ->
        lookup_ref r' (objects e') = lookup_ref r' (objects e))
  /\ undo_stack e' = undo_stack e /\ redo_stack e' = redo_stack e.
Proof.
  apply (drag_moves_only_dragged measure_mono 5 7 55 57 0%nat
           (set_selected true
              (set_height 20
                 (set_width 84
                    (set_id (take 8 (uuid_seq 0))
                       (new_object "text" 50 50 100 30 "Esempio")))))
           (run uuid_seq measure_mono init
              [AddObject "text"; CanvasClick (60 # 1) (60 # 1)])).
  - apply run_drawn. apply init_drawn.
  - vm_compute. reflexivity.
  - vm_compute. reflexivity.
  - vm_compute. reflexivity.
Defined.

(** The [==] of the dataclass is equality of all fields. *)
Lemma ZPLObject_eqb_eq (a b : ZPLObject) : ZPLObject_eqb a b = true <-> a = b.
Proof.
  split.
  - unfold ZPLObject_eqb. intros H.
    repeat match type of H with
           | (_ && _)%bool = true =>
               let K := fresh "K" in
               apply andb_prop in H; destruct H as [H K]
           end.
    repeat match goal with
           | K : String.eqb _ _ = true |- _ => apply String.eqb_eq in K
           | K : Z.eqb _ _ = true |- _ => apply Z.eqb_eq in K
           | K : Bool.eqb _ _ = true |- _ => apply Bool.eqb_prop in K
           end.
    destruct a, b; cbn [obj_type x y width height text font_size font_type
                          rotation thickness barcode_type line_thickness
                          selected id bar_module bar_ratio bar_height
                          hri_above] in *.
    subst. reflexivity.
  - intros <-. unfold ZPLObject_eqb.
    rewrite !String.eqb_refl, !Z.eqb_refl, !Bool.eqb_reflx. reflexivity.
Qed.

Lemma py_remove_split (r : ref) (v : ZPLObject) (l l' : list (ref * ZPLObject)) :
  py_remove r v l = Some l' ->
  exists before p after,
    l = (before ++ p :: after)%list
    /\ same_object r v p = true
    /\ forallb (fun q => negb (same_object r v q)) before = true
    /\ l' = (before ++ after)%list.
Proof.
  revert l'. induction l as [|p l IH]; intros l' H; [discriminate|].
  cbn [py_remove] in H. destruct (same_object r v p) eqn:S.
  - injection H as <-. exists [], p, l. now repeat split.
  - destruct (py_remove r v l) as [l''|]; [|discriminate].
    injection H as <-.
    destruct (IH l'' eq_refl) as (before & q & after & -> & Sq & Hb & ->).
    exists (p :: before), q, after. repeat split; try assumption.
    cbn [forallb]. now rewrite S, Hb.
Qed.

Lemma py_remove_found (r : ref) (v : ZPLObject) (l : list (ref * ZPLObject)) :
  lookup_ref r l = Some v -> exists l', py_remove r v l = Some l'.
Proof.
  induction l as [|[q o] l IH]; [discriminate|].
  cbn [lookup_ref py_remove]. unfold same_object. cbn [fst snd].
  destruct (Nat.eqb r q); cbn [orb]; [now eexists|].
  intros H. destruct (ZPLObject_eqb o v); [now eexists|].
  destruct (IH H) as (l' & ->). now eexists.
Qed.

Lemma app_same_length {A : Type} (a a' b b' : list A) :
  length a = length a' -> (a ++ b = a' ++ b')%list -> a = a' /\ b = b'.
Proof.
  revert a'. induction a as [|h a IH]; intros [|h' a'] L E;
    try discriminate L.
  - now split.
  - cbn [app] in E. injection E as -> E. injection L as L.
    destruct (IH a' L E) as (-> & ->). now split.
Qed.

Section Deleting.

Variable measure_text : Z -> Q -> string -> string -> string -> option (Z * Z).

(** X18. Deleting removes one object, the first of the list that equals
    the selection.  In a state whose scene is drawn and that has a
    selection, [delete_selected] takes out of the scene the first object
    that is equal, field by field, to the selected one, keeps all others in
    their order and clears the selection.  (The commit that follows the
    redraw is not stated.) *)
Theorem delete_selected_removes (r : ref) (v : ZPLObject) (e : ZPLEditor) :
  drawn measure_text e ->
  selection e = Some (r, v) ->
  let e' := delete_selected measure_text e in
  exists before after,
    scene e = (before ++ v :: after)%list
    /\ ~ In v before
    /\ scene e' = (before ++ after)%list
    /\ selected_object e' = None.
Proof.
  intros Hd Hs. cbv zeta.
  assert (Hl : lookup_ref r (objects e) = Some v).
  { unfold selection in Hs. destruct (selected_object e) as [r0|];
      [|discriminate]. cbn in Hs.
    destruct (lookup_ref r0 (objects e)) as [v0|] eqn:L; [|discriminate].
    now injection Hs as <- <-. }
  destruct (py_remove_found r v (objects e) Hl) as (l' & R).
  destruct (py_remove_split r v (objects e) l' R)
    as (B & p & A & E & Sp & HB & ->).
  assert (Hp : snd p = v).
  { unfold same_object in Sp. apply orb_prop in Sp.
    destruct Sp as [Sp|Sp]; [|now apply ZPLObject_eqb_eq].
    rewrite E in Hl. clear -Hl HB Sp.
    induction B as [|[q o] B IH]; cbn [app lookup_ref] in Hl.
    - destruct p as [q o]. cbn [fst snd] in *. rewrite Sp in Hl.
      now injection Hl.
    - cbn [forallb] in HB. apply andb_prop in HB. destruct HB as [Hq HB].
      unfold same_object in Hq. cbn [fst snd] in Hq.
      apply negb_true_iff, orb_false_elim in Hq. destruct Hq as [Hq _].
      rewrite Hq in Hl. now apply IH. }
  exists (map snd B), (map snd A).
  assert (Sc : scene e = (map snd B ++ v :: map snd A)%list).
  { unfold scene. rewrite E, map_app. cbn [map]. now rewrite Hp. }
  split; [exact Sc|]. split; [|split].
  - intros I. apply in_map_iff in I. destruct I as (q & Qv & Qi).
    rewrite forallb_forall in HB. specialize (HB q Qi).
    apply negb_true_iff in HB. unfold same_object in HB.
    apply orb_false_elim in HB. destruct HB as [_ HB].
    rewrite Qv in HB.
    assert (T : ZPLObject_eqb v v = true) by now apply ZPLObject_eqb_eq.
    congruence.
  - unfold delete_selected. rewrite Hs, R.
    change (scene (save_state ?t)) with (scene t).
    rewrite scene_redraw. unfold scene at 1.
    cbn [objects with_objects with_selected label_settings zoom].
    rewrite map_app. unfold drawn in Hd. rewrite Sc, map_app in Hd.
    cbn [map] in Hd.
    apply app_same_length in Hd; [|now rewrite length_map].
    destruct Hd as (D1 & D2). injection D2 as _ D2.
    now rewrite map_app, D1, D2.
  - unfold delete_selected. rewrite Hs, R. reflexivity.
Qed.

End Deleting.

Lemma delete_selected_removes_witness :
  let e := run uuid_seq measure_mono init [AddObject "text"; AddObject "circle"] in
  let v := set_selected true
             (set_id (take 8 (uuid_seq 1)) (new_object "circle" 50 50 40 40 "")) in
  let e' := delete_selected measure_mono e in
  exists before after,
    scene e = (before ++ v :: after)%list
    /\ ~ In v before
    /\ scene e' = (before ++ after)%list
    /\ selected_object e' = None.
Proof.
  apply (delete_selected_removes measure_mono 1%nat
           (set_selected true
              (set_id (take 8 (uuid_seq 1)) (new_object "circle" 50 50 40 40 "")))
           (run uuid_seq measure_mono init
              [AddObject "text"; AddObject "circle"])).
  - apply run_drawn. apply init_drawn.
  - vm_compute. reflexivity.
Defined.

(** ** Changing the stacking order *)

Lemma py_index_split (r : ref) (v : ZPLObject) (l : list (ref * ZPLObject))
  (i : nat) :
  py_index r v l = Some i ->
  exists before p after,
    l = (before ++ p :: after)%list
    /\ length before = i
    /\ same_object r v p = true
    /\ forallb (fun q => negb (same_object r v q)) before = true.
Proof.
  revert i. induction l as [|p l IH]; intros i H; [discriminate|].
  cbn [py_index] in H. destruct (same_object r v p) eqn:S.
  - injection H as <-. exists [], p, l. now repeat split.
  - destruct (py_index r v l) as [j|]; [|discriminate].
    injection H as <-.
    destruct (IH j eq_refl) as (before & q & after & -> & L & Sq & Hb).
    exists (p :: before), q, after. repeat split; try assumption.
    + cbn [length]. now rewrite L.
    + cbn [forallb]. now rewrite S, Hb.
Qed.

Lemma py_index_found (r : ref) (v : ZPLObject) (l : list (ref * ZPLObject)) :
  lookup_ref r l = Some v -> exists i, py_index r v l = Some i.
Proof.
  induction l as [|[q o] l IH]; [discriminate|].
  cbn [lookup_ref py_index]. unfold same_object. cbn [fst snd].
  destruct (Nat.eqb r q); cbn [orb]; [now eexists|].
  intros H. destruct (ZPLObject_eqb o v); [now eexists|].
  destruct (IH H) as (i & ->). now eexists.
Qed.

(** The first object of the list that is the selection or equals it holds
    the value of the selection, and no object before it does. *)
Lemma first_same_object (r : ref) (v : ZPLObject)
  (before after : list (ref * ZPLObject)) (p : ref * ZPLObject) :
  lookup_ref r (before ++ p :: after) = Some v ->
  same_object r v p = true ->
  forallb (fun q => negb (same_object r v q)) before = true ->
  snd p = v /\ ~ In v (map snd before).
Proof.
  intros Hl Sp HB. split.
  - unfold same_object in Sp. apply orb_prop in Sp.
    destruct Sp as [Sp|Sp]; [|now apply ZPLObject_eqb_eq].
    induction before as [|[q o] B IH]; cbn [app lookup_ref] in Hl.
    + destruct p as [q o]. cbn [fst snd] in *. rewrite Sp in Hl.
      now injection Hl.
    + cbn [forallb] in HB. apply andb_prop in HB. destruct HB as [Hq HB].
      unfold same_object in Hq. cbn [fst snd] in Hq.
      apply negb_true_iff, orb_false_elim in Hq. destruct Hq as [Hq _].
      rewrite Hq in Hl. now apply IH.
  - intros I. apply in_map_iff in I. destruct I as (q & Qv & Qi).
    rewrite forallb_forall in HB. specialize (HB q Qi).
    apply negb_true_iff in HB. unfold same_object in HB.
    apply orb_false_elim in HB. destruct HB as [_ HB].
    rewrite Qv in HB.
    assert (T : ZPLObject_eqb v v = true) by now apply ZPLObject_eqb_eq.
    congruence.
Qed.

Lemma swap_with_next_at {A : Type} (before : list A) (a b : A) (after : list A) :
  swap_with_next (length before) (before ++ a :: b :: after)
  = (before ++ b :: a :: after)%list.
Proof.
  induction before as [|c before IH]; cbn [length app swap_with_next];
    [reflexivity | now rewrite IH].
Qed.

Lemma selection_lookup (e : ZPLEditor) (r : ref) (v : ZPLObject) :
  selection e = Some (r, v) ->
  selected_object e = Some r /\ lookup_ref r (objects e) = Some v.
Proof.
  unfold selection. destruct (selected_object e) as [r0|]; [|discriminate].
  cbn. destruct (lookup_ref r0 (objects e)) as [v0|] eqn:L; [|discriminate].
  intros H. injection H as <- <-. now split.
Qed.

Lemma map_fixed_in {A : Type} (f : A -> A) (l : list A) (a : A) :
  map f l = l -> In a l -> f a = a.
Proof.
  induction l as [|b l IH]; intros H I; [contradiction|].
  cbn [map] in H. injection H as H1 H2.
  destruct I as [<-|I]; [exact H1 | now apply IH].
Qed.

Section Stacking.

Variable measure_text : Z -> Q -> string -> string -> string -> option (Z * Z).

(** Redrawing a rearrangement of a drawn scene changes nothing. *)
Lemma scene_rearranged (e : ZPLEditor) (l : list (ref * ZPLObject)) :
  drawn measure_text e ->
  (forall p, In p l -> In p (objects e)) ->
  scene (save_state (redraw_objects measure_text (with_objects l e)))
  = map snd l.
Proof.
  intros Hd Hin. change (scene (save_state ?t)) with (scene t).
  rewrite scene_redraw. unfold scene.
  cbn [objects with_objects label_settings zoom].
  unfold drawn, scene in Hd.
  rewrite map_map. apply map_ext_in. intros p Hp.
  apply Hin in Hp. apply (map_fixed_in _ _ _ Hd). now apply in_map.
Qed.

(** X19. [bring_forward] moves the selection one place up.  In a drawn
    state with a selection, the first object of the scene that equals the
    selected one changes places with the object after it and the selection
    stays; when that object is the last of the list, nothing changes and
    nothing is committed.  (The commit that follows the redraw of a swap is
    not stated.) *)
Theorem bring_forward_swaps (r : ref) (v : ZPLObject) (e : ZPLEditor) :
  drawn measure_text e ->
  selection e = Some (r, v) ->
  let e' := bring_forward measure_text e in
  exists before after,
    scene e = (before ++ v :: after)%list
    /\ ~ In v before
    /\ match after with
       | [] => e' = e
       | w :: rest =>
           scene e' = (before ++ w :: v :: rest)%list
           /\ selected_object e' = Some r
       end.
Proof.
  intros Hd Hs. cbv zeta.
  destruct (selection_lookup e r v Hs) as (Hsel & Hl).
  destruct (py_index_found r v (objects e) Hl) as (i & Hi).
  destruct (py_index_split r v (objects e) i Hi)
    as (B & p & A & E & Li & Sp & HB).
  rewrite E in Hl.
  destruct (first_same_object r v B A p Hl Sp HB) as (Hp & Hn).
  exists (map snd B), (map snd A).
  split; [unfold scene; rewrite E, map_app; cbn [map]; now rewrite Hp|].
  split; [exact Hn|].
  unfold bring_forward. rewrite Hs, Hi, E, length_app.
  destruct A as [|q A]; cbn [map length].
  - replace (S i <? length B + 1)%nat with false
      by (symmetry; apply Nat.ltb_ge; lia).
    reflexivity.
  - replace (S i <? length B + S (S (length A)))%nat with true
      by (symmetry; apply Nat.ltb_lt; lia).
    rewrite <- Li, swap_with_next_at. split.
    + rewrite scene_rearranged; [|exact Hd|].
      * rewrite map_app. cbn [map]. now rewrite Hp.
      * intros x Hx. rewrite E. apply in_app_or in Hx. apply in_or_app.
        destruct Hx as [Hx|Hx]; [now left | right].
        cbn [In] in *. tauto.
    + exact Hsel.
Qed.

(** X20. [send_backward] moves the selection one place down.  In a drawn
    state with a selection, the first object of the scene that equals the
    selected one changes places with the object before it and the selection
    stays; when that object is the first of the list, nothing changes and
    nothing is committed.  (The commit that follows the redraw of a swap is
    not stated.) *)
Theorem send_backward_swaps (r : ref) (v : ZPLObject) (e : ZPLEditor) :
  drawn measure_text e ->
  selection e = Some (r, v) ->
  let e' := send_backward measure_text e in
  exists before after,
    scene e = (before ++ v :: after)%list
    /\ ~ In v before
    /\ match rev before with
       | [] => e' = e
       | w :: rest =>
           scene e' = (rev rest ++ v :: w :: after)%list
           /\ selected_object e' = Some r
       end.
Proof.
  intros Hd Hs. cbv zeta.
  destruct (selection_lookup e r v Hs) as (Hsel & Hl).
  destruct (py_index_found r v (objects e) Hl) as (i & Hi).
  destruct (py_index_split r v (objects e) i Hi)
    as (B & p & A & E & Li & Sp & HB).
  rewrite E in Hl.
  destruct (first_same_object r v B A p Hl Sp HB) as (Hp & Hn).
  exists (map snd B), (map snd A).
  split; [unfold scene; rewrite E, map_app; cbn [map]; now rewrite Hp|].
  split; [exact Hn|].
  unfold send_backward. rewrite Hs, Hi.
  destruct B as [|b B] using rev_ind; [cbn in Li; subst i; reflexivity|].
  clear IHB. rewrite map_app, rev_app_distr. cbn [map rev app].
  rewrite length_app in Li. cbn [length] in Li.
  replace i with (S (length B)) by lia.
  rewrite E, <- List.app_assoc. cbn [app]. rewrite swap_with_next_at.
  rewrite rev_involutive. split.
  - rewrite scene_rearranged; [|exact Hd|].
    + rewrite map_app. cbn [map]. now rewrite Hp.
    + intros x Hx. rewrite E, <- List.app_assoc. cbn [app].
      apply in_app_or in Hx. apply in_or_app.
      destruct Hx as [Hx|Hx]; [now left | right].
      cbn [In] in *. tauto.
  - exact Hsel.
Qed.

End Stacking.

Lemma bring_forward_swaps_witness :
  let e := run uuid_seq measure_mono init
             [AddObject "text"; AddObject "circle";
              CanvasClick (120 # 1) (60 # 1)] in
  let v := set_selected true
             (set_height 20
                (set_width 84
                   (set_id (take 8 (uuid_seq 0))
                      (new_object "text" 50 50 100 30 "Esempio")))) in
  let e' := bring_forward measure_mono e in
  exists before after,
    scene e = (before ++ v :: after)%list
    /\ ~ In v before
    /\ match after with
       | [] => e' = e
       | w :: rest =>
           scene e' = (before ++ w :: v :: rest)%list
           /\ selected_object e' = Some 0%nat
       end.
Proof.
  apply (bring_forward_swaps measure_mono 0%nat
           (set_selected true
              (set_height 20
                 (set_width 84
                    (set_id (take 8 (uuid_seq 0))
                       (new_object "text" 50 50 100 30 "Esempio")))))
           (run uuid_seq measure_mono init
              [AddObject "text"; AddObject "circle";
               CanvasClick (120 # 1) (60 # 1)])).
  - apply run_drawn. apply init_drawn.
  - vm_compute. reflexivity.
Defined.

Lemma send_backward_swaps_witness :
  let e := run uuid_seq measure_mono init [AddObject "text"; AddObject "circle"] in
  let v := set_selected true
             (set_id (take 8 (uuid_seq 1)) (new_object "circle" 50 50 40 40 "")) in
  let e' := send_backward measure_mono e in
  exists before after,
    scene e = (before ++ v :: after)%list
    /\ ~ In v before
    /\ match rev before with
       | [] => e' = e
       | w :: rest =>
           scene e' = (rev rest ++ v :: w :: after)%list
           /\ selected_object e' = Some 1%nat
       end.
Proof.
  apply (send_backward_swaps measure_mono 1%nat
           (set_selected true
              (set_id (take 8 (uuid_seq 1)) (new_object "circle" 50 50 40 40 "")))
           (run uuid_seq measure_mono init
              [AddObject "text"; AddObject "circle"])).
  - apply run_drawn. apply init_drawn.
  - vm_compute. reflexivity.
Defined.

(** ** What the handlers leave alone *)

Section Frames.

Variable uuid4 : nat -> string.
Variable measure_text : Z -> Q -> string -> string -> string -> option (Z * Z).

Ltac unfold_handlers :=
  unfold add_object, delete_selected, clear_all, on_canvas_click,
    on_canvas_drag, on_canvas_release, edit_property, apply_changes,
    copy_object, paste_object, bring_forward, send_backward,
    new_project, import_project, import_zpl_file, undo, redo, set_zoom,
    apply_label_settings, select_object.

Ltac break_handler :=
  repeat match goal with
         | |- context [match ?t with _ => _ end] => destruct t eqn:?
         end.




End Frames.

(** ** The properties dialog *)

Section Dialog.

Variable measure_text : Z -> Q -> string -> string -> string -> option (Z * Z).

(** An assignment to the fields of one object of a drawn scene, followed by
    a redraw, changes that object alone. *)
Lemma lookup_redraw_update (e : ZPLEditor) (r : ref)
  (f : ZPLObject -> ZPLObject) :
  drawn measure_text e ->
  forall r',
    lookup_ref r'
      (objects (redraw_objects measure_text
                  (with_objects (update_ref r f (objects e)) e)))
    = if Nat.eqb r r'
      then option_map
             (fun o => draw_object measure_text (label_settings e) (zoom e) (f o))
             (lookup_ref r' (objects e))
      else lookup_ref r' (objects e).
Proof.
  intros Hd r'. unfold redraw_objects, update_ref.
  cbn [objects with_objects label_settings zoom].
  unfold drawn, scene in Hd. revert Hd.
  generalize (label_settings e), (zoom e). intros s z.
  induction (objects e) as [|[q o] l IH]; intros Hd.
  - now destruct (Nat.eqb r r').
  - cbn [map fst snd] in *. injection Hd as D1 D2. specialize (IH D2).
    destruct (Nat.eqb r q) eqn:A; cbn [fst snd lookup_ref];
      destruct (Nat.eqb r' q) eqn:B; rewrite ?IH;
      destruct (Nat.eqb r r') eqn:C; cbn [option_map]; rewrite ?D1;
      try reflexivity;
      apply Nat.eqb_eq in A || apply Nat.eqb_neq in A;
      apply Nat.eqb_eq in B || apply Nat.eqb_neq in B;
      apply Nat.eqb_eq in C || apply Nat.eqb_neq in C;
      subst; congruence.
Qed.

(** X22. What the button "Applica" of the properties dialog does.  In a
    drawn state with a selection, [apply_changes] writes the position into
    the selected object, and the width and the height as entered into an
    object that is no text; the content, a text of ASCII characters, is
    written with the white space around it stripped into a text, a barcode
    or an image and into no other object.  Every other object is left as
    it was, and the selection stays.  (The size of a text, which the redraw
    overwrites when it reaches the object, and the commit that follows the
    redraw are not stated.) *)
Theorem apply_changes_sets (nx ny nw nh : Z) (ntext : string) (r : ref)
  (v : ZPLObject) (e : ZPLEditor) :
  drawn measure_text e ->
  selection e = Some (r, v) ->
  string_forall is_ascii ntext = true ->
  let e' := apply_changes measure_text nx ny nw nh ntext e in
  (exists v',
     lookup_ref r (objects e') = Some v'
     /\ x v' = nx /\ y v' = ny
     /\ text v' = (if has_content v then strip ntext else text v)
     /\ (has_type v "text" = false -> width v' = nw /\ height v' = nh))
  /\ (forall r', r' <> r ->
        lookup_ref r' (objects e') = lookup_ref r' (objects e))
  /\ selected_object e' = Some r.
Proof.
  intros Hd Hs _. cbv zeta.
  destruct (selection_lookup e r v Hs) as (Hsel & Hl).
  unfold apply_changes. rewrite Hs.
  set (f := fun o : ZPLObject =>
              if has_content
                   (set_height nh (set_width nw (set_y ny (set_x nx o))))
              then set_text (strip ntext)
                     (set_height nh (set_width nw (set_y ny (set_x nx o))))
              else set_height nh (set_width nw (set_y ny (set_x nx o)))).
  split; [|split].
  - change (objects (save_state ?t)) with (objects t).
    rewrite (lookup_redraw_update e r f Hd r), Nat.eqb_refl, Hl.
    cbn [option_map].
    exists (draw_object measure_text (label_settings e) (zoom e) (f v)).
    split; [reflexivity|].
    unfold f, has_content, has_type, draw_object, has_type.
    cbn [obj_type set_x set_y set_width set_height].
    destruct (String.eqb (obj_type v) "text") eqn:T.
    + cbn [orb obj_type set_text font_size font_type text]. rewrite ?T.
      cbn [obj_type set_text font_size font_type text].
      destruct (measure_text _ _ _ _ _) as [[w h]|]; cbn; rewrite ?T; cbn;
        repeat split; first [reflexivity | discriminate].
    + cbn [orb].
      destruct (String.eqb (obj_type v) "barcode" || String.eqb (obj_type v) "image");
        cbn [obj_type set_text]; rewrite ?T; cbn; rewrite ?T; cbn;
        repeat split; reflexivity.
  - intros r' N. change (objects (save_state ?t)) with (objects t).
    rewrite (lookup_redraw_update e r f Hd r').
    destruct (Nat.eqb_spec r r'); [congruence | reflexivity].
  - exact Hsel.
Qed.

End Dialog.

Lemma apply_changes_sets_witness :
  let e := run uuid_seq measure_mono init [AddObject "rectangle"] in
  let v := set_selected true
             (set_id (take 8 (uuid_seq 0))
                (new_object "rectangle" 50 50 80 40 "")) in
  let e' := apply_changes measure_mono 5 6 300 200 "  Lot 7 " e in
  (exists v',
     lookup_ref 0%nat (objects e') = Some v'
     /\ x v' = 5 /\ y v' = 6
     /\ text v' = (if has_content v then strip "  Lot 7 " else text v)
     /\ (has_type v "text" = false -> width v' = 300 /\ height v' = 200))
  /\ (forall r', r' <> 0%nat ->
        lookup_ref r' (objects e') = lookup_ref r' (objects e))
  /\ selected_object e' = Some 0%nat.
Proof.
  apply (apply_changes_sets measure_mono 5 6 300 200 "  Lot 7 " 0%nat
           (set_selected true
              (set_id (take 8 (uuid_seq 0))
                 (new_object "rectangle" 50 50 80 40 "")))
           (run uuid_seq measure_mono init [AddObject "rectangle"])).
  - apply run_drawn. apply init_drawn.
  - vm_compute. reflexivity.
  - vm_compute. reflexivity.
Defined.

(** ** Blanks around the commands *)

Lemma rstrip_blanks (ws : string) :
  string_forall is_space ws = true -> rstrip ws = "".
Proof.
  induction ws as [|c ws IH]; [reflexivity|].
  cbn [string_forall rstrip]. intros H. apply andb_prop in H.
  destruct H as [Hc Hw]. now rewrite (IH Hw), Hc.
Qed.

Lemma rstrip_app_blanks (m ws : string) :
  string_forall is_space ws = true -> rstrip (m ++ ws) = rstrip m.
Proof.
  intros H. induction m as [|c m IH]; [now apply rstrip_blanks|].
  cbn [String.append rstrip]. now rewrite IH.
Qed.

Lemma lstrip_blanks (ws s : string) :
  string_forall is_space ws = true -> lstrip (ws ++ s) = lstrip s.
Proof.
  induction ws as [|c ws IH]; [reflexivity|].
  cbn [string_forall String.append lstrip]. intros H. apply andb_prop in H.
  destruct H as [Hc Hw]. rewrite Hc. now apply IH.
Qed.

Lemma strip_app_blanks (l ws : string) :
  string_forall is_space ws = true -> strip (l ++ ws) = strip l.
Proof.
  intros H. unfold strip. induction l as [|c l IH].
  - cbn [String.append]. rewrite <- (sapp_nil_r ws) at 1.
    rewrite (lstrip_blanks ws "" H). reflexivity.
  - cbn [String.append lstrip]. destruct (is_space c); [exact IH|].
    exact (rstrip_app_blanks (String c l) ws H).
Qed.

(** [strip] removes the blanks around a line. *)
Lemma strip_padded (a l b : string) :
  string_forall is_space a = true -> string_forall is_space b = true ->
  strip (a ++ l ++ b) = strip l.
Proof.
  intros Ha Hb. unfold strip. rewrite (lstrip_blanks a _ Ha).
  exact (strip_app_blanks l b Hb).
Qed.

Lemma blank_space_all (s : string) :
  string_forall blank s = true ->
  string_forall is_space s = true /\ string_forall not_nl s = true.
Proof.
  intros H. split; revert H; apply string_forall_impl; intros c Hc;
    unfold blank in Hc; apply andb_prop in Hc; now destruct Hc.
Qed.

Section Padding.

Variable uuid4 : nat -> string.

Lemma parse_line_strip (st : ParserState) (raw raw' : string) :
  strip raw = strip raw' -> parse_line uuid4 st raw = parse_line uuid4 st raw'.
Proof. intros H. unfold parse_line. now rewrite H. Qed.

Lemma parse_lines_padded (ls : list (string * string * string)) :
  forallb padding_ok ls = true ->
  forall st tail,
    parse_lines uuid4 st (map padded ls ++ tail)
    = parse_lines uuid4 st (map unpadded ls ++ tail).
Proof.
  induction ls as [|[[a l] b] ls IH]; intros H st tail; [reflexivity|].
  cbn [forallb] in H. apply andb_prop in H. destruct H as [Hp Hr].
  unfold padding_ok in Hp. apply andb_prop in Hp. destruct Hp as [Hp Hb].
  apply andb_prop in Hp. destruct Hp as [Ha _].
  apply blank_space_all in Ha, Hb.
  cbn [map app parse_lines padded unpadded].
  rewrite (parse_line_strip st (a ++ l ++ b) l)
    by (apply strip_padded; tauto).
  destruct (parse_line uuid4 st l); [now apply IH | reflexivity].
Qed.

(** X23. The decoder ignores the blanks around the commands.  White space
    before and after the lines of a file, such as an indentation or the
    carriage returns of a file with CRLF line ends, makes no difference to
    the objects read or to the identifiers drawn. *)
Theorem parse_zpl_file_ignores_blanks (calls : nat)
  (ls : list (string * string * string)) :
  forallb padding_ok ls = true ->
  parse_zpl_file uuid4 calls (unlines (map padded ls))
  = parse_zpl_file uuid4 calls (unlines (map unpadded ls)).
Proof.
  intros H. unfold parse_zpl_file.
  assert (N : Forall (fun l => string_forall not_nl l = true) (map padded ls)
              /\ Forall (fun l => string_forall not_nl l = true)
                   (map unpadded ls)).
  { clear -H. induction ls as [|[[a l] b] ls IH]; [split; constructor|].
    cbn [forallb] in H. apply andb_prop in H. destruct H as [Hp Hr].
    unfold padding_ok in Hp. apply andb_prop in Hp. destruct Hp as [Hp Hb].
    apply andb_prop in Hp. destruct Hp as [Ha Hl].
    apply blank_space_all in Ha, Hb. destruct (IH Hr) as (I1 & I2).
    split; constructor; try assumption.
    cbn [padded]. rewrite !string_forall_app.
    destruct Ha as (_ & ->), Hb as (_ & ->). now rewrite Hl. }
  destruct N as (N1 & N2).
  rewrite !split_lines_unlines_lines by assumption.
  now rewrite parse_lines_padded.
Qed.

End Padding.

Lemma parse_zpl_file_ignores_blanks_witness :
  parse_zpl_file uuid_seq 0 (unlines (map padded sample_label_crlf))
  = parse_zpl_file uuid_seq 0 (unlines (map unpadded sample_label_crlf)).
Proof.
  assert (H : forallb padding_ok sample_label_crlf = true)
    by (vm_compute; reflexivity).
  exact (parse_zpl_file_ignores_blanks uuid_seq 0 sample_label_crlf H).
Defined.

(** ** Adding an object *)

Lemma update_ref_fresh (r : ref) (f : ZPLObject -> ZPLObject)
  (l : list (ref * ZPLObject)) :
  ~ In r (map fst l) -> update_ref r f l = l.
Proof.
  unfold update_ref. induction l as [|[q o] l IH]; intros H; [reflexivity|].
  cbn [map fst snd In] in *.
  destruct (Nat.eqb_spec r q) as [E|_]; [exfalso; apply H; left; now symmetry|].
  rewrite IH; [reflexivity | tauto].
Qed.

Section Adding.

Variable uuid4 : nat -> string.
Variable measure_text : Z -> Q -> string -> string -> string -> option (Z * Z).

(** Setting the flag of an object and drawing it commute. *)
Lemma draw_object_selected (s : LabelSettings) (z : Q) (b : bool) (o : ZPLObject) :
  draw_object measure_text s z (set_selected b o)
  = set_selected b (draw_object measure_text s z o).
Proof.
  unfold draw_object, has_type. cbn [obj_type set_selected font_size font_type text].
  destruct (String.eqb (obj_type o) "text"); [|reflexivity].
  destruct (measure_text _ _ _ _ _) as [[w h]|]; reflexivity.
Qed.

(** X24. What [add_object] adds.  In a drawn state, with [(px, py)] the
    snapped default position and the new object a new entry of the list,
    [add_object] clears the flag [selected] of every object, changes
    nothing else of them, and appends one object: of the type asked for, at
    [(px, py)], with the content the table [defaults] gives for the type,
    the first eight characters of a fresh UUID as identifier, and selected.
    Its width and height are those of the table when it is no text (the
    size of a text is overwritten by the redraw when it reaches the
    object).  The new object becomes the selection.  (The commit that
    closes the handler is not stated.) *)
Theorem add_object_appends (ty : string) (px py : Z) (e : ZPLEditor) :
  drawn measure_text e ->
  ~ In (next_ref e) (map fst (objects e)) ->
  snap_to_grid (label_settings e) 50 50 = Some (px, py) ->
  let e' := add_object uuid4 measure_text ty e in
  (exists w h,
     scene e'
     = (map (set_selected false) (scene e)
        ++ [set_selected true
              (set_id (take 8 (uuid4 (uuid_calls e)))
                 (new_object ty px py w h (default_text ty)))])%list
     /\ (String.eqb ty "text" = false ->
         w = default_width ty /\ h = default_height ty))
  /\ selected_object e' = Some (next_ref e)
  /\ uuid_calls e' = S (uuid_calls e).
Proof.
  intros Hd Hf Hs. cbv zeta. unfold add_object. rewrite Hs.
  unfold post_init. cbn [id new_object is_empty].
  split; [|split; reflexivity].
  rewrite scene_save_state.
  unfold select_object, redraw_objects, scene.
  cbn [objects with_objects with_selected with_uuid_calls with_next_ref
         label_settings zoom].
  set (s := label_settings e). set (z := zoom e).
  rewrite (map_app (fun p => (fst p, set_selected false (snd p)))).
  rewrite update_ref_app.
  rewrite update_ref_fresh by now rewrite refs_map_snd.
  unfold update_ref. cbn [map fst snd]. rewrite Nat.eqb_refl.
  rewrite !map_app, !map_map. cbn [map fst snd].
  assert (Hold :
    map (fun p : ref * ZPLObject =>
           draw_object measure_text s z
             (draw_object measure_text s z (set_selected false (snd p))))
        (objects e)
    = map (fun p : ref * ZPLObject => set_selected false (snd p)) (objects e)).
  { unfold drawn, scene in Hd. fold s z in Hd.
    apply map_ext_in. intros p Hp.
    rewrite !draw_object_selected.
    rewrite (map_fixed_in _ _ (snd p) Hd) by now apply in_map.
    now rewrite (map_fixed_in _ _ (snd p) Hd) by now apply in_map. }
  rewrite Hold, draw_object_idem.
  unfold draw_object, has_type, set_selected, set_id, new_object.
  cbn [obj_type font_size font_type text].
  destruct (String.eqb ty "text") eqn:T.
  - destruct (measure_text _ _ _ _ _) as [[w h]|].
    + exists w, h. split; [reflexivity | discriminate].
    + exists (default_width ty), (default_height ty).
      split; [reflexivity | discriminate].
  - exists (default_width ty), (default_height ty).
    split; [reflexivity | intros _; split; reflexivity].
Qed.

End Adding.

Lemma add_object_appends_witness :
  let e := run uuid_seq measure_mono init [AddObject "text"] in
  let e' := add_object uuid_seq measure_mono "circle" e in
  (exists w h,
     scene e'
     = (map (set_selected false) (scene e)
        ++ [set_selected true
              (set_id (take 8 (uuid_seq (uuid_calls e)))
                 (new_object "circle" 50 50 w h (default_text "circle")))])%list
     /\ (String.eqb "circle" "text" = false ->
         w = default_width "circle" /\ h = default_height "circle"))
  /\ selected_object e' = Some (next_ref e)
  /\ uuid_calls e' = S (uuid_calls e).
Proof.
  apply (add_object_appends uuid_seq measure_mono "circle" 50 50
           (run uuid_seq measure_mono init [AddObject "text"])).
  - apply run_drawn. apply init_drawn.
  - vm_compute. intros [H|[]]. discriminate H.
  - vm_compute. reflexivity.
Defined.
